(** * PCBA test GUI: measurement comparison and plot-preparation engine

    A shallow embedding of the data-preparation, pairing and point-deletion
    code of the graphing subsystem, and the properties its specification
    states about it; then of the code around it (sizes, point registration,
    hit testing, selection and hover, the other pairings of the page), with
    further properties read off that code.

    Embedded sources:
    - [gui/graph_generation/graph_config.py]    ([GraphConfig.__post_init__])
    - [gui/graph_generation/graph_utils.py]     ([detect_outliers], [get_grouped_data],
                                                 the size tables)
    - [gui/graph_generation/graph_generator.py] ([MeasurementGraphGenerator])
    - [gui/pages/graph_page.py]                 ([_pair_by_test_fixture], [_pair_by_batch],
                                                 [_pair_with_manufacturer_data],
                                                 [_pair_first_last_tests], [_get_group_value])

    Python floats are IEEE-754 binary64 numbers: they are the kernel's
    primitive floats.  Python integers are unbounded: [Z] (or [nat] for
    lengths).  Exceptions are an explicit result type. *)

From Stdlib Require Import ZArith List Bool Lia String Ascii.
From Stdlib Require Import PrimFloat Uint63 DecimalString.
From Stdlib Require FloatOps SpecFloat.
From stdpp Require Import gmap strings list fin_maps sorting.

Set Default Proof Using "Type".

(* ===================================================================== *)
(** * Part I: the embedding                                               *)
(* ===================================================================== *)

(** ** Python runtime: exceptions, truthiness, text *)

Inductive PyExc : Type :=
| ValueError (msg : string)
| IndexError
| TypeError
| AttributeError.

Inductive Result (A : Type) : Type :=
| Ok (a : A)
| Raise (e : PyExc).

Arguments Ok {A} a.
Arguments Raise {A} e.

(** Statements run in sequence until one raises: [x ← c; k] is stdpp's
    notation for [c ≫= λ x, k]. *)
#[global] Instance result_bind : MBind Result := fun A B k c =>
  match c with
  | Ok a => k a
  | Raise e => Raise e
  end.

Definition is_ok {A : Type} (r : Result A) : bool :=
  match r with Ok _ => true | Raise _ => false end.

(** [bool(s)] for a string: the empty string is falsy. *)
Definition str_truthy (s : string) : bool :=
  match s with EmptyString => false | String _ _ => true end.

(** [bool(o)] for an [Optional[str]]: [None] and [''] are falsy. *)
Definition opt_truthy (o : option string) : bool :=
  match o with None => false | Some s => str_truthy s end.

(** [str(n)] for an integer. *)
Definition str_of_Z (z : Z) : string := NilZero.string_of_int (Z.to_int z).

(** [float(n)] for a length. *)
Definition float_of_nat (n : nat) : float :=
  PrimFloat.of_uint63 (Uint63.of_Z (Z.of_nat n)).

(** Mapping a fallible function over a list, left to right. *)
Fixpoint mapM {A B : Type} (f : A -> Result B) (l : list A) : Result (list B) :=
  match l with
  | [] => Ok []
  | x :: l' => y ← f x; ys ← mapM f l'; Ok (y :: ys)
  end.

(** ** Insertion-ordered dictionaries

    Python's [dict] (and [defaultdict]) iterate in insertion order, and the
    pairing code depends on that order: a dictionary is the list of its
    items, keys distinct, in insertion order. *)

Section PyDict.
Context {K V : Type} `{EqDecision K}.

Definition pydict_get (k : K) (d : list (K * V)) : option V :=
  snd <$> find (fun kv => bool_decide (fst kv = k)) d.

(** [k in d] *)
Definition pydict_mem (k : K) (d : list (K * V)) : bool :=
  match pydict_get k d with Some _ => true | None => false end.

(** [d[k] = v]: an existing key keeps its position. *)
Fixpoint pydict_set (k : K) (v : V) (d : list (K * V)) : list (K * V) :=
  match d with
  | [] => [(k, v)]
  | (k', v') :: d' =>
      if bool_decide (k' = k) then (k, v) :: d' else (k', v') :: pydict_set k v d'
  end.

(** [list(d.keys())] *)
Definition pydict_keys (d : list (K * V)) : list K := map fst d.

End PyDict.

(** [d[k].append(x)] on a [defaultdict(list)] (and the equivalent
    [if k not in d: d[k] = []] followed by [d[k].append(x)]). *)
Definition pydict_append {K A : Type} `{EqDecision K}
    (k : K) (x : A) (d : list (K * list A)) : list (K * list A) :=
  match pydict_get k d with
  | Some l => pydict_set k (l ++ [x]) d
  | None => pydict_set k [x] d
  end.

(** ** Data model: the measurement objects handed to the engine *)

Record Datetime : Type := {
  dt_timestamp : float;   (* [datetime.timestamp()] *)
  dt_text : string        (* [str(datetime)] *)
}.

Record PCBABoard : Type := {
  serial_number : option string;
  part_number : option string
}.

Record PMT : Type := {
  pmt_serial_number : option string;
  batch_number : option string;
  generation : option Z
}.

Record TestLog : Type := {
  test_fixture : option string;
  pia_board : option PCBABoard;
  pmt_device : option PMT;
  tl_created_at : option Datetime
}.

Record SubTest : Type := {
  test_id : Z;
  test_log : option TestLog
}.

(** One measurement with its related objects
    ([Database_Full_Measurement_Result_Object], and the [Spec] rows the
    graph page works on). *)
Record Measurement : Type := {
  id : Z;
  name : string;
  unit : string;
  measurement : option float;
  nominal : option float;
  has_plot : bool;
  plot_data : option (list (float * float));
  created_at : option Datetime;
  sub_test : option SubTest;
  pia : option PCBABoard;
  pmt : option PMT
}.

(** Truthiness of [m.plot_data]: [None] and the empty list are falsy. *)
Definition plot_data_truthy (m : Measurement) : bool :=
  match plot_data m with
  | Some (_ :: _) => true
  | _ => false
  end.

(** Values met while walking a dotted attribute path with [getattr]. *)
Inductive PyVal : Type :=
| VNone
| VInt (z : Z)
| VFloat (f : float)
| VStr (s : string)
| VDatetime (d : Datetime)
| VBoard (b : PCBABoard)
| VPmt (p : PMT)
| VTestLog (t : TestLog)
| VSubTest (s : SubTest)
| VMeasurement (m : Measurement).

Definition of_opt {A : Type} (inj : A -> PyVal) (o : option A) : PyVal :=
  match o with Some a => inj a | None => VNone end.

(** [getattr(value, attr, None)], for the attributes the engine and its
    field table name; any other attribute is taken as absent. *)
Definition getattr (value : PyVal) (attr : string) : PyVal :=
  match value with
  | VMeasurement m =>
      if String.eqb attr "id" then VInt (id m)
      else if String.eqb attr "name" then VStr (name m)
      else if String.eqb attr "unit" then VStr (unit m)
      else if String.eqb attr "measurement" then of_opt VFloat (measurement m)
      else if String.eqb attr "nominal" then of_opt VFloat (nominal m)
      else if String.eqb attr "created_at" then of_opt VDatetime (created_at m)
      else if String.eqb attr "sub_test" then of_opt VSubTest (sub_test m)
      else if String.eqb attr "test_log" then of_opt VTestLog (sub_test m ≫= test_log)
      else if String.eqb attr "pia" then of_opt VBoard (pia m)
      else if String.eqb attr "pmt" then of_opt VPmt (pmt m)
      else VNone
  | VSubTest s =>
      if String.eqb attr "test_id" then VInt (test_id s)
      else if String.eqb attr "test_log" then of_opt VTestLog (test_log s)
      else VNone
  | VTestLog t =>
      if String.eqb attr "test_fixture" then of_opt VStr (test_fixture t)
      else if String.eqb attr "pia_board" then of_opt VBoard (pia_board t)
      else if String.eqb attr "pmt_device" then of_opt VPmt (pmt_device t)
      else if String.eqb attr "created_at" then of_opt VDatetime (tl_created_at t)
      else VNone
  | VBoard b =>
      if String.eqb attr "serial_number" then of_opt VStr (serial_number b)
      else if String.eqb attr "part_number" then of_opt VStr (part_number b)
      else VNone
  | VPmt p =>
      if String.eqb attr "pmt_serial_number" then of_opt VStr (pmt_serial_number p)
      else if String.eqb attr "batch_number" then of_opt VStr (batch_number p)
      else if String.eqb attr "generation" then of_opt VInt (generation p)
      else VNone
  | _ => VNone
  end.

(** [path.split('.')] *)
Fixpoint split_dot_aux (s : string) (cur : string) : list string :=
  match s with
  | EmptyString => [cur]
  | String c s' =>
      if Ascii.eqb c "."%char then cur :: split_dot_aux s' EmptyString
      else split_dot_aux s' (cur ++ String c EmptyString)
  end.

Definition split_dot (s : string) : list string := split_dot_aux s EmptyString.

(** The loop [for attr in path.split('.'): value = getattr(value, attr,
    None); if value is None: break]. *)
Fixpoint walk_attrs (value : PyVal) (attrs : list string) : PyVal :=
  match attrs with
  | [] => value
  | attr :: rest =>
      match getattr value attr with
      | VNone => VNone
      | v => walk_attrs v rest
      end
  end.

(** ** The numeric runtime

    numpy's reductions, Python's [sum()], [float()] on text and [str()] on
    objects are library code outside the repository: they are an interface, and
    every theorem below holds for any implementation of it.
    [sequential_runtime] is the plain left-to-right instance, used to run
    the embedding on concrete inputs (none of which converts text to a
    number or prints an object, so it reads no text as a number). *)

Class NumericRuntime : Type := {
  np_mean : list float -> float;
  np_std : list float -> float;
  py_sum : list float -> float;
  parse_float : string -> option float;
  py_repr : PyVal -> string
}.

Definition seq_sum (l : list float) : float := fold_left PrimFloat.add l 0%float.

Definition seq_mean (l : list float) : float :=
  PrimFloat.div (seq_sum l) (float_of_nat (length l)).

Definition seq_std (l : list float) : float :=
  let m := seq_mean l in
  PrimFloat.sqrt
    (seq_mean (map (fun x => PrimFloat.mul (PrimFloat.sub x m) (PrimFloat.sub x m)) l)).

Definition sequential_runtime : NumericRuntime := {|
  np_mean := seq_mean;
  np_std := seq_std;
  py_sum := seq_sum;
  parse_float := fun _ => None;
  py_repr := fun _ => "<object>"%string
|}.

(** ** graph_config.py: the configuration object *)

Inductive GraphType : Type := SCATTER | LINE | HISTOGRAM.

Inductive ComparisonMode : Type := NONE | SAME_MEASUREMENT | DIFFERENT_MEASUREMENTS.

#[global] Instance GraphType_eq_dec : EqDecision GraphType.
Proof. solve_decision. Defined.

#[global] Instance ComparisonMode_eq_dec : EqDecision ComparisonMode.
Proof. solve_decision. Defined.

(** The fields of [GraphConfig] that validation and data preparation read
    (the purely visual options are left out). *)
Record GraphConfig : Type := {
  measurements : list Measurement;
  graph_type : GraphType;
  legend_position : string;
  legend_bg_opacity : Z;
  enable_grouping_boxes : bool;
  group_by_field : option string;
  comparison_mode : ComparisonMode;
  x_axis_measurement : option string;
  y_axis_measurement : option string;
  x_axis_field : string;
  y_axis_field : option string;
  x_axis_use_indices : bool;
  pairing_device : string;
  pairing_strategy : string;
  auto_overlay_plots : bool;
  remove_outliers : bool;
  x_label : option string;
  y_label : option string
}.

(** [GraphConfig(measurements=ms)]: every other field at its default. *)
Definition default_config (ms : list Measurement) : GraphConfig :=
  {| measurements := ms;
     graph_type := SCATTER;
     legend_position := "top-right";
     legend_bg_opacity := 235;
     enable_grouping_boxes := false;
     group_by_field := None;
     comparison_mode := NONE;
     x_axis_measurement := None;
     y_axis_measurement := None;
     x_axis_field := "created_at";
     y_axis_field := None;
     x_axis_use_indices := true;
     pairing_device := "pia";
     pairing_strategy := "last";
     auto_overlay_plots := true;
     remove_outliers := false;
     x_label := None;
     y_label := None |}.

(** The keyword arguments [comparison_mode], [x_axis_measurement] and
    [y_axis_measurement] of the constructor. *)
Definition with_comparison (mode : ComparisonMode) (x y : option string) (c : GraphConfig)
    : GraphConfig :=
  {| measurements := measurements c;
     graph_type := graph_type c;
     legend_position := legend_position c;
     legend_bg_opacity := legend_bg_opacity c;
     enable_grouping_boxes := enable_grouping_boxes c;
     group_by_field := group_by_field c;
     comparison_mode := mode;
     x_axis_measurement := x;
     y_axis_measurement := y;
     x_axis_field := x_axis_field c;
     y_axis_field := y_axis_field c;
     x_axis_use_indices := x_axis_use_indices c;
     pairing_device := pairing_device c;
     pairing_strategy := pairing_strategy c;
     auto_overlay_plots := auto_overlay_plots c;
     remove_outliers := remove_outliers c;
     x_label := x_label c;
     y_label := y_label c |}.

(** [self.y_axis_measurement = y] *)
Definition set_y_axis_measurement (y : option string) (c : GraphConfig) : GraphConfig :=
  {| measurements := measurements c;
     graph_type := graph_type c;
     legend_position := legend_position c;
     legend_bg_opacity := legend_bg_opacity c;
     enable_grouping_boxes := enable_grouping_boxes c;
     group_by_field := group_by_field c;
     comparison_mode := comparison_mode c;
     x_axis_measurement := x_axis_measurement c;
     y_axis_measurement := y;
     x_axis_field := x_axis_field c;
     y_axis_field := y_axis_field c;
     x_axis_use_indices := x_axis_use_indices c;
     pairing_device := pairing_device c;
     pairing_strategy := pairing_strategy c;
     auto_overlay_plots := auto_overlay_plots c;
     remove_outliers := remove_outliers c;
     x_label := x_label c;
     y_label := y_label c |}.

(** [s in (a, b, ...)] *)
Definition str_in (s : string) (l : list string) : bool :=
  existsb (String.eqb s) l.

(** [a != b] on [Optional[str]] values. *)
Definition opt_str_neq (a b : option string) : bool :=
  negb (bool_decide (a = b)).

(** The comparison-mode block of [__post_init__]: checks the axis
    measurements and, in same-measurement mode, fills in the y axis. *)
Definition check_comparison (c : GraphConfig) : Result GraphConfig :=
  if bool_decide (comparison_mode c ≠ NONE) then
    if negb (opt_truthy (x_axis_measurement c)) then
      Raise (ValueError "Comparison mode requires x_axis_measurement to be specified")
    else if bool_decide (comparison_mode c = SAME_MEASUREMENT) then
      if opt_truthy (y_axis_measurement c)
         && opt_str_neq (y_axis_measurement c) (x_axis_measurement c) then
        Raise (ValueError ("SAME_MEASUREMENT mode requires y_axis_measurement to match x_axis_measurement "
                           ++ "(or be None, it will be set automatically)"))
      else Ok (set_y_axis_measurement (x_axis_measurement c) c)
    else if bool_decide (comparison_mode c = DIFFERENT_MEASUREMENTS) then
      if negb (opt_truthy (y_axis_measurement c)) then
        Raise (ValueError ("DIFFERENT_MEASUREMENTS mode requires both x_axis_measurement "
                           ++ "and y_axis_measurement to be specified"))
      else Ok c
    else Ok c
  else Ok c.

Definition valid_positions : list string :=
  ["top-left"; "top-right"; "bottom-left"; "bottom-right"]%string.

(** [GraphConfig.__post_init__]: the configuration after construction, or
    the [ValueError] raised. *)
Definition post_init (c0 : GraphConfig) : Result GraphConfig :=
  c ← check_comparison c0;
  if enable_grouping_boxes c && negb (opt_truthy (group_by_field c)) then
    Raise (ValueError "Grouping boxes enabled but no group_by_field specified")
  else if negb (str_in (pairing_device c) ["pia"; "pmt"]%string) then
    Raise (ValueError ("pairing_device must be 'pia' or 'pmt', got '"
                       ++ pairing_device c ++ "'"))
  else if negb (str_in (pairing_strategy c) ["first"; "last"; "best"]%string) then
    Raise (ValueError ("pairing_strategy must be 'first', 'last', or 'best', got '"
                       ++ pairing_strategy c ++ "'"))
  else if negb (str_in (legend_position c) valid_positions) then
    Raise (ValueError ("legend_position must be one of "
                       ++ "['top-left', 'top-right', 'bottom-left', 'bottom-right'], got '"
                       ++ legend_position c ++ "'"))
  else if negb ((0 <=? legend_bg_opacity c)%Z && (legend_bg_opacity c <=? 255)%Z) then
    Raise (ValueError ("legend_bg_opacity must be between 0 and 255, got "
                       ++ str_of_Z (legend_bg_opacity c)))
  else Ok c.

(** ** graph_utils.py: outlier detection and grouping *)

(** [arr[mask]]: the entries selected by a boolean mask. *)
Fixpoint boolean_index {A : Type} (arr : list A) (mask : list bool) : list A :=
  match arr, mask with
  | x :: arr', b :: mask' =>
      if b then x :: boolean_index arr' mask' else boolean_index arr' mask'
  | _, _ => []
  end.

(** [arr[mask] = v]: the masked entries overwritten. *)
Fixpoint mask_assign {A : Type} (arr : list A) (mask : list bool) (v : A) : list A :=
  match arr, mask with
  | x :: arr', b :: mask' => (if b then v else x) :: mask_assign arr' mask' v
  | _, _ => arr
  end.

(** [mask.sum()] *)
Definition mask_sum (mask : list bool) : nat :=
  length (List.filter (fun b : bool => b) mask).

Section GraphUtils.
Context `{NumericRuntime}.

(** [detect_outliers(values, n_std)] *)
Definition detect_outliers (values : list float) (n_std : float) : list bool :=
  if (length values <? 3)%nat then repeat false (length values)
  else
    let arr := values in
    let valid_mask := map (fun x => negb (PrimFloat.is_nan x)) arr in
    if (mask_sum valid_mask <? 3)%nat then repeat false (length values)
    else
      let mean := np_mean (boolean_index arr valid_mask) in
      let std := np_std (boolean_index arr valid_mask) in
      if PrimFloat.eqb std 0 then repeat false (length values)
      else
        let z_scores :=
          map (fun x => PrimFloat.abs (PrimFloat.div (PrimFloat.sub x mean) std)) arr in
        let outliers := map (fun z => PrimFloat.ltb n_std z) z_scores in
        mask_assign outliers (map negb valid_mask) false.

(** [str(value)] for a value reached by an attribute walk. *)
Definition py_str (v : PyVal) : string :=
  match v with
  | VStr s => s
  | VInt z => str_of_Z z
  | VDatetime d => dt_text d
  | VNone => "None"
  | _ => py_repr v
  end.

(** The table of friendly field names in [get_grouped_data]. *)
Definition field_mapping : list (string * string) :=
  [("pia_serial", "sub_test.test_log.pia_board.serial_number");
   ("pia_part", "sub_test.test_log.pia_board.part_number");
   ("pmt_serial", "sub_test.test_log.pmt_device.pmt_serial_number");
   ("pmt_batch", "sub_test.test_log.pmt_device.batch_number");
   ("pmt_generation", "sub_test.test_log.pmt_device.generation");
   ("test_fixture", "sub_test.test_log.test_fixture");
   ("test_date", "sub_test.test_log.created_at")]%string.

(** The group a measurement falls in. *)
Definition group_key (actual_path : string) (m : Measurement) : string :=
  match walk_attrs (VMeasurement m) (split_dot actual_path) with
  | VNone => "Unknown"
  | v => py_str v
  end.

(** [get_grouped_data(measurements, group_by_field)] *)
Definition get_grouped_data (ms : list Measurement) (group_by_field : string)
    : list (string * list Measurement) :=
  let actual_path := default group_by_field (pydict_get group_by_field field_mapping) in
  fold_left (fun groups m => pydict_append (group_key actual_path m) m groups) ms [].

End GraphUtils.

(** ** Sorting, as Python's [sorted]

    [sorted] is stable; with [reverse=True] equal keys also keep their
    original order.  [py_sorted le l] is the stable sort of [l] for the
    order [le] (insertion sort: any stable sort returns the same list). *)

Fixpoint sorted_insert {A : Type} (le : A -> A -> bool) (x : A) (s : list A) : list A :=
  match s with
  | [] => [x]
  | y :: s' => if le x y then x :: y :: s' else y :: sorted_insert le x s'
  end.

Definition py_sorted {A : Type} (le : A -> A -> bool) (l : list A) : list A :=
  foldr (sorted_insert le) [] l.

(** ** graph_generator.py: data preparation *)

(** An x coordinate: a global integer index, or a field value. *)
Inductive XVal : Type :=
| XInt (z : Z)
| XFloat (f : float).

(** One entry of [prepared_data['groups']]. *)
Record GroupData : Type := {
  gd_measurements : list Measurement;
  plot_measurements : list Measurement;
  scalar_measurements : list Measurement;
  gd_has_plots : bool;
  x_data : list XVal;
  y_data : list float;
  x_labels : option (list float);
  is_outlier : list bool;
  measurement_indices : list nat;
  measurement_pairs : option (list (Measurement * Measurement))
}.

(** [prepared_data['metadata']] *)
Record Metadata : Type := {
  md_x_label : string;
  md_y_label : string;
  md_has_plots : bool;
  total_points : nat
}.

Record PreparedData : Type := {
  groups : list (string * GroupData);
  metadata : Metadata
}.

(** The lists an extraction returns, before they are merged into the
    group's dictionary. *)
Record Extracted : Type := {
  ex_x_data : list XVal;
  ex_y_data : list float;
  ex_x_labels : option (list float);
  ex_is_outlier : list bool;
  ex_measurement_indices : list nat;
  ex_measurement_pairs : option (list (Measurement * Measurement))
}.

(** [float(n)] for an integer below 2^63 in magnitude (rounded to the
    nearest float above 2^53, as Python rounds). *)
Definition float_of_Z (z : Z) : float :=
  if (z <? 0)%Z then PrimFloat.opp (PrimFloat.of_uint63 (Uint63.of_Z (- z)))
  else PrimFloat.of_uint63 (Uint63.of_Z z).

(** [s.replace('_', ' ')] *)
Fixpoint replace_underscores (s : string) : string :=
  match s with
  | EmptyString => EmptyString
  | String c s' =>
      String (if Ascii.eqb c "_"%char then " "%char else c) (replace_underscores s')
  end.

Definition is_upper (c : ascii) : bool :=
  (65 <=? nat_of_ascii c)%nat && (nat_of_ascii c <=? 90)%nat.

Definition is_lower (c : ascii) : bool :=
  (97 <=? nat_of_ascii c)%nat && (nat_of_ascii c <=? 122)%nat.

Definition to_upper (c : ascii) : ascii :=
  if is_lower c then ascii_of_nat (nat_of_ascii c - 32) else c.

Definition to_lower (c : ascii) : ascii :=
  if is_upper c then ascii_of_nat (nat_of_ascii c + 32) else c.

(** [s.title()] on ASCII text. *)
Fixpoint title_aux (prev_cased : bool) (s : string) : string :=
  match s with
  | EmptyString => EmptyString
  | String c s' =>
      if is_upper c || is_lower c then
        String (if prev_cased then to_lower c else to_upper c) (title_aux true s')
      else String c (title_aux false s')
  end.

Definition title (s : string) : string := title_aux false s.

Section Preparation.
Context `{NumericRuntime}.
Variable config : GraphConfig.

(** [_get_field_value(measurement, field_path)] *)
Definition _get_field_value (m : Measurement) (field_path : string) : PyVal :=
  walk_attrs (VMeasurement m) (split_dot field_path).

(** [float(value)] *)
Definition py_float (v : PyVal) : Result float :=
  match v with
  | VFloat f => Ok f
  | VInt z => Ok (float_of_Z z)
  | VStr s =>
      match parse_float s with
      | Some f => Ok f
      | None => Raise (ValueError ("could not convert string to float: '" ++ s ++ "'"))
      end
  | _ => Raise TypeError
  end.

(** [_get_x_value(measurement)] *)
Definition _get_x_value (m : Measurement) : Result float :=
  match walk_attrs (VMeasurement m) (split_dot (x_axis_field config)) with
  | VNone => Ok 0%float
  | VDatetime d => Ok (dt_timestamp d)
  | v => py_float v
  end.

(** The local variables of the loop in [_extract_standard_data]. *)
Record StandardLoop : Type := {
  sl_current_x : Z;
  sl_x_data : list XVal;
  sl_y_data : list float;
  sl_x_labels : list float;
  sl_measurement_indices : list nat
}.

(** The loop [for idx, m in enumerate(measurements)], from index [idx]. *)
Fixpoint standard_loop (idx : nat) (ms : list Measurement) (st : StandardLoop)
    : Result StandardLoop :=
  match ms with
  | [] => Ok st
  | m :: rest =>
      if has_plot m && plot_data_truthy m then standard_loop (S idx) rest st
      else
        actual_val ← _get_x_value m;
        let indexed :=
          x_axis_use_indices config && bool_decide (graph_type config = SCATTER) in
        let x_val := if indexed then XInt (sl_current_x st) else XFloat actual_val in
        let y_val := default nan (measurement m) in
        standard_loop (S idx) rest
          {| sl_current_x := if indexed then (sl_current_x st + 1)%Z else sl_current_x st;
             sl_x_data := sl_x_data st ++ [x_val];
             sl_y_data := sl_y_data st ++ [y_val];
             sl_x_labels := sl_x_labels st ++ [actual_val];
             sl_measurement_indices := sl_measurement_indices st ++ [idx] |}
  end.

(** [_extract_standard_data(measurements, start_x_index)] *)
Definition _extract_standard_data (ms : list Measurement) (start_x_index : Z)
    : Result Extracted :=
  st ← standard_loop 0 ms
        {| sl_current_x := start_x_index; sl_x_data := []; sl_y_data := [];
           sl_x_labels := []; sl_measurement_indices := [] |};
  let is_outlier :=
    if remove_outliers config then detect_outliers (sl_y_data st) 3
    else repeat false (length (sl_y_data st)) in
  Ok {| ex_x_data := sl_x_data st;
        ex_y_data := sl_y_data st;
        ex_x_labels := Some (sl_x_labels st);
        ex_is_outlier := is_outlier;
        ex_measurement_indices := sl_measurement_indices st;
        ex_measurement_pairs := None |}.

(** [_get_pairing_key(measurement)] *)
Definition _get_pairing_key (m : Measurement) : option string :=
  if String.eqb (pairing_device config) "pia" then
    match pia m with Some b => serial_number b | None => None end
  else if String.eqb (pairing_device config) "pmt" then
    match pmt m with Some p => pmt_serial_number p | None => None end
  else None.

(** [abs(m.measurement - m.nominal)]; the measurements given to the
    strategy all have a value. *)
Definition nominal_score (m : Measurement) (nom : float) : Result float :=
  match measurement m with
  | Some v => Ok (PrimFloat.abs (PrimFloat.sub v nom))
  | None => Raise TypeError
  end.

(** The loop of the ['best'] strategy: the running best and its score. *)
Fixpoint best_loop (ms : list Measurement) (best : option Measurement) (best_score : float)
    : Result (option Measurement) :=
  match ms with
  | [] => Ok best
  | m :: rest =>
      match nominal m with
      | Some nom =>
          score ← nominal_score m nom;
          if PrimFloat.ltb score best_score then best_loop rest (Some m) score
          else best_loop rest best best_score
      | None => best_loop rest best best_score
      end
  end.

(** [_apply_pairing_strategy(measurements)] *)
Definition _apply_pairing_strategy (ms : list Measurement) : Result (option Measurement) :=
  match ms with
  | [] => Ok None
  | m0 :: _ =>
      if String.eqb (pairing_strategy config) "first" then Ok (Some m0)
      else if String.eqb (pairing_strategy config) "last" then Ok (last ms)
      else if String.eqb (pairing_strategy config) "best" then
        best ← best_loop ms None infinity;
        Ok (match best with Some b => Some b | None => last ms end)
      else Ok (last ms)
  end.

(** The key under which a fixture value is filed.  Fixtures are text; a
    non-text attribute chosen as pairing field is keyed by its text. *)
Definition fixture_key (v : PyVal) : option string :=
  match v with
  | VNone => None
  | v => Some (py_str v)
  end.

(** [sorted(keys)] on fixture keys: text sorts by code point, and comparing
    [None] with text raises [TypeError]. *)
Definition sorted_fixtures (keys : list (option string)) : Result (list (option string)) :=
  if (2 <=? length keys)%nat && existsb (fun k => bool_decide (k = None)) keys
  then Raise TypeError
  else Ok (py_sorted (fun a b => String.leb (default EmptyString a) (default EmptyString b)) keys).

(** The first loop of [_extract_comparison_same]: the records of the target
    measurement, filed per device with their fixture. *)
Definition device_measurements_of (ms : list Measurement)
    : list (string * list (option string * Measurement)) :=
  fold_left
    (fun dm m =>
       if negb (bool_decide (Some (name m) = x_axis_measurement config))
          || bool_decide (measurement m = None)
       then dm
       else
         match _get_pairing_key m with
         | Some device_key =>
             if str_truthy device_key then
               let fixture := fixture_key (_get_field_value m (x_axis_field config)) in
               pydict_append device_key (fixture, m) dm
             else dm
         | None => dm
         end)
    ms [].

(** [fixtures_dict] for one device. *)
Definition fixtures_dict_of (fixture_measurements : list (option string * Measurement))
    : list (option string * list Measurement) :=
  fold_left (fun fd fm => pydict_append (fst fm) (snd fm) fd) fixture_measurements [].

(** The body of the second loop of [_extract_comparison_same] for one
    device: the pair it contributes, if any. *)
Definition pair_device (fixture_measurements : list (option string * Measurement))
    : Result (option (Measurement * Measurement)) :=
  let fixtures_dict := fixtures_dict_of fixture_measurements in
  fixtures ← sorted_fixtures (pydict_keys fixtures_dict);
  match fixtures with
  | x_fixture :: y_fixture :: _ =>
      x_meas ← _apply_pairing_strategy (default [] (pydict_get x_fixture fixtures_dict));
      y_meas ← _apply_pairing_strategy (default [] (pydict_get y_fixture fixtures_dict));
      match x_meas, y_meas with
      | Some xm, Some ym => Ok (Some (xm, ym))
      | _, _ => Ok None
      end
  | _ => Ok None
  end.

(** [float(m.measurement)] for a paired record. *)
Definition pair_value (m : Measurement) : Result float :=
  match measurement m with
  | Some v => Ok v
  | None => Raise TypeError
  end.

(** [[x or y for x, y in zip(x_outliers, y_outliers)]] *)
Definition zip_or (xs ys : list bool) : list bool :=
  zip_with orb xs ys.

Definition paired_extracted (pairs : list (Measurement * Measurement)) (guard_empty : bool)
    : Result Extracted :=
  xs ← mapM (fun p => pair_value (fst p)) pairs;
  ys ← mapM (fun p => pair_value (snd p)) pairs;
  let is_outlier :=
    if remove_outliers config && (negb guard_empty || (0 <? length xs)%nat)
    then zip_or (detect_outliers xs 3) (detect_outliers ys 3)
    else repeat false (length xs) in
  Ok {| ex_x_data := map XFloat xs;
        ex_y_data := ys;
        ex_x_labels := None;
        ex_is_outlier := is_outlier;
        ex_measurement_indices := seq 0 (length xs);
        ex_measurement_pairs := Some pairs |}.

(** The pairs [_extract_comparison_same] finds, one device after the
    other in first-seen order. *)
Definition comparison_same_pairs (ms : list Measurement)
    : Result (list (Measurement * Measurement)) :=
  found ← mapM (fun dev => pair_device (snd dev)) (device_measurements_of ms);
  Ok (omap (M:=list) (fun o : option (Measurement * Measurement) => o) found).

(** [_extract_comparison_same(measurements)] *)
Definition _extract_comparison_same (ms : list Measurement) : Result Extracted :=
  pairs ← comparison_same_pairs ms;
  paired_extracted pairs true.

(** The first loop of [_extract_comparison_different]: the x and the y
    records, by test id. *)
Fixpoint different_loop (ms : list Measurement)
    (x_measurements y_measurements : list (Z * Measurement))
    : Result (list (Z * Measurement) * list (Z * Measurement)) :=
  match ms with
  | [] => Ok (x_measurements, y_measurements)
  | m :: rest =>
      match sub_test m with
      | None => Raise AttributeError
      | Some st =>
          if bool_decide (Some (name m) = x_axis_measurement config)
             && negb (bool_decide (measurement m = None))
          then different_loop rest (pydict_set (test_id st) m x_measurements) y_measurements
          else if bool_decide (Some (name m) = y_axis_measurement config)
                  && negb (bool_decide (measurement m = None))
          then different_loop rest x_measurements (pydict_set (test_id st) m y_measurements)
          else different_loop rest x_measurements y_measurements
      end
  end.

(** [_extract_comparison_different(measurements)] *)
Definition _extract_comparison_different (ms : list Measurement) : Result Extracted :=
  xy ← different_loop ms [] [];
  let pairs :=
    omap (M:=list)
         (fun x : Z * Measurement => match pydict_get (fst x) (snd xy) with
                   | Some ym => Some (snd x, ym)
                   | None => None
                   end) (fst xy) in
  paired_extracted pairs false.

(** [_prepare_group_data(measurements, start_x_index)] *)
Definition _prepare_group_data (ms : list Measurement) (start_x_index : Z)
    : Result GroupData :=
  let is_plot m := has_plot m && plot_data_truthy m && auto_overlay_plots config in
  let plots := List.filter is_plot ms in
  let scalars := List.filter (fun m => negb (is_plot m)) ms in
  ex ← match comparison_mode config with
       | NONE => _extract_standard_data ms start_x_index
       | SAME_MEASUREMENT => _extract_comparison_same ms
       | DIFFERENT_MEASUREMENTS => _extract_comparison_different ms
       end;
  Ok {| gd_measurements := ms;
        plot_measurements := plots;
        scalar_measurements := scalars;
        gd_has_plots := (0 <? length plots)%nat;
        x_data := ex_x_data ex;
        y_data := ex_y_data ex;
        x_labels := ex_x_labels ex;
        is_outlier := ex_is_outlier ex;
        measurement_indices := ex_measurement_indices ex;
        measurement_pairs := ex_measurement_pairs ex |}.

(** The local variables of the loop over groups in [prepare_data]. *)
Record GroupLoop : Type := {
  gl_prepared_groups : list (string * GroupData);
  gl_has_plots : bool;
  gl_total_points : nat;
  gl_global_x_index : Z
}.

(** The loop [for group_name, group_measurements in groups.items()]. *)
Fixpoint group_loop (gs : list (string * list Measurement)) (st : GroupLoop)
    : Result GroupLoop :=
  match gs with
  | [] => Ok st
  | (group_name, group_measurements) :: rest =>
      group_data ← _prepare_group_data group_measurements (gl_global_x_index st);
      let num_points := length (x_data group_data) in
      let nonempty := (0 <? num_points)%nat in
      group_loop rest
        {| gl_prepared_groups := pydict_set group_name group_data (gl_prepared_groups st);
           gl_has_plots := gd_has_plots group_data || gl_has_plots st;
           gl_total_points :=
             if nonempty then (gl_total_points st + num_points)%nat else gl_total_points st;
           gl_global_x_index :=
             if nonempty then (gl_global_x_index st + Z.of_nat num_points + 1)%Z
             else gl_global_x_index st |}
  end.

(** [f"{value}"] for an optional text. *)
Definition fmt_opt (o : option string) : string := default "None"%string o.

(** [a or b] on texts. *)
Definition opt_or (a : option string) (b : string) : string :=
  match a with
  | Some s => if str_truthy s then s else b
  | None => b
  end.

(** [_generate_x_label()] *)
Definition _generate_x_label : string :=
  if opt_truthy (x_label config) then fmt_opt (x_label config)
  else match comparison_mode config with
       | SAME_MEASUREMENT =>
           fmt_opt (x_axis_measurement config) ++ " (" ++ x_axis_field config ++ ")"
       | DIFFERENT_MEASUREMENTS => opt_or (x_axis_measurement config) "X"
       | NONE =>
           if String.eqb (x_axis_field config) "created_at" then "Time"
           else title (replace_underscores (x_axis_field config))
       end.

(** [_generate_y_label()] *)
Definition _generate_y_label : string :=
  if opt_truthy (y_label config) then fmt_opt (y_label config)
  else if bool_decide (comparison_mode config ≠ NONE) then
    let y_field := opt_or (y_axis_field config) (x_axis_field config) in
    (if opt_truthy (y_axis_measurement config) then fmt_opt (y_axis_measurement config)
     else fmt_opt (x_axis_measurement config)) ++ " (" ++ y_field ++ ")"
  else match measurements config with
       | first_m :: _ =>
           if str_truthy (unit first_m) then name first_m ++ " (" ++ unit first_m ++ ")"
           else "Measurement Value"
       | [] => "Measurement Value"
       end.

(** The groups [prepare_data] iterates over. *)
Definition groups_of (ms : list Measurement) : list (string * list Measurement) :=
  if bool_decide (comparison_mode config ≠ NONE) then [("All Data"%string, ms)]
  else if opt_truthy (group_by_field config)
       then get_grouped_data ms (default EmptyString (group_by_field config))
       else [("All Data"%string, ms)].

(** The value [prepare_data] builds and assigns to [self.prepared_data]. *)
Definition build_prepared_data : Result PreparedData :=
  let ms := measurements config in
  match ms with
  | [] => Raise (ValueError "No measurements provided")
  | _ :: _ =>
      st ← group_loop (groups_of ms)
            {| gl_prepared_groups := []; gl_has_plots := false;
               gl_total_points := 0; gl_global_x_index := 0 |};
      Ok {| groups := gl_prepared_groups st;
            metadata := {| md_x_label := _generate_x_label;
                           md_y_label := _generate_y_label;
                           md_has_plots := gl_has_plots st;
                           total_points := gl_total_points st |} |}
  end.

End Preparation.

(** ** graph_generator.py: the generator object and point interaction *)

Inductive ItemClass : Type := ScatterPlotItem | BarGraphItem | PlotDataItem.

#[global] Instance ItemClass_eq_dec : EqDecision ItemClass.
Proof. solve_decision. Defined.

(** A point size setting: one number for all points, or one per point. *)
Inductive Sizes : Type :=
| SizeScalar (s : float)
| SizeList (l : list float).

(** A point collection shown in the plot widget. *)
Record PlotItem : Type := {
  item_class : ItemClass;
  item_x : option (list float);     (* [item.getData()[0]] *)
  item_y : option (list float);     (* [item.getData()[1]] *)
  item_size : Sizes;                (* [item.opts['size']] *)
  original_sizes : option Sizes     (* the attribute hover and selection set *)
}.

(** The fields of [MeasurementGraphGenerator], with the items of the plot
    widget it draws on, keyed by object identity ([id(item)]). *)
Record Generator : Type := {
  gen_config : GraphConfig;
  prepared_data : option PreparedData;   (* [None] stands for the initial [{}] *)
  original_data : option PreparedData;
  deleted_items : gset string;
  selected_item : option Z;
  selected_index : option Z;
  tooltip_label : option bool;           (* the label, if created, and its visibility *)
  point_measurement_map : gmap (Z * Z) Measurement;
  plot_items : gmap Z PlotItem
}.

(** [MeasurementGraphGenerator(config)] *)
Definition new_generator (c : GraphConfig) : Generator :=
  {| gen_config := c; prepared_data := None; original_data := None;
     deleted_items := ∅; selected_item := None; selected_index := None;
     tooltip_label := None; point_measurement_map := ∅; plot_items := ∅ |}.

Definition set_data (prepared original : option PreparedData) (g : Generator) : Generator :=
  {| gen_config := gen_config g; prepared_data := prepared; original_data := original;
     deleted_items := deleted_items g; selected_item := selected_item g;
     selected_index := selected_index g; tooltip_label := tooltip_label g;
     point_measurement_map := point_measurement_map g; plot_items := plot_items g |}.

Definition set_deleted_items (d : gset string) (g : Generator) : Generator :=
  {| gen_config := gen_config g; prepared_data := prepared_data g;
     original_data := original_data g;
     deleted_items := d; selected_item := selected_item g;
     selected_index := selected_index g; tooltip_label := tooltip_label g;
     point_measurement_map := point_measurement_map g; plot_items := plot_items g |}.

Definition set_selection (item : option Z) (index : option Z) (tooltip : option bool)
    (g : Generator) : Generator :=
  {| gen_config := gen_config g; prepared_data := prepared_data g;
     original_data := original_data g;
     deleted_items := deleted_items g; selected_item := item;
     selected_index := index; tooltip_label := tooltip;
     point_measurement_map := point_measurement_map g; plot_items := plot_items g |}.

Definition set_drawing (items : gmap Z PlotItem) (pmap : gmap (Z * Z) Measurement)
    (g : Generator) : Generator :=
  {| gen_config := gen_config g; prepared_data := prepared_data g;
     original_data := original_data g;
     deleted_items := deleted_items g; selected_item := selected_item g;
     selected_index := selected_index g; tooltip_label := tooltip_label g;
     point_measurement_map := pmap; plot_items := items |}.

(** [_deep_copy_data(data)]: values have no identity, a copy is the value. *)
Definition _deep_copy_data (data : PreparedData) : PreparedData := data.

(** [prepare_data()]: the exception raised, if any, and the generator
    afterwards. *)
Definition prepare_data `{NumericRuntime} (g : Generator) : Result Datatypes.unit * Generator :=
  match build_prepared_data (gen_config g) with
  | Raise e => (Raise e, g)
  | Ok data => (Ok tt, set_data (Some data) (Some (_deep_copy_data data)) g)
  end.

(** [item.setSize(s)] *)
Definition item_set_size (s : Sizes) (it : PlotItem) : PlotItem :=
  {| item_class := item_class it; item_x := item_x it; item_y := item_y it;
     item_size := s; original_sizes := original_sizes it |}.

(** [_clear_selection(plot_widget)] *)
Definition _clear_selection (g : Generator) : Generator :=
  let items :=
    match selected_item g with
    | Some sid =>
        match plot_items g !! sid with
        | Some it =>
            match item_class it, original_sizes it with
            | ScatterPlotItem, Some os => <[sid := item_set_size os it]> (plot_items g)
            | _, _ => plot_items g
            end
        | None => plot_items g
        end
    | None => plot_items g
    end in
  set_selection None None (fmap (fun _ => false) (tooltip_label g))
    (set_drawing items (point_measurement_map g) g).

(** [f"{item_id}_{point_idx}"] *)
Definition point_id (item_id point_idx : Z) : string :=
  str_of_Z item_id ++ "_" ++ str_of_Z point_idx.

(** [mask = np.ones(n, dtype=bool); mask[point_idx] = False]: numpy takes
    an index in [-n, n), a negative one counting from the end, and raises
    [IndexError] for any other. *)
Definition deletion_mask (n : nat) (point_idx : Z) : Result (list bool) :=
  if (0 <=? point_idx)%Z && (point_idx <? Z.of_nat n)%Z then
    Ok (<[Z.to_nat point_idx := false]> (replicate n true))
  else if (- Z.of_nat n <=? point_idx)%Z && (point_idx <? 0)%Z then
    Ok (<[Z.to_nat (point_idx + Z.of_nat n) := false]> (replicate n true))
  else Raise IndexError.

(** [arr[mask]] with numpy's check that the mask fits the array. *)
Definition np_boolean_index {A : Type} (arr : list A) (mask : list bool) : Result (list A) :=
  if bool_decide (length arr = length mask) then Ok (boolean_index arr mask)
  else Raise IndexError.

(** The loop that rebuilds [point_measurement_map] in [_delete_point]. *)
Definition reindex_map (item_id point_idx : Z) (m : gmap (Z * Z) Measurement)
    : gmap (Z * Z) Measurement :=
  map_fold
    (fun (key : Z * Z) measurement new_map =>
       let '(stored_id, stored_idx) := key in
       if bool_decide (stored_id = item_id) then
         if (stored_idx <? point_idx)%Z then <[(stored_id, stored_idx) := measurement]> new_map
         else if (stored_idx >? point_idx)%Z
              then <[(stored_id, stored_idx - 1)%Z := measurement]> new_map
              else new_map
       else <[(stored_id, stored_idx) := measurement]> new_map)
    ∅ m.

(** The part of [_delete_point] after the guards: the new point arrays,
    sizes and map. *)
Definition delete_from_item (item_id point_idx : Z) (it : PlotItem)
    (x_data y_data : list float) (g : Generator) : Result Generator :=
  mask ← deletion_mask (length x_data) point_idx;
  new_x ← np_boolean_index x_data mask;
  new_y ← np_boolean_index y_data mask;
  it' ← match original_sizes it with
        | Some (SizeScalar s) =>
            Ok {| item_class := item_class it; item_x := Some new_x; item_y := Some new_y;
                  item_size := SizeScalar s; original_sizes := Some (SizeScalar s) |}
        | Some (SizeList l) =>
            new_sizes ← np_boolean_index l mask;
            Ok {| item_class := item_class it; item_x := Some new_x; item_y := Some new_y;
                  item_size := SizeList new_sizes;
                  original_sizes := Some (SizeList new_sizes) |}
        | None =>
            Ok {| item_class := item_class it; item_x := Some new_x; item_y := Some new_y;
                  item_size := item_size it; original_sizes := None |}
        end;
  let g1 := set_drawing (<[item_id := it']> (plot_items g))
              (reindex_map item_id point_idx (point_measurement_map g)) g in
  if bool_decide (selected_item g1 = Some item_id)
     && bool_decide (selected_index g1 = Some point_idx)
  then Ok (_clear_selection g1)
  else Ok g1.

(** [_delete_point(item, point_idx, plot_widget)], the item given by its
    identity: the exception raised, if any, and the generator afterwards
    (what was written before an exception stays written). *)
Definition _delete_point (item_id point_idx : Z) (g : Generator) : Result Datatypes.unit * Generator :=
  match plot_items g !! item_id with
  | None => (Ok tt, g)
  | Some it =>
      if negb (bool_decide (item_class it = ScatterPlotItem)) then (Ok tt, g)
      else
        let g1 := set_deleted_items ({[point_id item_id point_idx]} ∪ deleted_items g) g in
        match item_x it, item_y it with
        | Some x_data, Some y_data =>
            if (length x_data =? 0)%nat then (Ok tt, g1)
            else match delete_from_item item_id point_idx it x_data y_data g1 with
                 | Ok g2 => (Ok tt, g2)
                 | Raise e => (Raise e, g1)
                 end
        | _, _ => (Ok tt, g1)
        end
  end.

(** Drawing is the rendering surface's work ([plot_data], [apply_styling],
    [setup_interactivity] on a cleared widget).  It reads the configuration
    and the prepared data, and what it writes is: the widget's items, new
    entries of the point map, and the tooltip label. *)
Record Drawn : Type := {
  drawn_items : gmap Z PlotItem;
  drawn_map : gmap (Z * Z) Measurement;
  drawn_tooltip : option bool
}.

Class Rendering : Type := {
  redraw : GraphConfig -> option PreparedData -> gmap (Z * Z) Measurement -> Drawn
}.

(** [plot_widget.clear(); plot_data(plot_widget); apply_styling(plot_widget);
    setup_interactivity(plot_widget)] *)
Definition draw `{Rendering} (g : Generator) : Generator :=
  let d := redraw (gen_config g) (prepared_data g) (point_measurement_map g) in
  set_selection (selected_item g) (selected_index g) (drawn_tooltip d)
    (set_drawing (drawn_items d) (drawn_map d) g).

(** [reset_deletions(plot_widget)] *)
Definition reset_deletions `{Rendering} (g : Generator) : Generator :=
  let g1 := set_deleted_items ∅ g in
  let g2 :=
    match original_data g1 with
    | Some original => set_data (Some (_deep_copy_data original)) (original_data g1) g1
    | None => g1
    end in
  draw (_clear_selection g2).

(** The interactive session after the first drawing: point deletions (each
    may raise, the session goes on) and undo. *)
Inductive Action : Type :=
| DeletePoint (item_id point_idx : Z)
| Undo.

Definition step `{Rendering} (g : Generator) (a : Action) : Generator :=
  match a with
  | DeletePoint item_id point_idx => snd (_delete_point item_id point_idx g)
  | Undo => reset_deletions g
  end.

Definition run `{Rendering} (g : Generator) (actions : list Action) : Generator :=
  fold_left step actions g.

(** ** graph_page.py: pairing for the comparison plots *)

(** One entry of the paired data (a dictionary in the source). *)
Record PairedPoint : Type := {
  device_id : string;
  our_value : option float;
  mfr_value : option float;
  our_measurement : Measurement;
  other_measurement : option Measurement;
  label_a : string;                 (* ['fixture_a'] or ['batch_a'] *)
  label_b : string;                 (* ['fixture_b'] or ['batch_b'] *)
  batch_b_avg : option float
}.

(** [measurement.sub_test.test_log], when both are there. *)
Definition test_log_of (m : Measurement) : option TestLog := sub_test m ≫= test_log.

(** [_get_device_serial(measurement)] *)
Definition _get_device_serial (m : Measurement) : option string :=
  match test_log_of m with
  | Some tl =>
      match pia_board tl, pmt_device tl with
      | Some board, _ => serial_number board
      | None, Some p => pmt_serial_number p
      | None, None => None
      end
  | None => None
  end.

(** [_get_test_fixture(measurement)] *)
Definition _get_test_fixture (m : Measurement) : option string :=
  match test_log_of m with
  | Some tl => test_fixture tl
  | None => None
  end.

(** [_get_pia_batch(measurement)] *)
Definition _get_pia_batch (m : Measurement) : option string :=
  match test_log_of m with
  | Some tl =>
      match pia_board tl with
      | Some board => part_number board
      | None => None
      end
  | None => None
  end.

(** [_get_pmt_batch(measurement)] *)
Definition _get_pmt_batch (m : Measurement) : option string :=
  match test_log_of m with
  | Some tl =>
      match pmt_device tl with
      | Some p => batch_number p
      | None => None
      end
  | None => None
  end.

Definition has_value (m : Measurement) : bool :=
  match measurement m with Some _ => true | None => false end.

(** The first loop of [_pair_by_test_fixture]: per device, the first
    record met on each fixture. *)
Definition device_fixture_data_of (ms : list Measurement)
    : list (string * list (string * Measurement)) :=
  fold_left
    (fun d m =>
       match _get_device_serial m, _get_test_fixture m with
       | Some serial, Some fixture =>
           if str_truthy serial && str_truthy fixture && has_value m then
             let fixtures := default [] (pydict_get serial d) in
             if pydict_mem fixture fixtures then d
             else pydict_set serial (pydict_set fixture m fixtures) d
           else d
       | _, _ => d
       end)
    ms [].

(** [_pair_by_test_fixture(measurements)] *)
Definition _pair_by_test_fixture (ms : list Measurement) : list PairedPoint :=
  omap (M:=list)
    (fun dev : string * list (string * Measurement) =>
       let fixtures := snd dev in
       match pydict_keys fixtures with
       | fixture_a :: fixture_b :: _ =>
           match pydict_get fixture_a fixtures, pydict_get fixture_b fixtures with
           | Some m_a, Some m_b =>
               Some {| device_id := fst dev;
                       our_value := measurement m_a;
                       mfr_value := measurement m_b;
                       our_measurement := m_a;
                       other_measurement := Some m_b;
                       label_a := fixture_a;
                       label_b := fixture_b;
                       batch_b_avg := None |}
           | _, _ => None
           end
       | _ => None
       end)
    (device_fixture_data_of ms).

Section BatchPairing.
Context `{NumericRuntime}.

(** The first loop of [_pair_by_batch]: the records of each batch. *)
Definition batch_measurements_of (ms : list Measurement) (batch_type : string)
    : list (string * list Measurement) :=
  fold_left
    (fun d m =>
       let batch := if String.eqb batch_type "pia" then _get_pia_batch m
                    else _get_pmt_batch m in
       match batch with
       | Some b => if str_truthy b && has_value m then pydict_append b m d else d
       | None => d
       end)
    ms [].

(** [len(batch_measurements[b])] *)
Definition batch_size (d : list (string * list Measurement)) (b : string) : nat :=
  length (default [] (pydict_get b d)).

(** [sum(m.measurement for m in records) / len(records)] *)
Definition batch_average (records : list Measurement) : float :=
  PrimFloat.div (py_sum (omap (M:=list) measurement records))
                (float_of_nat (length records)).

(** The loop that builds [paired] from the records of batch A. *)
Fixpoint batch_pairs (records : list Measurement) (batch_a batch_b : string) (avg_b : float)
    (paired : list PairedPoint) : list PairedPoint :=
  match records with
  | [] => paired
  | m :: rest =>
      let serial := _get_device_serial m in
      batch_pairs rest batch_a batch_b avg_b
        (paired ++
         [{| device_id :=
               if opt_truthy serial then default EmptyString serial
               else "Device " ++ str_of_Z (Z.of_nat (length paired) + 1);
             our_value := measurement m;
             mfr_value := Some avg_b;
             our_measurement := m;
             other_measurement := None;
             label_a := batch_a;
             label_b := batch_b;
             batch_b_avg := Some avg_b |}])
  end.

(** [_pair_by_batch(measurements, batch_type)] *)
Definition _pair_by_batch (ms : list Measurement) (batch_type : string) : list PairedPoint :=
  let batch_measurements := batch_measurements_of ms batch_type in
  let batch_names := pydict_keys batch_measurements in
  if (length batch_names <? 2)%nat then []
  else
    let sorted_batches :=
      py_sorted (fun a b => (batch_size batch_measurements b <=? batch_size batch_measurements a)%nat)
                batch_names in
    match sorted_batches with
    | batch_a :: batch_b :: _ =>
        let avg_b := batch_average (default [] (pydict_get batch_b batch_measurements)) in
        batch_pairs (default [] (pydict_get batch_a batch_measurements)) batch_a batch_b avg_b []
    | _ => []
    end.

End BatchPairing.

(* ===================================================================== *)
(** * Part II: the vocabulary of the properties                         *)
(* ===================================================================== *)

(** ** Outlier detection *)

Section OutlierVocabulary.
Context `{NumericRuntime}.

(** The non-missing values of a list: [arr[~np.isnan(arr)]]. *)
Definition valid_values (values : list float) : list float :=
  boolean_index values (map (fun x => negb (PrimFloat.is_nan x)) values).

(** The absolute z-score of [v] against the non-missing values. *)
Definition z_score (values : list float) (v : float) : float :=
  PrimFloat.abs
    (PrimFloat.div (PrimFloat.sub v (np_mean (valid_values values)))
                   (np_std (valid_values values))).

(** What decides the flag of one value [v] of the list. *)
Definition flagged (values : list float) (n_std v : float) : bool :=
  (3 <=? length (valid_values values))%nat
  && negb (PrimFloat.eqb (np_std (valid_values values)) 0)
  && negb (PrimFloat.is_nan v)
  && PrimFloat.ltb n_std (z_score values v).

End OutlierVocabulary.

(** ** The global index *)

(** The measurements [_extract_standard_data] turns into points: those
    that are not plots. *)
Definition is_point (m : Measurement) : bool := negb (has_plot m && plot_data_truthy m).

Definition points_of (ms : list Measurement) : list Measurement := List.filter is_point ms.

(** [k] consecutive integers from [s], as x coordinates. *)
Definition index_run (s : Z) (k : nat) : list XVal :=
  map (fun i : nat => XInt (s + Z.of_nat i)) (seq 0 k).

(** The configuration draws an index-based scatter. *)
Definition index_scatter (config : GraphConfig) : Prop :=
  comparison_mode config = NONE
  /\ x_axis_use_indices config = true
  /\ graph_type config = SCATTER.

(** The x coordinates of groups with the given numbers of points, laid
    out from [start]: a group with points takes the next integers and
    leaves one free after it; a group without points takes nothing. *)
Fixpoint index_layout (start : Z) (sizes : list nat) : list (list XVal) :=
  match sizes with
  | [] => []
  | k :: rest =>
      index_run start k
      :: index_layout (if (0 <? k)%nat then (start + Z.of_nat k + 1)%Z else start) rest
  end.

(** Groups of points in a row: each is a run of consecutive integers, and
    the next begins two past the last index of the one before (one free
    slot between them). *)
Fixpoint gap_layout (start : Z) (runs : list (list XVal)) : Prop :=
  match runs with
  | [] => True
  | xs :: rest =>
      xs = index_run start (length xs)
      /\ gap_layout (start + Z.of_nat (length xs) + 1) rest
  end.

Definition has_points (xs : list XVal) : bool :=
  match xs with [] => false | _ :: _ => true end.

(** The x coordinates of the groups that have points, in group order. *)
Definition nonempty_runs (gs : list (string * GroupData)) : list (list XVal) :=
  List.filter has_points (map (fun g => x_data (snd g)) gs).

(** ** Deletion *)

(** What the point map holds at [(k, j)] after the point [p] of the
    collection [item] is deleted. *)
Definition reindexed (m : gmap (Z * Z) Measurement) (item p k j : Z) : option Measurement :=
  if bool_decide (k = item) then
    if (j <? p)%Z then m !! (k, j) else m !! (k, (j + 1)%Z)
  else m !! (k, j).

(** The size setting of a collection fits [n] points. *)
Definition sizes_fit (it : PlotItem) (n : nat) : Prop :=
  match original_sizes it with
  | Some (SizeList l) => length l = n
  | _ => True
  end.

(** ** Grouping and first-seen order *)

(** The distinct elements of a list, in the order of their first
    occurrence. *)
Fixpoint first_seen {K : Type} `{EqDecision K} (ks : list K) : list K :=
  match ks with
  | [] => []
  | k :: ks' => k :: filter (fun k' => k' <> k) (first_seen ks')
  end.


Section GroupingVocabulary.
Context {A B K : Type} `{EqDecision K}.
Variables (key : A -> option K) (val : A -> B).


(** Grouping with a stored value: the loop
    [for x in l: if key(x): d[key(x)].append(val(x))]. *)
Definition group_by_with (l : list A) (acc : list (K * list B)) : list (K * list B) :=
  fold_left (fun d x => match key x with
                        | Some k => pydict_append k (val x) d
                        | None => d
                        end) l acc.

End GroupingVocabulary.

(** ** Stable sorting, largest first *)

Section SortVocabulary.
Context {A : Type}.
Variable size : A -> nat.



End SortVocabulary.

(** ** Batch pairing *)



(** ** Fixture pairing *)

(** Fixture pairing in the words of the specification: records are
    grouped by device, devices in first-seen order; a device's fixtures
    are taken in first-seen order and put in the given [order]; the first
    two are paired, each represented by the record that [choose] picks
    among the device's records on that fixture; a device with fewer than
    two fixtures gives no pair. *)
Section FixturePairingSpec.
Context {F : Type} `{EqDecision F}.
Variables (device : Measurement -> option string) (fixture : Measurement -> F).
Variables (order : list F -> Result (list F)).
Variables (choose : list Measurement -> Result (option Measurement)).

Definition device_pair (recs : list Measurement) : Result (option (Measurement * Measurement)) :=
  fixtures ← order (first_seen (map fixture recs));
  match fixtures with
  | fixture_a :: fixture_b :: _ =>
      a ← choose (filter (fun m => fixture m = fixture_a) recs);
      b ← choose (filter (fun m => fixture m = fixture_b) recs);
      match a, b with
      | Some m_a, Some m_b => Ok (Some (m_a, m_b))
      | _, _ => Ok None
      end
  | _ => Ok None
  end.

Definition fixture_pairing (ms : list Measurement) : Result (list (Measurement * Measurement)) :=
  found ← mapM (fun d => device_pair (filter (fun m => device m = Some d) ms))
               (first_seen (omap device ms));
  Ok (omap (M:=list) (fun o : option (Measurement * Measurement) => o) found).

End FixturePairingSpec.


Section GeneratorFixtureVocabulary.
Context `{NumericRuntime}.
Variable config : GraphConfig.

(** The device a record is filed under by [_extract_comparison_same], if
    any: the pairing key, when the record is one of the target measurement,
    has a value, and the key is a non-empty text. *)
Definition comparison_device (m : Measurement) : option string :=
  if negb (bool_decide (Some (name m) = x_axis_measurement config))
     || bool_decide (measurement m = None)
  then None
  else match _get_pairing_key config m with
       | Some device_key => if str_truthy device_key then Some device_key else None
       | None => None
       end.

(** The fixture of a record: the value of the x-axis field. *)
Definition comparison_fixture (m : Measurement) : option string :=
  fixture_key (_get_field_value m (x_axis_field config)).

Definition with_fixture (m : Measurement) : option string * Measurement :=
  (comparison_fixture m, m).

End GeneratorFixtureVocabulary.

(** The device a record is filed under by [_pair_by_test_fixture], if any:
    its serial, when serial and fixture are non-empty texts and the record
    has a value. *)
Definition page_device (m : Measurement) : option string :=
  match _get_device_serial m, _get_test_fixture m with
  | Some serial, Some fixture =>
      if str_truthy serial && str_truthy fixture && has_value m then Some serial else None
  | _, _ => None
  end.

Definition page_fixture (m : Measurement) : string :=
  default EmptyString (_get_test_fixture m).

(** The dictionary of one device: the first record met on each fixture. *)
Definition first_on_fixture (recs : list Measurement) : list (string * Measurement) :=
  fold_left (fun fixtures m =>
               if pydict_mem (page_fixture m) fixtures then fixtures
               else pydict_set (page_fixture m) m fixtures) recs [].

Definition file_record (d : list (string * list (string * Measurement))) (m : Measurement)
    : list (string * list (string * Measurement)) :=
  match page_device m with
  | Some serial =>
      let fixtures := default [] (pydict_get serial d) in
      if pydict_mem (page_fixture m) fixtures then d
      else pydict_set serial (pydict_set (page_fixture m) m fixtures) d
  | None => d
  end.



(* ===================================================================== *)
(** * Part III: sample data for the concrete runs                       *)
(* ===================================================================== *)

(** ** Readings *)

(** Nine equal readings and one at exactly three standard deviations
    (mean 1, deviation 3): nothing is flagged. *)
Definition nine_and_one : list float := [0; 0; 0; 0; 0; 0; 0; 0; 0; 10]%float.

(** Readings at 1, a missing one and a far one. *)
Definition with_missing : list float := [1; nan; 1; 1; 1; 1; 1; 1; 1; 1; 1; 1; 50]%float.

(** A scalar reading of one board on one fixture. *)
Definition reading (i : Z) (nm : string) (v : option float) (fixture serial part : string)
    : Measurement :=
  let board := {| serial_number := Some serial; part_number := Some part |} in
  {| id := i; name := nm; unit := "V"; measurement := v; nominal := None;
     has_plot := false; plot_data := None; created_at := None;
     sub_test := Some {| test_id := i;
                         test_log := Some {| test_fixture := Some fixture;
                                             pia_board := Some board;
                                             pmt_device := None;
                                             tl_created_at := None |} |};
     pia := Some board; pmt := None |}.

(** Three readings on fixture A, then four on fixture B. *)
Definition three_and_four : list Measurement :=
  [reading 1 "Gain" (Some 1%float) "A" "SN1" "P1";
   reading 2 "Gain" (Some 2%float) "A" "SN2" "P1";
   reading 3 "Gain" (Some 3%float) "A" "SN3" "P1";
   reading 4 "Gain" (Some 4%float) "B" "SN1" "P1";
   reading 5 "Gain" (Some 5%float) "B" "SN2" "P1";
   reading 6 "Gain" (Some 6%float) "B" "SN3" "P1";
   reading 7 "Gain" (Some 7%float) "B" "SN4" "P1"]%string.

(** Five readings on fixture A and two on fixture B. *)
Definition five_and_two : list Measurement :=
  [reading 1 "Gain" (Some 1%float) "A" "SN1" "P1";
   reading 2 "Gain" (Some 2%float) "A" "SN2" "P1";
   reading 3 "Gain" (Some 3%float) "A" "SN3" "P1";
   reading 4 "Gain" (Some 4%float) "A" "SN4" "P1";
   reading 5 "Gain" (Some 5%float) "A" "SN5" "P1";
   reading 6 "Gain" (Some 6%float) "B" "SN1" "P1";
   reading 7 "Gain" (Some 7%float) "B" "SN2" "P1"]%string.

(** One record of batch P1, three of P3 and seven of P7, first met in
    that order. *)
Definition seven_three_one : list Measurement :=
  [reading 1 "Gain" (Some 10%float) "A" "SN01" "P1";
   reading 2 "Gain" (Some 2%float) "A" "SN02" "P3";
   reading 3 "Gain" (Some 1%float) "A" "SN03" "P7";
   reading 4 "Gain" (Some 4%float) "A" "SN04" "P3";
   reading 5 "Gain" (Some 1%float) "A" "SN05" "P7";
   reading 6 "Gain" (Some 1%float) "A" "SN06" "P7";
   reading 7 "Gain" (Some 6%float) "A" "SN07" "P3";
   reading 8 "Gain" (Some 1%float) "A" "SN08" "P7";
   reading 9 "Gain" (Some 1%float) "A" "SN09" "P7";
   reading 10 "Gain" (Some 1%float) "A" "SN10" "P7";
   reading 11 "Gain" (Some 1%float) "A" "SN11" "P7"]%string.

(** One board read twice on fixture A, then once on fixture B. *)
Definition two_on_a : list Measurement :=
  [reading 1 "Gain" (Some 1%float) "A" "SN1" "P1";
   reading 2 "Gain" (Some 2%float) "A" "SN1" "P1";
   reading 3 "Gain" (Some 3%float) "B" "SN1" "P1"]%string.


(** Ten records, five boards on two fixtures each, strategy ['last']:
    five pairs. *)
Definition five_boards : list Measurement :=
  [reading 1 "Gain" (Some 1%float) "A" "SN1" "P1";
   reading 2 "Gain" (Some 2%float) "A" "SN2" "P1";
   reading 3 "Gain" (Some 3%float) "A" "SN3" "P1";
   reading 4 "Gain" (Some 4%float) "A" "SN4" "P1";
   reading 5 "Gain" (Some 5%float) "A" "SN5" "P1";
   reading 6 "Gain" (Some 6%float) "B" "SN1" "P1";
   reading 7 "Gain" (Some 7%float) "B" "SN2" "P1";
   reading 8 "Gain" (Some 8%float) "B" "SN3" "P1";
   reading 9 "Gain" (Some 9%float) "B" "SN4" "P1";
   reading 10 "Gain" (Some 10%float) "B" "SN5" "P1"]%string.

(** ** Configurations *)

(** [GraphConfig(measurements=ms, group_by_field=field)] *)
Definition grouped_config (ms : list Measurement) (field : string) : GraphConfig :=
  {| measurements := ms;
     graph_type := SCATTER;
     legend_position := "top-right";
     legend_bg_opacity := 235;
     enable_grouping_boxes := false;
     group_by_field := Some field;
     comparison_mode := NONE;
     x_axis_measurement := None;
     y_axis_measurement := None;
     x_axis_field := "created_at";
     y_axis_field := None;
     x_axis_use_indices := true;
     pairing_device := "pia";
     pairing_strategy := "last";
     auto_overlay_plots := true;
     remove_outliers := false;
     x_label := None;
     y_label := None |}.

(** [GraphConfig(measurements=ms, comparison_mode=SAME_MEASUREMENT,
    x_axis_measurement='Gain', x_axis_field='sub_test.test_log.test_fixture')]
    after construction: pairing by board serial, strategy ['last']. *)
Definition same_measurement_config (ms : list Measurement) : GraphConfig :=
  {| measurements := ms;
     graph_type := SCATTER;
     legend_position := "top-right";
     legend_bg_opacity := 235;
     enable_grouping_boxes := false;
     group_by_field := None;
     comparison_mode := SAME_MEASUREMENT;
     x_axis_measurement := Some "Gain"%string;
     y_axis_measurement := Some "Gain"%string;
     x_axis_field := "sub_test.test_log.test_fixture";
     y_axis_field := None;
     x_axis_use_indices := true;
     pairing_device := "pia";
     pairing_strategy := "last";
     auto_overlay_plots := true;
     remove_outliers := false;
     x_label := None;
     y_label := None |}.

(** ** A sample rendering surface

    For the concrete runs: one scatter collection per group that has
    points, its points registered in the point map as [_plot_scatter]
    registers them, with the identities 1, 2, ... in group order. *)

Definition xval_float (x : XVal) : float :=
  match x with
  | XInt z => float_of_Z z
  | XFloat f => f
  end.

Fixpoint register_points (item : Z) (idx : nat) (indices : list nat)
    (ms : list Measurement) (pmap : gmap (Z * Z) Measurement) : gmap (Z * Z) Measurement :=
  match indices with
  | [] => pmap
  | meas_idx :: rest =>
      register_points item (S idx) rest ms
        (match ms !! meas_idx with
         | Some m => <[(item, Z.of_nat idx) := m]> pmap
         | None => pmap
         end)
  end.

Fixpoint scatter_groups (gs : list (string * GroupData)) (next_id : Z) (d : Drawn) : Drawn :=
  match gs with
  | [] => d
  | g :: rest =>
      let gd := snd g in
      match x_data gd with
      | [] => scatter_groups rest next_id d
      | _ :: _ =>
          let item := {| item_class := ScatterPlotItem;
                         item_x := Some (map xval_float (x_data gd));
                         item_y := Some (y_data gd);
                         item_size := SizeScalar 8;
                         original_sizes := None |} in
          scatter_groups rest (next_id + 1)
            {| drawn_items := <[next_id := item]> (drawn_items d);
               drawn_map := register_points next_id 0 (measurement_indices gd)
                              (gd_measurements gd) (drawn_map d);
               drawn_tooltip := drawn_tooltip d |}
      end
  end.

Definition sample_rendering : Rendering := {|
  redraw := fun _ data pmap =>
    let blank := {| drawn_items := ∅; drawn_map := pmap; drawn_tooltip := Some false |} in
    match data with
    | Some d => scatter_groups (groups d) 1 blank
    | None => blank
    end
|}.

(** ** Sessions *)

(** The session of the sample: the seven readings prepared and drawn. *)
Definition sample_generator : Generator :=
  new_generator (grouped_config three_and_four "test_fixture").

Definition sample_prepared : Generator :=
  snd (@prepare_data sequential_runtime sample_generator).

Definition sample_drawn : Generator := @draw sample_rendering sample_prepared.

(** Two deletions that go through, and one with an index out of range. *)
Definition sample_actions : list Action :=
  [DeletePoint 1 2; DeletePoint 2 0; DeletePoint 1 9].

(** The seven readings of [five_and_two] prepared and drawn: collection 1
    has five points, collection 2 has two. *)
Definition five_drawn : Generator :=
  @draw sample_rendering
    (snd (@prepare_data sequential_runtime
            (new_generator (grouped_config five_and_two "test_fixture")))).

(** The five-point collection as drawn. *)
Definition five_item : PlotItem :=
  {| item_class := ScatterPlotItem;
     item_x := Some [0; 1; 2; 3; 4]%float;
     item_y := Some [1; 2; 3; 4; 5]%float;
     item_size := SizeScalar 8;
     original_sizes := None |}.

Definition sample_keys : list (Z * Z) :=
  [(1, 0); (1, 1); (1, 2); (1, 3); (1, 4); (2, 0); (2, 1)]%Z.

(** ** Reading results *)

Definition x_data_of (r : Result PreparedData) : list (string * list XVal) :=
  match r with
  | Ok data => map (fun g => (fst g, x_data (snd g))) (groups data)
  | Raise _ => []
  end.

Definition points_shown (g : Generator) (item : Z) : option (list float) :=
  plot_items g !! item ≫= item_x.

(** The ids of the measurements the point map holds at the given keys. *)
Definition ids_at (g : Generator) (keys : list (Z * Z)) : list (option Z) :=
  map (fun key => id <$> point_measurement_map g !! key) keys.

Definition pair_ids (r : Result (list (Measurement * Measurement))) : list (Z * Z) :=
  match r with
  | Ok pairs => map (fun ab => (id (fst ab), id (snd ab))) pairs
  | Raise _ => []
  end.

Definition point_ids (ps : list PairedPoint) : list (Z * option Z) :=
  map (fun p => (id (our_measurement p), id <$> other_measurement p)) ps.

(* ===================================================================== *)
(** * The embedding, continued: sizes, point registration, hit testing,
      selection and the other pairings of the page                        *)
(* ===================================================================== *)

(** ** graph_utils.py: the size tables *)

(** [calculate_point_size(num_points)] *)
Definition calculate_point_size (num_points : Z) : float :=
  if (num_points <=? 0)%Z then 8%float
  else if (num_points <=? 20)%Z then 15%float
  else if (num_points <=? 50)%Z then 12%float
  else if (num_points <=? 100)%Z then 10%float
  else if (num_points <=? 200)%Z then 8%float
  else if (num_points <=? 500)%Z then 7%float
  else if (num_points <=? 1000)%Z then 6%float
  else 5%float.

(** [calculate_line_width(num_points)]; [0x1.ccccccccccccdp+0] is the
    double written [1.8]. *)
Definition calculate_line_width (num_points : Z) : float :=
  if (num_points <=? 0)%Z then 2%float
  else if (num_points <=? 20)%Z then 3.5%float
  else if (num_points <=? 50)%Z then 3%float
  else if (num_points <=? 100)%Z then 2.5%float
  else if (num_points <=? 200)%Z then 2%float
  else if (num_points <=? 500)%Z then 0x1.ccccccccccccdp+0%float
  else 1.5%float.

(** [calculate_bar_width(num_bins)]; the hexadecimal constants are the
    doubles written [0.8], [0.95], [0.90], [0.85], [0.80] and [0.70]. *)
Definition calculate_bar_width (num_bins : Z) : float :=
  if (num_bins <=? 0)%Z then 0x1.999999999999ap-1%float
  else if (num_bins <=? 10)%Z then 0x1.e666666666666p-1%float
  else if (num_bins <=? 20)%Z then 0x1.ccccccccccccdp-1%float
  else if (num_bins <=? 50)%Z then 0x1.b333333333333p-1%float
  else if (num_bins <=? 100)%Z then 0x1.999999999999ap-1%float
  else if (num_bins <=? 200)%Z then 0.75%float
  else 0x1.6666666666666p-1%float.

(** ** graph_generator.py: the number of bins of the histogram *)

(** [num_bins] in [_plot_histogram], for [n = len(all_values)]:
    [min(50, max(10, n // 5))], then [min(n, 10)] if that is below 5. *)
Definition histogram_num_bins (n : Z) : Z :=
  let num_bins := Z.min 50 (Z.max 10 (n / 5)) in
  if (num_bins <? 5)%Z then Z.min n 10 else num_bins.

(** The loop of [_plot_histogram] that combines the values of all groups:
    with outlier removal the flagged values are left out. *)
Definition histogram_values (config : GraphConfig) (groups : list (string * GroupData))
    : list float :=
  concat
    (map (fun g : string * GroupData =>
            let group_data := snd g in
            match y_data group_data with
            | [] => []
            | _ :: _ =>
                if remove_outliers config
                then map fst (List.filter (fun p : float * bool => negb (snd p))
                                (zip (y_data group_data) (is_outlier group_data)))
                else y_data group_data
            end)
         groups).

(** ** graph_generator.py: registering the points of a scatter item *)

(** The loop [for idx, (x, y) in enumerate(zip(x_data, y_data))] of
    [_plot_scatter], from index [idx]: the exception raised, if any, and
    the point map afterwards.  Indexing a list past its end raises
    [IndexError]. *)
Fixpoint register_loop (item_id : Z) (idx : nat) (points : list (XVal * float))
    (group_data : GroupData) (pmap : gmap (Z * Z) Measurement)
    : Result Datatypes.unit * gmap (Z * Z) Measurement :=
  match points with
  | [] => (Ok tt, pmap)
  | _ :: rest =>
      match measurement_indices group_data !! idx with
      | None => (Raise IndexError, pmap)
      | Some meas_idx =>
          match gd_measurements group_data !! meas_idx with
          | None => (Raise IndexError, pmap)
          | Some m =>
              register_loop item_id (S idx) rest group_data
                (<[(item_id, Z.of_nat idx) := m]> pmap)
          end
      end
  end.

(** The registration of one group of [_plot_scatter], for the scatter item
    of identity [item_id]; a group without x data draws nothing. *)
Definition register_group (item_id : Z) (group_data : GroupData)
    (pmap : gmap (Z * Z) Measurement)
    : Result Datatypes.unit * gmap (Z * Z) Measurement :=
  match x_data group_data with
  | [] => (Ok tt, pmap)
  | _ :: _ =>
      register_loop item_id 0 (zip (x_data group_data) (y_data group_data)) group_data pmap
  end.

(** ** graph_generator.py: selecting a point *)

(** The position [l[i]] names in a sequence of [n] elements: Python takes
    an index in [-n, n), a negative one counting from the end. *)
Definition py_index (n : nat) (i : Z) : Result nat :=
  if (0 <=? i)%Z && (i <? Z.of_nat n)%Z then Ok (Z.to_nat i)
  else if (- Z.of_nat n <=? i)%Z && (i <? 0)%Z then Ok (Z.to_nat (i + Z.of_nat n))
  else Raise IndexError.

(** [l[i]] *)
Definition py_list_get {A : Type} (l : list A) (i : Z) : Result A :=
  k ← py_index (length l) i;
  match l !! k with
  | Some x => Ok x
  | None => Raise IndexError
  end.

(** [l[i] = v] *)
Definition py_list_set {A : Type} (l : list A) (i : Z) (v : A) : Result (list A) :=
  k ← py_index (length l) i;
  Ok (<[k := v]> l).

Definition set_original_sizes (os : Sizes) (it : PlotItem) : PlotItem :=
  {| item_class := item_class it; item_x := item_x it; item_y := item_y it;
     item_size := item_size it; original_sizes := Some os |}.

(** The sizes [_select_point] and [_apply_hover_highlight] give to the
    points of an item: the original ones, the point at [point_idx] enlarged
    by [factor].  [len(item.getData()[0])] raises [TypeError] on an item
    without data. *)
Definition highlight_sizes (it : PlotItem) (os : Sizes) (point_idx : Z) (factor : float)
    : Result (list float) :=
  match os with
  | SizeScalar s =>
      match item_x it with
      | Some xs => py_list_set (replicate (length xs) s) point_idx (PrimFloat.mul s factor)
      | None => Raise TypeError
      end
  | SizeList l =>
      v ← py_list_get l point_idx;
      py_list_set l point_idx (PrimFloat.mul v factor)
  end.

(** [_select_point(item, point_idx, plot_widget)], the item given by its
    identity (an identity that names no item of the widget stands for an
    object that is not a scatter item): the exception raised, if any, and
    the generator afterwards (what was written before an exception stays
    written).  [0x1.ccccccccccccdp+0] is the double written [1.8]. *)
Definition _select_point (item_id point_idx : Z) (g : Generator)
    : Result Datatypes.unit * Generator :=
  let g1 := _clear_selection g in
  match plot_items g1 !! item_id with
  | None => (Ok tt, g1)
  | Some it =>
      if negb (bool_decide (item_class it = ScatterPlotItem)) then (Ok tt, g1)
      else
        let os := default (item_size it) (original_sizes it) in
        let it1 := set_original_sizes os it in
        let g2 := set_drawing (<[item_id := it1]> (plot_items g1))
                    (point_measurement_map g1) g1 in
        match highlight_sizes it1 os point_idx 0x1.ccccccccccccdp+0 with
        | Raise e => (Raise e, g2)
        | Ok sizes =>
            (Ok tt,
             set_selection (Some item_id) (Some point_idx) (tooltip_label g2)
               (set_drawing (<[item_id := item_set_size (SizeList sizes) it1]> (plot_items g2))
                  (point_measurement_map g2) g2))
        end
  end.

(** ** graph_generator.py: the hover highlight *)

(** The fields [hover_item] and [hover_index] of the generator. *)
Record Hover : Type := {
  hover_item : option Z;
  hover_index : option Z
}.

(** [_clear_hover_highlight(plot_widget)] *)
Definition _clear_hover_highlight (h : Hover) (g : Generator) : Hover * Generator :=
  let items :=
    match hover_item h with
    | Some hid =>
        match plot_items g !! hid with
        | Some it =>
            match item_class it, original_sizes it with
            | ScatterPlotItem, Some os =>
                if negb (bool_decide (selected_item g = Some hid))
                   || negb (bool_decide (selected_index g = hover_index h))
                then <[hid := item_set_size os it]> (plot_items g)
                else plot_items g
            | _, _ => plot_items g
            end
        | None => plot_items g
        end
    | None => plot_items g
    end in
  ({| hover_item := None; hover_index := None |},
   set_drawing items (point_measurement_map g) g).

(** [_apply_hover_highlight(item, point_idx, plot_widget)], the item given
    by its identity: the exception raised, if any, and the hover fields
    and the generator afterwards. *)
Definition _apply_hover_highlight (item_id point_idx : Z) (h : Hover) (g : Generator)
    : Result Datatypes.unit * (Hover * Generator) :=
  let hg1 :=
    if negb (bool_decide (hover_item h = Some item_id))
       || negb (bool_decide (hover_index h = Some point_idx))
    then _clear_hover_highlight h g
    else (h, g) in
  let h1 := fst hg1 in
  let g1 := snd hg1 in
  match plot_items g1 !! item_id with
  | None => (Ok tt, (h1, g1))
  | Some it =>
      if negb (bool_decide (item_class it = ScatterPlotItem)) then (Ok tt, (h1, g1))
      else if negb (bool_decide (selected_item g1 = Some item_id))
              || negb (bool_decide (selected_index g1 = Some point_idx))
      then
        let os := default (item_size it) (original_sizes it) in
        let it1 := set_original_sizes os it in
        let g2 := set_drawing (<[item_id := it1]> (plot_items g1))
                    (point_measurement_map g1) g1 in
        match highlight_sizes it1 os point_idx 1.5 with
        | Raise e => (Raise e, (h1, g2))
        | Ok sizes =>
            (Ok tt,
             ({| hover_item := Some item_id; hover_index := Some point_idx |},
              set_drawing (<[item_id := item_set_size (SizeList sizes) it1]> (plot_items g2))
                (point_measurement_map g2) g2))
        end
      else (Ok tt, (h1, g1))
  end.

(** ** graph_generator.py: the point under the cursor *)

(** [self.histogram_data], as far as hit testing reads it: the bin
    centres, the counts and the bin width. *)
Record HistogramData : Type := {
  hist_x : list float;
  hist_heights : list Z;
  hist_width : float
}.

(** The triple [_find_nearest_point] returns. *)
Record Nearest : Type := {
  nearest_item : option Z;
  nearest_idx : option nat;
  min_distance : float
}.

Section HitTesting.
(** The view box's coordinate maps ([plot_item.vb.mapViewToScene],
    [mapSceneToView]) and the distance [np.sqrt(dx**2 + dy**2)] belong to
    the libraries. *)
Variable map_view_to_scene : float * float -> float * float.
Variable map_scene_to_view : float * float -> float * float.
Variable np_distance : float -> float -> float.

(** The loop [for idx in range(len(x_data))] over the points of one
    scatter item, from index [idx]. *)
Fixpoint scan_points (item_id : Z) (scene_pos : float * float) (threshold : float)
    (idx : nat) (xs ys : list float) (st : Nearest) : Result Nearest :=
  match xs with
  | [] => Ok st
  | x :: xs' =>
      match ys with
      | [] => Raise IndexError
      | y :: ys' =>
          let scene_point := map_view_to_scene (x, y) in
          let dx := PrimFloat.sub (fst scene_point) (fst scene_pos) in
          let dy := PrimFloat.sub (snd scene_point) (snd scene_pos) in
          let distance := np_distance dx dy in
          scan_points item_id scene_pos threshold (S idx) xs' ys'
            (if PrimFloat.ltb distance (min_distance st) && PrimFloat.ltb distance threshold
             then {| nearest_item := Some item_id; nearest_idx := Some idx;
                     min_distance := distance |}
             else st)
      end
  end.

(** The loop over the bars of the histogram, from index [idx]: the first
    bar of positive count that holds the cursor ends it.
    [0x1.ccccccccccccdp-2] is the double written [0.45]. *)
Fixpoint scan_bars (item_id : Z) (view_pos : float * float) (width : float)
    (idx : nat) (bars : list (float * Z)) (st : Nearest) : Nearest :=
  match bars with
  | [] => st
  | (x_center, height) :: rest =>
      if (height =? 0)%Z then scan_bars item_id view_pos width (S idx) rest st
      else
        let half_width := PrimFloat.mul width 0x1.ccccccccccccdp-2 in
        if PrimFloat.leb (PrimFloat.sub x_center half_width) (fst view_pos)
           && PrimFloat.leb (fst view_pos) (PrimFloat.add x_center half_width)
           && PrimFloat.leb 0 (snd view_pos)
           && PrimFloat.leb (snd view_pos) (float_of_Z height)
        then {| nearest_item := Some item_id; nearest_idx := Some idx; min_distance := 0 |}
        else scan_bars item_id view_pos width (S idx) rest st
  end.

(** The loop [for item in plot_item.items]; the items in the order of the
    widget, each with its identity.  [getData()] gives the pair of the x and
    the y data, so the guard on its length never skips an item; taking the
    length of absent x data, or a point of absent y data, raises
    [TypeError]. *)
Fixpoint nearest_loop (items : list (Z * PlotItem)) (histogram_data : option HistogramData)
    (scene_pos view_pos : float * float) (threshold : float) (st : Nearest)
    : Result Nearest :=
  match items with
  | [] => Ok st
  | (item_id, it) :: rest =>
      match item_class it with
      | ScatterPlotItem =>
          match item_x it with
          | None => Raise TypeError
          | Some xs =>
              match item_y it, xs with
              | Some ys, _ =>
                  st' ← scan_points item_id scene_pos threshold 0 xs ys st;
                  nearest_loop rest histogram_data scene_pos view_pos threshold st'
              | None, [] => nearest_loop rest histogram_data scene_pos view_pos threshold st
              | None, _ :: _ => Raise TypeError
              end
          end
      | BarGraphItem =>
          match histogram_data with
          | Some h =>
              nearest_loop rest histogram_data scene_pos view_pos threshold
                (scan_bars item_id view_pos (hist_width h) 0
                   (zip (hist_x h) (hist_heights h)) st)
          | None => nearest_loop rest histogram_data scene_pos view_pos threshold st
          end
      | PlotDataItem => nearest_loop rest histogram_data scene_pos view_pos threshold st
      end
  end.

(** [_find_nearest_point(scene_pos, plot_widget, threshold)] *)
Definition _find_nearest_point (items : list (Z * PlotItem))
    (histogram_data : option HistogramData) (scene_pos : float * float) (threshold : float)
    : Result Nearest :=
  nearest_loop items histogram_data scene_pos (map_scene_to_view scene_pos) threshold
    {| nearest_item := None; nearest_idx := None; min_distance := infinity |}.

End HitTesting.

(** ** graph_page.py: pairing with manufacturer data *)

(** One entry of the manufacturer data (a dictionary in the source); the
    name is [None] when the key is missing. *)
Record ManufacturerEntry : Type := {
  me_device_serial : string;
  me_measurement : option float;
  me_manufacturer_name : option string
}.

(** One entry of the data paired with the manufacturer's. *)
Record ManufacturerPair : Type := {
  mp_device_id : string;
  mp_our_value : float;
  mp_mfr_value : float;
  mp_our_measurement : Measurement;
  mp_manufacturer_name : string
}.

(** [{m['device_serial']: m for m in manufacturer_data}] *)
Definition mfr_by_serial_of (manufacturer_data : list ManufacturerEntry)
    : list (string * ManufacturerEntry) :=
  fold_left (fun d e => pydict_set (me_device_serial e) e d) manufacturer_data [].

(** [_pair_with_manufacturer_data(our_measurements, manufacturer_data)] *)
Definition _pair_with_manufacturer_data (our_measurements : list Measurement)
    (manufacturer_data : list ManufacturerEntry) : list ManufacturerPair :=
  match manufacturer_data with
  | [] => []
  | _ :: _ =>
      let mfr_by_serial := mfr_by_serial_of manufacturer_data in
      omap (M:=list)
        (fun our_m : Measurement =>
           match _get_device_serial our_m with
           | Some serial =>
               if str_truthy serial then
                 match pydict_get serial mfr_by_serial with
                 | Some mfr_data =>
                     match measurement our_m, me_measurement mfr_data with
                     | Some our_v, Some mfr_v =>
                         Some {| mp_device_id := serial;
                                 mp_our_value := our_v;
                                 mp_mfr_value := mfr_v;
                                 mp_our_measurement := our_m;
                                 mp_manufacturer_name :=
                                   default "Manufacturer"%string (me_manufacturer_name mfr_data) |}
                     | _, _ => None
                     end
                 | None => None
                 end
               else None
           | None => None
           end)
        our_measurements
  end.

(** ** graph_page.py: pairing the first and the last test of a device *)

(** One entry of the first/last pairing. *)
Record FirstLastPair : Type := {
  fl_device_id : string;
  fl_our_value : option float;
  fl_mfr_value : option float;
  fl_our_measurement : Measurement;       (* the last test *)
  fl_other_measurement : Measurement;     (* the first test *)
  fl_first_date : option Datetime;
  fl_last_date : option Datetime
}.

(** The first loop of [_pair_first_last_tests]: the valued records of each
    device. *)
Definition first_last_devices_of (ms : list Measurement) : list (string * list Measurement) :=
  fold_left
    (fun d m =>
       match _get_device_serial m with
       | Some serial => if str_truthy serial && has_value m then pydict_append serial m d else d
       | None => d
       end)
    ms [].

Section FirstLast.
(** The order of [datetime] values and [datetime.min] belong to the
    library. *)
Variable datetime_le : Datetime -> Datetime -> bool.
Variable datetime_min : Datetime.

(** The sort key [m.created_at if m.created_at else datetime.min]. *)
Definition created_key (m : Measurement) : Datetime :=
  default datetime_min (created_at m).

(** The order of the sort keys. *)
Definition created_le (a b : Measurement) : bool :=
  datetime_le (created_key a) (created_key b).

(** [_pair_first_last_tests(measurements)] *)
Definition _pair_first_last_tests (ms : list Measurement) : list FirstLastPair :=
  omap (M:=list)
    (fun dev : string * list Measurement =>
       let device_ms := snd dev in
       if (2 <=? length device_ms)%nat then
         let sorted_ms := py_sorted created_le device_ms in
         match head sorted_ms, last sorted_ms with
         | Some first_m, Some last_m =>
             if has_value first_m && has_value last_m then
               Some {| fl_device_id := fst dev;
                       fl_our_value := measurement last_m;
                       fl_mfr_value := measurement first_m;
                       fl_our_measurement := last_m;
                       fl_other_measurement := first_m;
                       fl_first_date := created_at first_m;
                       fl_last_date := created_at last_m |}
             else None
         | _, _ => None
         end
       else None)
    (first_last_devices_of ms).

End FirstLast.

(** ** graph_page.py: the group and the x-axis value of a pair *)

Section PairLabels.
(** [datetime.strftime('%Y-%m-%d')] belongs to the library. *)
Variable strftime_day : Datetime -> string.

(** [_get_group_value(measurement, group_by_field)] *)
Definition _get_group_value (m : Measurement) (group_by_field : string) : option string :=
  match test_log_of m with
  | None => None
  | Some tl =>
      if String.eqb group_by_field "pia_serial" then
        match pia_board tl with Some b => serial_number b | None => None end
      else if String.eqb group_by_field "pia_part" then
        match pia_board tl with Some b => part_number b | None => None end
      else if String.eqb group_by_field "pmt_serial" then
        match pmt_device tl with Some p => pmt_serial_number p | None => None end
      else if String.eqb group_by_field "pmt_batch" then
        match pmt_device tl with Some p => batch_number p | None => None end
      else if String.eqb group_by_field "pmt_generation" then
        match pmt_device tl with
        | Some p =>
            match generation p with
            | Some gen => if (gen =? 0)%Z then None else Some (str_of_Z gen)
            | None => None
            end
        | None => None
        end
      else if String.eqb group_by_field "test_fixture" then test_fixture tl
      else if String.eqb group_by_field "test_date" then
        match tl_created_at tl with Some d => Some (strftime_day d) | None => None end
      else None
  end.

(** The ['group'] entry [_add_grouping_to_paired_data] writes for a pair
    whose ['our_measurement'] is [our_m]. *)
Definition pair_group (our_m : Measurement) (group_by_field : string) : string :=
  opt_or (_get_group_value our_m group_by_field) "Unknown".

(** The ['x_axis_value'] entry [_add_x_axis_ordering_to_paired_data]
    writes for a pair of device [device]. *)
Definition pair_x_axis_value (our_m : Measurement) (device : string) (x_axis_field : string)
    : string :=
  if negb (String.eqb x_axis_field "index")
  then opt_or (_get_group_value our_m x_axis_field) device
  else device.

(** [_add_grouping_to_paired_data(paired_data, group_by_field)]: the pairs,
    each with its new ['group'] entry. *)
Definition _add_grouping_to_paired_data (paired_data : list PairedPoint)
    (group_by_field : string) : list (PairedPoint * string) :=
  map (fun pair => (pair, pair_group (our_measurement pair) group_by_field)) paired_data.

(** [_add_x_axis_ordering_to_paired_data(paired_data, x_axis_field)]: the
    pairs, each with its new ['x_axis_value'] entry. *)
Definition _add_x_axis_ordering_to_paired_data (paired_data : list PairedPoint)
    (x_axis_field : string) : list (PairedPoint * string) :=
  map (fun pair =>
         (pair, pair_x_axis_value (our_measurement pair) (device_id pair) x_axis_field))
      paired_data.

End PairLabels.

(** ** Vocabulary of the further properties *)

(** The measurement [_plot_scatter] registers for point [k] of a group:
    [group_data['measurements'][group_data['measurement_indices'][k]]]. *)
Definition registered (group_data : GroupData) (k : nat) : option Measurement :=
  measurement_indices group_data !! k ≫= fun i => gd_measurements group_data !! i.

(** The value plotted for a measurement in a standard plot: NaN stands for
    a missing one. *)
Definition plotted_value (m : Measurement) : float := default nan (measurement m).

(** A dictionary filled by overwriting: the loop
    [for x in l: if key(x): d[key(x)] = x].  A key keeps the position of
    its first insertion and holds the last value written. *)
Definition file_last {A K : Type} `{EqDecision K} (key : A -> option K)
    (l : list A) (acc : list (K * A)) : list (K * A) :=
  fold_left (fun d x => match key x with
                        | Some k => pydict_set k x d
                        | None => d
                        end) l acc.

Section DifferentVocabulary.
Variable config : GraphConfig.




End DifferentVocabulary.

(** The manufacturer entry in force for a serial: the last one of the
    data with that serial. *)
Definition mfr_entry_for (manufacturer_data : list ManufacturerEntry) (serial : string)
    : option ManufacturerEntry :=
  last (filter (fun e => me_device_serial e = serial) manufacturer_data).

(** The pair one of our measurements makes with the manufacturer data, if
    it makes one: its device has a non-empty serial, the entry in force for
    that serial has a value, and so has the measurement. *)
Definition manufacturer_pair (manufacturer_data : list ManufacturerEntry) (our_m : Measurement)
    : option ManufacturerPair :=
  match _get_device_serial our_m with
  | Some serial =>
      if str_truthy serial then
        match mfr_entry_for manufacturer_data serial with
        | Some mfr_data =>
            match measurement our_m, me_measurement mfr_data with
            | Some our_v, Some mfr_v =>
                Some {| mp_device_id := serial;
                        mp_our_value := our_v;
                        mp_mfr_value := mfr_v;
                        mp_our_measurement := our_m;
                        mp_manufacturer_name :=
                          default "Manufacturer"%string (me_manufacturer_name mfr_data) |}
            | _, _ => None
            end
        | None => None
        end
      else None
  | None => None
  end.

(** The device [_pair_first_last_tests] files a record under, if any: its
    serial, when that is a non-empty text and the record has a value. *)
Definition first_last_device (m : Measurement) : option string :=
  match _get_device_serial m with
  | Some serial => if str_truthy serial && has_value m then Some serial else None
  | None => None
  end.

(** What [_find_nearest_point] may return for the items [items] of the
    widget: nothing, or an item of the widget with the index of one of its
    points (closer to the cursor than the threshold) or of one of the
    non-empty bars of the histogram. *)
Definition hit_in_range (items : list (Z * PlotItem)) (histogram_data : option HistogramData)
    (threshold : float) (r : Nearest) : Prop :=
  match nearest_item r, nearest_idx r with
  | None, None => True
  | Some item_id, Some idx =>
      exists it : PlotItem,
        (item_id, it) ∈ items
        /\ match item_class it with
           | ScatterPlotItem =>
               exists xs ys : list float,
                 item_x it = Some xs /\ item_y it = Some ys
                 /\ (idx < length xs)%nat /\ (idx < length ys)%nat
                 /\ PrimFloat.ltb (min_distance r) threshold = true
           | BarGraphItem =>
               exists (h : HistogramData) (x : float) (count : Z),
                 histogram_data = Some h
                 /\ hist_x h !! idx = Some x
                 /\ hist_heights h !! idx = Some count
                 /\ count <> 0%Z
           | PlotDataItem => False
           end
  | _, _ => False
  end.

(** A scatter item as the engine keeps it: x and y data of the same
    length; sizes that are one number, or one number per point once the
    original sizes have been recorded; recorded sizes that are one number
    or one per point. *)
Definition well_formed_item (it : PlotItem) : Prop :=
  exists xs ys : list float,
    item_x it = Some xs /\ item_y it = Some ys /\ length ys = length xs
    /\ match original_sizes it with
       | Some (SizeList l) => length l = length xs
       | _ => True
       end
    /\ match item_size it with
       | SizeScalar _ => True
       | SizeList l => length l = length xs /\ original_sizes it <> None
       end.

(** Every scatter item of the widget is well formed. *)
Definition well_formed_items (g : Generator) : Prop :=
  forall (item_id : Z) (it : PlotItem),
    plot_items g !! item_id = Some it -> item_class it = ScatterPlotItem ->
    well_formed_item it.

(** The size of point [k] under a size setting. *)
Definition size_at (s : Sizes) (k : nat) : option float :=
  match s with
  | SizeScalar v => Some v
  | SizeList l => l !! k
  end.

(** The sizes an item goes back to when a highlight is cleared: the
    recorded original sizes, or its current sizes if none were recorded. *)
Definition resting_sizes (it : PlotItem) : Sizes :=
  default (item_size it) (original_sizes it).

(** [it'] is [it] with possibly its sizes set back to the recorded original
    sizes. *)
Definition resized (it it' : PlotItem) : Prop :=
  item_class it' = item_class it
  /\ item_x it' = item_x it /\ item_y it' = item_y it
  /\ original_sizes it' = original_sizes it
  /\ (item_size it' = item_size it \/ original_sizes it = Some (item_size it')).

(** The number of points flagged as outliers in the prepared groups. *)
Definition flagged_points (groups : list (string * GroupData)) : nat :=
  sum_list (map (fun g : string * GroupData => mask_sum (is_outlier (snd g))) groups).

(** The point map is aligned with the widget: every point of every scatter
    item has an entry, and the map has no entry of the item past its last
    point. *)
Definition points_registered (g : Generator) : Prop :=
  forall (item_id : Z) (it : PlotItem) (xs : list float),
    plot_items g !! item_id = Some it ->
    item_class it = ScatterPlotItem ->
    item_x it = Some xs ->
    forall j : Z,
      is_Some (point_measurement_map g !! (item_id, j))
      <-> (0 <= j < Z.of_nat (length xs))%Z.

(** ** Further sample data *)

(** A measurement that carries a plot. *)
Definition plot_reading (i : Z) (nm : string) (points : list (float * float)) : Measurement :=
  {| id := i; name := nm; unit := "V"; measurement := None; nominal := None;
     has_plot := true; plot_data := Some points; created_at := None;
     sub_test := None; pia := None; pmt := None |}.

(** A reading, a plot, a reading without value and one more reading. *)
Definition readings_and_plot : list Measurement :=
  [reading 1 "Gain" (Some 1%float) "A" "SN1" "P1";
   plot_reading 2 "Sweep" [(0, 1); (1, 2)]%float;
   reading 3 "Gain" None "A" "SN3" "P1";
   reading 4 "Gain" (Some 4%float) "A" "SN4" "P1"]%string.

(** [GraphConfig(measurements=ms, comparison_mode=DIFFERENT_MEASUREMENTS,
    x_axis_measurement='Gain', y_axis_measurement='Noise')] *)
Definition different_config (ms : list Measurement) : GraphConfig :=
  with_comparison DIFFERENT_MEASUREMENTS (Some "Gain"%string) (Some "Noise"%string)
    (default_config ms).

(** A view box that maps view coordinates to scene coordinates unchanged. *)
Definition identity_view (p : float * float) : float * float := p.

(** The distance computed with correctly rounded operations. *)
Definition euclid_distance (dx dy : float) : float :=
  PrimFloat.sqrt (PrimFloat.add (PrimFloat.mul dx dx) (PrimFloat.mul dy dy)).

(** A generator whose widget shows the five-point item under identity 1. *)
Definition five_shown : Generator :=
  set_drawing {[1%Z := five_item]} ∅ (new_generator (default_config [])).

(** The five-point item shown with its five points registered. *)
Definition five_registered : Generator :=
  set_drawing {[1%Z := five_item]}
    (list_to_map (map (fun j : Z => ((1%Z, j), reading j "Gain" (Some 1%float) "A" "SN1" "P1"))
                      [0; 1; 2; 3; 4]%Z))
    (new_generator (default_config [])).

(** A reading taken at a given time. *)
Definition reading_at (i : Z) (t : float) (v : option float) (serial : string) : Measurement :=
  let board := {| serial_number := Some serial; part_number := Some "P1"%string |} in
  {| id := i; name := "Gain"; unit := "V"; measurement := v; nominal := None;
     has_plot := false; plot_data := None;
     created_at := Some {| dt_timestamp := t; dt_text := "" |};
     sub_test := Some {| test_id := i;
                         test_log := Some {| test_fixture := Some "A"%string;
                                             pia_board := Some board;
                                             pmt_device := None;
                                             tl_created_at := None |} |};
     pia := Some board; pmt := None |}.

(** Three tests of one board, met out of order, and one test of another. *)
Definition three_tests : list Measurement :=
  [reading_at 1 20 (Some 2%float) "SN1";
   reading_at 2 10 (Some 1%float) "SN1";
   reading_at 3 30 (Some 3%float) "SN1";
   reading_at 4 5 (Some 9%float) "SN2"]%string.

(** The whole seconds of a date's timestamp (0 for one that is not a
    finite number). *)
Definition whole_seconds (d : Datetime) : Z :=
  match FloatOps.Prim2SF (dt_timestamp d) with
  | SpecFloat.S754_finite s m e =>
      let v := Z.shiftl (Z.pos m) e in if s then (- v)%Z else v
  | _ => 0%Z
  end.

(** Dates ordered by their whole seconds. *)
Definition seconds_le (a b : Datetime) : bool :=
  (whole_seconds a <=? whole_seconds b)%Z.

(** The first day of year 1, as [datetime.min]. *)
Definition year_one : Datetime :=
  {| dt_timestamp := (-62135596800)%float; dt_text := "0001-01-01 00:00:00" |}.


(* ===================================================================== *)
(** * Part IV: properties                                               *)
(* ===================================================================== *)

(** ** Outlier detection *)

Section OutlierFacts.
Context `{NumericRuntime}.

Lemma repeat_false_map {A : Type} (l : list A) :
  repeat false (length l) = map (fun _ => false) l.
Proof. induction l as [|x l IH]; simpl; [reflexivity | now rewrite IH]. Qed.

Lemma mask_sum_valid (values : list float) :
  mask_sum (map (fun x => negb (PrimFloat.is_nan x)) values) = length (valid_values values).
Proof.
  unfold mask_sum, valid_values.
  induction values as [|x l IH]; simpl; [reflexivity|].
  destruct (PrimFloat.is_nan x); simpl; now rewrite IH.
Qed.

Lemma length_valid_values (values : list float) :
  (length (valid_values values) <= length values)%nat.
Proof.
  unfold valid_values.
  induction values as [|x l IH]; simpl; [lia|].
  destruct (PrimFloat.is_nan x); simpl; lia.
Qed.

Lemma mask_assign_map {A : Type} (f : A -> bool) (g : A -> bool) (l : list A) :
  mask_assign (map f l) (map negb (map g l)) false = map (fun x => g x && f x) l.
Proof.
  induction l as [|x l IH]; simpl; [reflexivity|].
  rewrite IH. now destruct (g x).
Qed.

(** The early returns and the masked comparison of [detect_outliers]
    amount to one test per value. *)
Lemma detect_outliers_pointwise (values : list float) (n_std : float) :
  detect_outliers values n_std = map (flagged values n_std) values.
Proof.
  unfold detect_outliers.
  pose proof (length_valid_values values) as Hle.
  rewrite mask_sum_valid.
  assert (Hfalse : forall l : list float,
             (forall v, flagged values n_std v = false) ->
             repeat false (length values) = map (flagged values n_std) values).
  { intros _ Hall. rewrite repeat_false_map. apply map_ext. intros v. now rewrite Hall. }
  destruct (length values <? 3)%nat eqn:Hlen.
  { apply (Hfalse values). intros v. unfold flagged.
    apply Nat.ltb_lt in Hlen.
    replace (3 <=? length (valid_values values))%nat with false; [reflexivity|].
    symmetry. apply Nat.leb_gt. lia. }
  destruct (length (valid_values values) <? 3)%nat eqn:Hvalid.
  { apply (Hfalse values). intros v. unfold flagged.
    apply Nat.ltb_lt in Hvalid.
    replace (3 <=? length (valid_values values))%nat with false; [reflexivity|].
    symmetry. apply Nat.leb_gt. lia. }
  fold (valid_values values).
  destruct (PrimFloat.eqb (np_std (valid_values values)) 0) eqn:Hstd.
  { apply (Hfalse values). intros v. unfold flagged. rewrite Hstd.
    now rewrite andb_false_r. }
  rewrite map_map. rewrite mask_assign_map.
  apply map_ext. intros v. unfold flagged, z_score.
  apply Nat.ltb_ge in Hvalid. apply Nat.leb_le in Hvalid.
  rewrite Hvalid, Hstd. reflexivity.
Qed.

Lemma detect_outliers_length (values : list float) (n_std : float) :
  length (detect_outliers values n_std) = length values.
Proof. rewrite detect_outliers_pointwise. apply length_map. Qed.

Lemma detect_outliers_lookup (values : list float) (n_std : float) (i : nat) :
  detect_outliers values n_std !! i = flagged values n_std <$> values !! i.
Proof. rewrite detect_outliers_pointwise. apply list_lookup_fmap. Qed.

End OutlierFacts.

Section OutlierTheorems.
Context `{NumericRuntime}.

(** C1.  [detect_outliers] flags the value at a position exactly when that
    value is not missing, at least three values are not missing, the
    standard deviation of the non-missing values is not zero, and the
    absolute z-score against their mean and standard deviation is strictly
    greater than 3.0.  With fewer than three non-missing values, and with a
    zero standard deviation, every flag is false; a value whose z-score is
    exactly 3.0 is not flagged. *)
Theorem detect_outliers_spec (values : list float) :
  (forall i : nat,
      detect_outliers values 3 !! i = Some true <->
      exists v, values !! i = Some v
                /\ PrimFloat.is_nan v = false
                /\ (3 <= length (valid_values values))%nat
                /\ PrimFloat.eqb (np_std (valid_values values)) 0 = false
                /\ PrimFloat.ltb 3 (z_score values v) = true)
  /\ ((length (valid_values values) < 3)%nat ->
      detect_outliers values 3 = repeat false (length values))
  /\ (PrimFloat.eqb (np_std (valid_values values)) 0 = true ->
      detect_outliers values 3 = repeat false (length values))
  /\ (forall (i : nat) (v : float),
         values !! i = Some v ->
         z_score values v = 3%float ->
         detect_outliers values 3 !! i = Some false).
Proof.
  repeat split.
  - rewrite detect_outliers_lookup. intros Hi.
    destruct (values !! i) as [v|] eqn:Hv; simpl in Hi; [|discriminate].
    exists v. injection Hi as Hi. unfold flagged in Hi.
    apply andb_prop in Hi as [Hi Hz]. apply andb_prop in Hi as [Hi Hnan].
    apply andb_prop in Hi as [Hn Hstd].
    apply Nat.leb_le in Hn. apply negb_true_iff in Hstd, Hnan.
    repeat split; assumption.
  - intros (v & Hv & Hnan & Hn & Hstd & Hz).
    rewrite detect_outliers_lookup, Hv. simpl. f_equal.
    unfold flagged. apply Nat.leb_le in Hn. now rewrite Hn, Hstd, Hnan, Hz.
  - intros Hlt. rewrite detect_outliers_pointwise, repeat_false_map.
    apply map_ext. intros v. unfold flagged.
    replace (3 <=? length (valid_values values))%nat with false; [reflexivity|].
    symmetry. apply Nat.leb_gt. exact Hlt.
  - intros Hstd. rewrite detect_outliers_pointwise, repeat_false_map.
    apply map_ext. intros v. unfold flagged. rewrite Hstd.
    now rewrite andb_false_r.
  - intros i v Hv Hz. rewrite detect_outliers_lookup, Hv. simpl. f_equal.
    unfold flagged. rewrite Hz.
    change (PrimFloat.ltb 3 3) with false. now rewrite andb_false_r.
Qed.

(** C10.  [detect_outliers] returns one flag per input value, and the flag
    at every position that holds a missing (NaN) value is false. *)
Theorem detect_outliers_shape (values : list float) (n_std : float) :
  length (detect_outliers values n_std) = length values
  /\ (forall (i : nat) (v : float),
         values !! i = Some v ->
         PrimFloat.is_nan v = true ->
         detect_outliers values n_std !! i = Some false).
Proof.
  split; [apply detect_outliers_length|].
  intros i v Hv Hnan. rewrite detect_outliers_lookup, Hv. simpl. f_equal.
  unfold flagged. rewrite Hnan. simpl. now rewrite andb_false_r.
Qed.

End OutlierTheorems.

Lemma detect_outliers_spec_witness :
  @detect_outliers sequential_runtime nine_and_one 3 !! 9%nat = Some false.
Proof.
  apply (proj2 (proj2 (proj2 (@detect_outliers_spec sequential_runtime nine_and_one)))
           9%nat 10%float).
  - reflexivity.
  - vm_compute. reflexivity.
Defined.

Lemma detect_outliers_shape_witness :
  @detect_outliers sequential_runtime with_missing 3 !! 1%nat = Some false.
Proof.
  apply (proj2 (@detect_outliers_shape sequential_runtime with_missing 3) 1%nat nan);
    reflexivity.
Defined.

Example detect_outliers_far_value :
  @detect_outliers sequential_runtime with_missing 3
  = [false; false; false; false; false; false; false; false; false; false; false; false; true].
Proof. vm_compute. reflexivity. Qed.

Example detect_outliers_two_valid :
  @detect_outliers sequential_runtime [1; nan; 1000; nan]%float 3 = [false; false; false; false].
Proof. vm_compute. reflexivity. Qed.

(** ** Configuration validation *)

Lemma check_comparison_raises (c : GraphConfig) (e : PyExc) :
  check_comparison c = Raise e -> post_init c = Raise e.
Proof. intros Hc. unfold post_init. now rewrite Hc. Qed.

Lemma post_init_keeps_axes (c c' : GraphConfig) :
  post_init c = Ok c' -> check_comparison c = Ok c'.
Proof.
  unfold post_init. destruct (check_comparison c) as [c1|e]; simpl; [|discriminate].
  repeat match goal with
         | |- context [if ?b then _ else _] => destruct b
         end; intros Heq; try discriminate; congruence.
Qed.

(** C8.  Validation at construction.  In different-measurements mode a
    configuration with no y-axis measurement ([None] or empty) is rejected
    with a [ValueError].  In same-measurement mode a supplied y-axis
    measurement that differs from the x-axis measurement is rejected with
    a [ValueError], and when construction succeeds the y-axis measurement
    equals the x-axis measurement, which is the one the caller gave. *)
Theorem post_init_comparison_axes (c : GraphConfig) :
  (comparison_mode c = DIFFERENT_MEASUREMENTS ->
   opt_truthy (y_axis_measurement c) = false ->
   exists msg, post_init c = Raise (ValueError msg))
  /\ (comparison_mode c = SAME_MEASUREMENT ->
      opt_truthy (y_axis_measurement c) = true ->
      y_axis_measurement c <> x_axis_measurement c ->
      exists msg, post_init c = Raise (ValueError msg))
  /\ (forall c' : GraphConfig,
         comparison_mode c = SAME_MEASUREMENT ->
         post_init c = Ok c' ->
         y_axis_measurement c' = x_axis_measurement c'
         /\ x_axis_measurement c' = x_axis_measurement c
         /\ c' = set_y_axis_measurement (x_axis_measurement c) c).
Proof.
  split; [|split].
  - intros Hmode Hy.
    destruct (opt_truthy (x_axis_measurement c)) eqn:Hx;
      eexists; apply check_comparison_raises; unfold check_comparison;
      rewrite Hmode, Hx, ?Hy; reflexivity.
  - intros Hmode Hy Hne.
    destruct (opt_truthy (x_axis_measurement c)) eqn:Hx;
      eexists; apply check_comparison_raises; unfold check_comparison;
      rewrite Hmode, Hx, ?Hy; simpl; [|reflexivity].
    unfold opt_str_neq. rewrite bool_decide_eq_false_2 by exact Hne. reflexivity.
  - intros c' Hmode Hok.
    apply post_init_keeps_axes in Hok. revert Hok.
    unfold check_comparison. rewrite Hmode. simpl.
    destruct (negb _); [discriminate|].
    destruct (_ && _); [discriminate|].
    intros Heq. injection Heq as <-. repeat split.
Qed.

Lemma post_init_comparison_axes_witness :
  (exists msg,
      post_init (with_comparison DIFFERENT_MEASUREMENTS (Some "Gain"%string) None
                   (default_config [])) = Raise (ValueError msg))
  /\ (exists msg,
         post_init (with_comparison SAME_MEASUREMENT (Some "Gain"%string)
                      (Some "Offset"%string) (default_config [])) = Raise (ValueError msg))
  /\ y_axis_measurement
       (set_y_axis_measurement (Some "Gain"%string)
          (with_comparison SAME_MEASUREMENT (Some "Gain"%string) None (default_config [])))
     = Some "Gain"%string.
Proof.
  split; [|split].
  - apply (proj1 (post_init_comparison_axes
                    (with_comparison DIFFERENT_MEASUREMENTS (Some "Gain"%string) None
                       (default_config [])))); reflexivity.
  - apply (proj1 (proj2 (post_init_comparison_axes
                    (with_comparison SAME_MEASUREMENT (Some "Gain"%string)
                       (Some "Offset"%string) (default_config []))))).
    + reflexivity.
    + reflexivity.
    + discriminate.
  - pose proof (proj2 (proj2 (post_init_comparison_axes
                    (with_comparison SAME_MEASUREMENT (Some "Gain"%string) None
                       (default_config []))))
                  (set_y_axis_measurement (Some "Gain"%string)
                     (with_comparison SAME_MEASUREMENT (Some "Gain"%string) None
                        (default_config [])))
                  eq_refl eq_refl) as [Hy _].
    exact Hy.
Defined.

Example post_init_same_measurement_fills_y :
  y_axis_measurement <$>
    (match post_init (with_comparison SAME_MEASUREMENT (Some "Gain"%string) None
                        (default_config [])) with
     | Ok c => Some c
     | Raise _ => None
     end)
  = Some (Some "Gain"%string).
Proof. vm_compute. reflexivity. Qed.

(** An empty text counts as no y-axis measurement: it is replaced, not
    rejected. *)
Example post_init_same_measurement_empty_y :
  is_ok (post_init (with_comparison SAME_MEASUREMENT (Some "Gain"%string)
                      (Some EmptyString) (default_config []))) = true.
Proof. vm_compute. reflexivity. Qed.

(** ** Insertion-ordered dictionaries: lookup, keys and order *)

Section PyDictFacts.
Context {K V : Type} `{EqDecision K}.
Implicit Types (d : list (K * V)) (k : K) (v : V).

Lemma pydict_get_nil k : pydict_get k ([] : list (K * V)) = None.
Proof. reflexivity. Qed.

Lemma pydict_get_cons k k' v d :
  pydict_get k ((k', v) :: d) = if bool_decide (k' = k) then Some v else pydict_get k d.
Proof. unfold pydict_get. simpl. now destruct (bool_decide (k' = k)). Qed.

Lemma pydict_get_None k d : pydict_get k d = None <-> k ∉ pydict_keys d.
Proof.
  induction d as [|[k' v'] d IH].
  - split; [intros _; apply not_elem_of_nil | reflexivity].
  - rewrite pydict_get_cons. unfold pydict_keys in *. simpl.
    rewrite not_elem_of_cons. case_bool_decide as Hk.
    + split; [discriminate | intros [Hne _]; congruence].
    + rewrite IH. split; [intros Hn; split; [congruence | exact Hn] | intros [_ Hn]; exact Hn].
Qed.

Lemma pydict_get_Some_elem k v d : pydict_get k d = Some v -> (k, v) ∈ d.
Proof.
  induction d as [|[k' v'] d IH]; [discriminate|].
  rewrite pydict_get_cons. case_bool_decide as Hk.
  - intros [= <-]. subst. apply list_elem_of_here.
  - intros Hg. apply list_elem_of_further. now apply IH.
Qed.

Lemma pydict_set_fresh k v d :
  k ∉ pydict_keys d -> pydict_set k v d = d ++ [(k, v)].
Proof.
  induction d as [|[k' v'] d IH]; [reflexivity|].
  unfold pydict_keys. simpl. rewrite not_elem_of_cons. intros [Hne Hn].
  rewrite bool_decide_eq_false_2 by congruence. now rewrite IH.
Qed.

Lemma pydict_keys_set_present k v d :
  k ∈ pydict_keys d -> pydict_keys (pydict_set k v d) = pydict_keys d.
Proof.
  induction d as [|[k' v'] d IH]; [intros Hk; now apply elem_of_nil in Hk|].
  unfold pydict_keys in *. simpl. case_bool_decide as Hk; simpl.
  - intros _. now subst.
  - rewrite elem_of_cons. intros [Heq|Hin]; [congruence|]. now rewrite IH.
Qed.

Lemma pydict_keys_set k v d :
  pydict_keys (pydict_set k v d)
  = if bool_decide (k ∈ pydict_keys d) then pydict_keys d else pydict_keys d ++ [k].
Proof.
  case_bool_decide as Hk.
  - now apply pydict_keys_set_present.
  - rewrite pydict_set_fresh by exact Hk. unfold pydict_keys. now rewrite map_app.
Qed.

Lemma pydict_get_set k k' v d :
  pydict_get k' (pydict_set k v d) = if bool_decide (k = k') then Some v else pydict_get k' d.
Proof.
  induction d as [|[k0 v0] d IH]; simpl.
  - rewrite pydict_get_cons. now destruct (bool_decide (k = k')).
  - destruct (decide (k0 = k)) as [->|Hk0].
    + rewrite bool_decide_eq_true_2 by reflexivity. rewrite !pydict_get_cons.
      now destruct (bool_decide (k = k')).
    + rewrite bool_decide_eq_false_2 by exact Hk0. rewrite !pydict_get_cons, IH.
      destruct (decide (k0 = k')) as [->|Hk'].
      * rewrite bool_decide_eq_true_2 by reflexivity.
        now rewrite bool_decide_eq_false_2 by congruence.
      * now rewrite (bool_decide_eq_false_2 (k0 = k')) by exact Hk'.
Qed.

Lemma pydict_keys_NoDup_set k v d :
  NoDup (pydict_keys d) -> NoDup (pydict_keys (pydict_set k v d)).
Proof.
  intros Hnd. rewrite pydict_keys_set. case_bool_decide as Hk; [exact Hnd|].
  apply NoDup_app. repeat split; [exact Hnd | | apply NoDup_singleton].
  intros x Hx Hx'. apply list_elem_of_singleton in Hx'. now subst.
Qed.

End PyDictFacts.

Section PyDictAppend.
Context {K A : Type} `{EqDecision K}.
Implicit Types (d : list (K * list A)) (k : K).

Lemma pydict_keys_append k (x : A) d :
  pydict_keys (pydict_append k x d)
  = if bool_decide (k ∈ pydict_keys d) then pydict_keys d else pydict_keys d ++ [k].
Proof. unfold pydict_append. destruct (pydict_get k d); apply pydict_keys_set. Qed.

Lemma pydict_get_append k k' (x : A) d :
  default [] (pydict_get k' (pydict_append k x d))
  = if bool_decide (k = k') then default [] (pydict_get k' d) ++ [x]
    else default [] (pydict_get k' d).
Proof.
  unfold pydict_append.
  destruct (pydict_get k d) as [l|] eqn:Hg; rewrite pydict_get_set;
    case_bool_decide as Hk; try reflexivity; subst; now rewrite Hg.
Qed.

Lemma pydict_keys_NoDup_append k (x : A) d :
  NoDup (pydict_keys d) -> NoDup (pydict_keys (pydict_append k x d)).
Proof. unfold pydict_append. destruct (pydict_get k d); apply pydict_keys_NoDup_set. Qed.

End PyDictAppend.

(** ** Data preparation: the empty list, and the global index *)

Section PreparationFacts.
Context `{NumericRuntime}.
Variable config : GraphConfig.

Lemma get_grouped_data_NoDup (ms : list Measurement) (field : string) :
  NoDup (pydict_keys (get_grouped_data ms field)).
Proof.
  unfold get_grouped_data.
  generalize (default field (pydict_get field field_mapping)). intros path.
  assert (Hgen : forall acc : list (string * list Measurement),
             NoDup (pydict_keys acc) ->
             NoDup (pydict_keys
                      (fold_left (fun groups m => pydict_append (group_key path m) m groups)
                                 ms acc))).
  { induction ms as [|m ms IH]; intros acc Hacc; simpl; [exact Hacc|].
    apply IH. now apply pydict_keys_NoDup_append. }
  apply Hgen. apply NoDup_nil_2.
Qed.

Lemma groups_of_NoDup (ms : list Measurement) :
  NoDup (pydict_keys (groups_of config ms)).
Proof.
  unfold groups_of.
  destruct (bool_decide _); [apply NoDup_singleton|].
  destruct (opt_truthy _); [apply get_grouped_data_NoDup | apply NoDup_singleton].
Qed.

Lemma index_run_S (s : Z) (k : nat) :
  index_run s (S k) = XInt s :: index_run (s + 1) k.
Proof.
  unfold index_run. simpl. rewrite Z.add_0_r. f_equal.
  rewrite <- seq_shift, map_map. apply map_ext. intros i. f_equal. lia.
Qed.

Lemma index_run_length (s : Z) (k : nat) : length (index_run s k) = k.
Proof. unfold index_run. now rewrite length_map, length_seq. Qed.

Lemma index_run_lookup (s : Z) (k i : nat) :
  (i < k)%nat -> index_run s k !! i = Some (XInt (s + Z.of_nat i)).
Proof.
  intros Hi. unfold index_run. rewrite list_lookup_fmap.
  rewrite lookup_seq_lt by exact Hi. reflexivity.
Qed.

Lemma standard_loop_indexed (ms : list Measurement) :
  x_axis_use_indices config = true -> graph_type config = SCATTER ->
  forall (idx : nat) (st st' : StandardLoop),
    standard_loop config idx ms st = Ok st' ->
    sl_x_data st' = sl_x_data st ++ index_run (sl_current_x st) (length (points_of ms))
    /\ length (sl_y_data st') = (length (sl_y_data st) + length (points_of ms))%nat.
Proof.
  intros Huse Hscatter.
  induction ms as [|m ms IH]; intros idx st st' Hrun; simpl in Hrun.
  - injection Hrun as <-. simpl. split; [now rewrite app_nil_r | lia].
  - unfold points_of, is_point in *. simpl.
    destruct (has_plot m && plot_data_truthy m) eqn:Hplot; simpl.
    + now apply IH in Hrun.
    + destruct (_get_x_value config m) as [xv|e]; simpl in Hrun; [|discriminate].
      apply IH in Hrun as [Hx Hy]. simpl in Hx, Hy.
      rewrite Huse, Hscatter in Hx. rewrite bool_decide_eq_true_2 in Hx by reflexivity.
      simpl in Hx. rewrite Hx, index_run_S, <- app_assoc. simpl.
      split; [reflexivity|]. rewrite Hy, length_app. simpl. lia.
Qed.

Lemma standard_loop_total (ms : list Measurement) :
  Forall (fun m => is_ok (_get_x_value config m) = true) ms ->
  forall (idx : nat) (st : StandardLoop), is_ok (standard_loop config idx ms st) = true.
Proof.
  induction 1 as [|m ms Hm _ IH]; intros idx st; simpl; [reflexivity|].
  destruct (has_plot m && plot_data_truthy m); [apply IH|].
  destruct (_get_x_value config m) as [xv|e]; simpl; [apply IH | discriminate Hm].
Qed.

Lemma extract_standard_indexed (ms : list Measurement) (start : Z) (ex : Extracted) :
  x_axis_use_indices config = true -> graph_type config = SCATTER ->
  _extract_standard_data config ms start = Ok ex ->
  ex_x_data ex = index_run start (length (points_of ms)).
Proof.
  intros Huse Hscatter. unfold _extract_standard_data.
  destruct (standard_loop config 0 ms _) as [st|e] eqn:Hloop; simpl; [|discriminate].
  intros [= <-]. simpl.
  now apply (standard_loop_indexed ms Huse Hscatter) in Hloop as [-> _].
Qed.

Lemma prepare_group_indexed (ms : list Measurement) (start : Z) (gd : GroupData) :
  index_scatter config ->
  _prepare_group_data config ms start = Ok gd ->
  x_data gd = index_run start (length (points_of ms)).
Proof.
  intros (Hmode & Huse & Hscatter). unfold _prepare_group_data. rewrite Hmode.
  destruct (_extract_standard_data config ms start) as [ex|e] eqn:Hex; simpl; [|discriminate].
  intros [= <-]. simpl. now apply extract_standard_indexed.
Qed.

Lemma prepare_group_total (ms : list Measurement) (start : Z) :
  comparison_mode config = NONE ->
  Forall (fun m => is_ok (_get_x_value config m) = true) ms ->
  is_ok (_prepare_group_data config ms start) = true.
Proof.
  intros Hmode Hall. unfold _prepare_group_data, _extract_standard_data. rewrite Hmode.
  pose proof (standard_loop_total ms Hall 0
                {| sl_current_x := start; sl_x_data := []; sl_y_data := [];
                   sl_x_labels := []; sl_measurement_indices := [] |}) as Hok.
  destruct (standard_loop config 0 ms _); [reflexivity | discriminate Hok].
Qed.

End PreparationFacts.

Section PyDictElements.
Context {K V : Type} `{EqDecision K}.

Lemma pydict_set_elem (k k' : K) (v v' : V) (d : list (K * V)) :
  (k', v') ∈ pydict_set k v d -> (k', v') = (k, v) \/ (k', v') ∈ d.
Proof.
  induction d as [|[k0 v0] d IH]; simpl.
  - rewrite list_elem_of_singleton. now left.
  - destruct (bool_decide (k0 = k)); rewrite !elem_of_cons.
    + intros [Heq|Hin]; [now left | right; now right].
    + intros [Heq|Hin]; [right; now left|].
      apply IH in Hin as [Heq|Hin]; [now left | right; now right].
Qed.

End PyDictElements.

Lemma pydict_append_Forall {K A : Type} `{EqDecision K} (P : A -> Prop)
    (k : K) (x : A) (d : list (K * list A)) :
  P x ->
  Forall (fun kv => Forall P (snd kv)) d ->
  Forall (fun kv => Forall P (snd kv)) (pydict_append k x d).
Proof.
  intros Hx Hd. rewrite Forall_forall. intros [k' l'] Hin.
  rewrite Forall_forall in Hd. unfold pydict_append in Hin.
  destruct (pydict_get k d) as [l|] eqn:Hg;
    apply pydict_set_elem in Hin as [Heq|Hin]; try (now apply Hd).
  - injection Heq as -> ->. simpl. apply Forall_app. split.
    + apply pydict_get_Some_elem in Hg. now apply (Hd _ Hg).
    + now apply Forall_singleton.
  - injection Heq as -> ->. simpl. now apply Forall_singleton.
Qed.

Section IndexLayout.
Context `{NumericRuntime}.
Variable config : GraphConfig.

Lemma index_layout_gap (start : Z) (sizes : list nat) :
  gap_layout start (List.filter has_points (index_layout start sizes)).
Proof.
  revert start. induction sizes as [|k sizes IH]; intros start; simpl; [exact I|].
  destruct k as [|k].
  - simpl. apply IH.
  - rewrite index_run_S. simpl. rewrite index_run_length. split.
    + now rewrite index_run_S.
    + replace (start + Z.pos (Pos.of_succ_nat k) + 1)%Z
        with (start + Z.of_nat (S k) + 1)%Z by lia.
      apply IH.
Qed.

Lemma group_loop_layout (gs : list (string * list Measurement)) :
  index_scatter config ->
  forall st st' : GroupLoop,
    group_loop config gs st = Ok st' ->
    NoDup (pydict_keys gs) ->
    (forall k, k ∈ pydict_keys gs -> k ∉ pydict_keys (gl_prepared_groups st)) ->
    exists datas : list (string * GroupData),
      gl_prepared_groups st' = gl_prepared_groups st ++ datas
      /\ pydict_keys datas = pydict_keys gs
      /\ map (fun g => x_data (snd g)) datas
         = index_layout (gl_global_x_index st)
             (map (fun g => length (points_of (snd g))) gs).
Proof.
  intros Hidx.
  induction gs as [|[gname gms] gs IH]; intros st st' Hrun Hnd Hfresh; simpl in Hrun.
  - injection Hrun as <-. exists []. now rewrite app_nil_r.
  - destruct (_prepare_group_data config gms (gl_global_x_index st)) as [gd|e] eqn:Hgd;
      simpl in Hrun; [|discriminate].
    pose proof (prepare_group_indexed config gms _ gd Hidx Hgd) as Hx.
    unfold pydict_keys in Hnd. simpl in Hnd. apply NoDup_cons in Hnd as [Hgname Hnd].
    assert (Hnew : gname ∉ pydict_keys (gl_prepared_groups st)).
    { apply Hfresh. unfold pydict_keys. simpl. apply elem_of_cons. now left. }
    apply IH in Hrun; [| exact Hnd |].
    + destruct Hrun as (datas & Hgroups & Hkeys & Hxs). simpl in Hgroups, Hxs.
      exists ((gname, gd) :: datas). repeat split.
      * rewrite Hgroups, pydict_set_fresh by exact Hnew. now rewrite <- app_assoc.
      * unfold pydict_keys in *. simpl. now rewrite Hkeys.
      * simpl. rewrite Hx at 1. f_equal. rewrite Hxs, Hx, index_run_length.
        reflexivity.
    + intros k Hk. simpl. rewrite pydict_keys_set.
      rewrite bool_decide_eq_false_2 by exact Hnew.
      rewrite elem_of_app, list_elem_of_singleton. intros [Hin|Heq].
      * revert Hin. apply Hfresh. unfold pydict_keys. simpl. apply elem_of_cons. now right.
      * subst k. now apply Hgname.
Qed.

Lemma group_loop_total (gs : list (string * list Measurement)) :
  comparison_mode config = NONE ->
  Forall (fun g => Forall (fun m => is_ok (_get_x_value config m) = true) (snd g)) gs ->
  forall st : GroupLoop, is_ok (group_loop config gs st) = true.
Proof.
  intros Hmode. induction 1 as [|[gname gms] gs Hg _ IH]; intros st; simpl; [reflexivity|].
  pose proof (prepare_group_total config gms (gl_global_x_index st) Hmode Hg) as Hok.
  destruct (_prepare_group_data config gms (gl_global_x_index st)); [|discriminate Hok].
  simpl. apply IH.
Qed.

Lemma get_grouped_data_Forall (P : Measurement -> Prop) (ms : list Measurement)
    (field : string) :
  Forall P ms ->
  Forall (fun g => Forall P (snd g)) (get_grouped_data ms field).
Proof.
  unfold get_grouped_data.
  generalize (default field (pydict_get field field_mapping)). intros path Hms.
  assert (Hgen : forall acc : list (string * list Measurement),
             Forall (fun g => Forall P (snd g)) acc ->
             Forall (fun g => Forall P (snd g))
                    (fold_left (fun groups m => pydict_append (group_key path m) m groups)
                               ms acc)).
  { induction Hms as [|m ms Hm _ IH]; intros acc Hacc; simpl; [exact Hacc|].
    apply IH. now apply pydict_append_Forall. }
  apply Hgen. apply Forall_nil_2.
Qed.

Lemma groups_of_Forall (P : Measurement -> Prop) (ms : list Measurement) :
  Forall P ms -> Forall (fun g => Forall P (snd g)) (groups_of config ms).
Proof.
  intros Hms. unfold groups_of.
  destruct (bool_decide _); [now apply Forall_singleton|].
  destruct (opt_truthy _); [now apply get_grouped_data_Forall | now apply Forall_singleton].
Qed.

(** C2.  Index-based scatter extraction (standard mode, integer x axis,
    scatter plot).  Preparation succeeds whenever the x-axis field of every
    measurement resolves to a number; and when it succeeds, the groups that
    have points hold runs of consecutive integers, the first starting at 0
    and each next one starting two past the last index of the one before:
    exactly one free slot between consecutive non-empty groups.  Each
    group holds one point per non-plot measurement. *)
Theorem index_scatter_gap :
  index_scatter config ->
  (measurements config <> [] ->
   Forall (fun m => is_ok (_get_x_value config m) = true) (measurements config) ->
   is_ok (build_prepared_data config) = true)
  /\ (forall data : PreparedData,
         build_prepared_data config = Ok data ->
         gap_layout 0 (nonempty_runs (groups data))
         /\ pydict_keys (groups data) = pydict_keys (groups_of config (measurements config))
         /\ map (fun g => length (x_data (snd g))) (groups data)
            = map (fun g => length (points_of (snd g)))
                  (groups_of config (measurements config))).
Proof.
  intros Hidx. split.
  - intros Hne Hall. unfold build_prepared_data.
    destruct (measurements config) as [|m ms] eqn:Hms; [congruence|].
    pose proof (group_loop_total (groups_of config (m :: ms)) (proj1 Hidx)
                  (groups_of_Forall _ _ Hall)
                  {| gl_prepared_groups := []; gl_has_plots := false;
                     gl_total_points := 0; gl_global_x_index := 0 |}) as Hok.
    destruct (group_loop config _ _); [reflexivity | discriminate Hok].
  - intros data. unfold build_prepared_data.
    destruct (measurements config) as [|m ms] eqn:Hms; [discriminate|].
    destruct (group_loop config _ _) as [st|e] eqn:Hloop; simpl; [|discriminate].
    intros [= <-]. simpl.
    apply (group_loop_layout _ Hidx) in Hloop as (datas & Hgroups & Hkeys & Hxs).
    + simpl in Hgroups, Hxs. rewrite Hgroups. repeat split.
      * unfold nonempty_runs. rewrite Hxs. apply index_layout_gap.
      * exact Hkeys.
      * rewrite <- (map_map (fun g => x_data (snd g)) (@length XVal)), Hxs.
        generalize 0%Z. generalize (groups_of config (m :: ms)).
        intros l. induction l as [|g l IHl]; intros z; simpl; [reflexivity|].
        now rewrite index_run_length, IHl.
    + apply groups_of_NoDup.
    + intros k _. apply not_elem_of_nil.
Qed.

End IndexLayout.

(** ** The index layout on the sample *)

(** Groups of 3 and 4 points get the indices 0..2 and 4..7. *)
Example three_and_four_indices :
  x_data_of (@build_prepared_data sequential_runtime
               (grouped_config three_and_four "test_fixture"))
  = [("A"%string, [XInt 0; XInt 1; XInt 2]);
     ("B"%string, [XInt 4; XInt 5; XInt 6; XInt 7])].
Proof. vm_compute. reflexivity. Qed.

Lemma index_scatter_gap_witness :
  is_ok (@build_prepared_data sequential_runtime
           (grouped_config three_and_four "test_fixture")) = true
  /\ forall data,
       @build_prepared_data sequential_runtime
         (grouped_config three_and_four "test_fixture") = Ok data ->
       gap_layout 0 (nonempty_runs (groups data)).
Proof.
  assert (Hidx : index_scatter (grouped_config three_and_four "test_fixture")).
  { repeat split. }
  split.
  - apply (proj1 (@index_scatter_gap sequential_runtime _ Hidx)).
    + discriminate.
    + repeat constructor.
  - intros data Hdata.
    exact (proj1 (proj2 (@index_scatter_gap sequential_runtime _ Hidx) data Hdata)).
Defined.

(** ** The empty measurement list *)

(** C5, as stated, fails: on an empty measurement list [prepare_data]
    raises instead of returning an empty result. *)
Lemma prepare_data_empty_counterexample :
  measurements (gen_config (new_generator (default_config []))) = []
  /\ is_ok (fst (@prepare_data sequential_runtime (new_generator (default_config []))))
     = false.
Proof. split; reflexivity. Qed.

(** C5, amended.  On an empty measurement list [prepare_data] raises
    [ValueError("No measurements provided")] and leaves the generator as
    it was: no prepared data, no snapshot. *)
Theorem prepare_data_empty_raises `{NumericRuntime} (g : Generator) :
  measurements (gen_config g) = [] ->
  prepare_data g = (Raise (ValueError "No measurements provided"), g).
Proof.
  intros Hempty. unfold prepare_data, build_prepared_data. now rewrite Hempty.
Qed.

Lemma prepare_data_empty_raises_witness :
  @prepare_data sequential_runtime (new_generator (default_config []))
  = (Raise (ValueError "No measurements provided"), new_generator (default_config [])).
Proof.
  apply (@prepare_data_empty_raises sequential_runtime (new_generator (default_config []))).
  reflexivity.
Defined.

(** ** Deletion and undo *)

Section Interaction.
Context `{Rendering}.

Lemma clear_selection_data (g : Generator) :
  prepared_data (_clear_selection g) = prepared_data g
  /\ original_data (_clear_selection g) = original_data g
  /\ deleted_items (_clear_selection g) = deleted_items g
  /\ point_measurement_map (_clear_selection g) = point_measurement_map g.
Proof. repeat split. Qed.







End Interaction.

(** ** The sample session *)

Example sample_drawn_points :
  points_shown sample_drawn 1 = Some [0; 1; 2]%float
  /\ points_shown sample_drawn 2 = Some [4; 5; 6; 7]%float.
Proof. split; vm_compute; reflexivity. Qed.

Example sample_deletions_take_effect :
  points_shown (@run sample_rendering sample_drawn sample_actions) 1 = Some [0; 1]%float
  /\ points_shown (@run sample_rendering sample_drawn sample_actions) 2
     = Some [5; 6; 7]%float
  /\ size (deleted_items (@run sample_rendering sample_drawn sample_actions)) = 3%nat.
Proof. split; [|split]; vm_compute; reflexivity. Qed.


(** ** Deletion: the point map, the point arrays, the bounds *)

Lemma reindexed_insert_other (m : gmap (Z * Z) Measurement) (item p k j sid sidx : Z)
    (x : Measurement) :
  (sid = item -> (if (j <? p)%Z then j else (j + 1)%Z) <> sidx \/ k <> item) ->
  (sid <> item -> (k, j) <> (sid, sidx)) ->
  reindexed (<[(sid, sidx) := x]> m) item p k j = reindexed m item p k j.
Proof.
  intros Hsame Hother. unfold reindexed.
  destruct (decide (k = item)) as [->|Hk].
  - rewrite bool_decide_eq_true_2 by reflexivity.
    destruct (decide (sid = item)) as [->|Hsid].
    + destruct (Hsame eq_refl) as [Hne|Hne]; [|congruence].
      destruct (j <? p)%Z; rewrite lookup_insert_ne; congruence.
    + destruct (j <? p)%Z; rewrite lookup_insert_ne; congruence.
  - rewrite bool_decide_eq_false_2 by exact Hk.
    destruct (decide (sid = item)) as [->|Hsid].
    + rewrite lookup_insert_ne; congruence.
    + rewrite lookup_insert_ne; [reflexivity|]. intros Heq. now apply (Hother Hsid).
Qed.

Lemma reindex_map_lookup (item p : Z) (m : gmap (Z * Z) Measurement) (k j : Z) :
  reindex_map item p m !! (k, j) = reindexed m item p k j.
Proof.
  unfold reindex_map. revert k j.
  apply (map_fold_weak_ind
           (fun (r m : gmap (Z * Z) Measurement) =>
              forall k j, r !! (k, j) = reindexed m item p k j)).
  - intros k j. unfold reindexed. rewrite !lookup_empty.
    destruct (bool_decide _), (j <? p)%Z; reflexivity.
  - intros [sid sidx] x m0 r Hfresh IH k j.
    destruct (decide (sid = item)) as [->|Hsid].
    + rewrite bool_decide_eq_true_2 by reflexivity.
      destruct (sidx <? p)%Z eqn:Hlt; [|destruct (sidx >? p)%Z eqn:Hgt].
      * apply Z.ltb_lt in Hlt.
        destruct (decide ((k, j) = (item, sidx))) as [[= -> ->]|Hne].
        -- rewrite lookup_insert_eq. unfold reindexed.
           rewrite bool_decide_eq_true_2 by reflexivity.
           apply Z.ltb_lt in Hlt. rewrite Hlt. now rewrite lookup_insert_eq.
        -- rewrite lookup_insert_ne by congruence. rewrite IH. symmetry.
           apply reindexed_insert_other; [|congruence].
           intros _. destruct (decide (k = item)) as [->|]; [left | now right].
           destruct (j <? p)%Z eqn:Hj; [congruence|].
           apply Z.ltb_ge in Hj. lia.
      * apply Z.ltb_ge in Hlt. apply Z.gtb_lt in Hgt.
        destruct (decide ((k, j) = (item, (sidx - 1)%Z))) as [[= -> ->]|Hne].
        -- rewrite lookup_insert_eq. unfold reindexed.
           rewrite bool_decide_eq_true_2 by reflexivity.
           replace (sidx - 1 <? p)%Z with false by (symmetry; apply Z.ltb_ge; lia).
           replace (sidx - 1 + 1)%Z with sidx by lia. now rewrite lookup_insert_eq.
        -- rewrite lookup_insert_ne by congruence. rewrite IH. symmetry.
           apply reindexed_insert_other; [|congruence].
           intros _. destruct (decide (k = item)) as [->|]; [left | now right].
           destruct (j <? p)%Z eqn:Hj.
           ++ apply Z.ltb_lt in Hj. lia.
           ++ intros Heq. apply Hne. f_equal. lia.
      * apply Z.ltb_ge in Hlt.
        assert (sidx = p) as -> by (pose proof (Zgt_cases sidx p) as Hc; rewrite Hgt in Hc; lia).
        rewrite IH. symmetry.
        apply reindexed_insert_other; [|congruence].
        intros _. destruct (decide (k = item)) as [->|]; [left | now right].
        destruct (j <? p)%Z eqn:Hj.
        -- apply Z.ltb_lt in Hj. lia.
        -- apply Z.ltb_ge in Hj. lia.
    + rewrite bool_decide_eq_false_2 by exact Hsid.
      destruct (decide ((k, j) = (sid, sidx))) as [[= -> ->]|Hne].
      * rewrite lookup_insert_eq. unfold reindexed.
        rewrite bool_decide_eq_false_2 by exact Hsid. now rewrite lookup_insert_eq.
      * rewrite lookup_insert_ne by congruence. rewrite IH. symmetry.
        apply reindexed_insert_other; [congruence | intros _; exact Hne].
Qed.

(** Masking out one position is deleting the element there. *)
Lemma boolean_index_all {A : Type} (l : list A) :
  boolean_index l (replicate (length l) true) = l.
Proof. induction l as [|x l IH]; simpl; [reflexivity | now rewrite IH]. Qed.

Lemma boolean_index_delete {A : Type} (l : list A) (i : nat) :
  boolean_index l (<[i := false]> (replicate (length l) true)) = delete i l.
Proof.
  revert i. induction l as [|x l IH]; intros i; simpl; [reflexivity|].
  destruct i as [|i]; simpl.
  - apply boolean_index_all.
  - now rewrite IH.
Qed.

Lemma deletion_mask_length (n : nat) (p : Z) (mask : list bool) :
  deletion_mask n p = Ok mask -> length mask = n.
Proof.
  unfold deletion_mask.
  destruct (_ && _); [|destruct (_ && _); [|discriminate]];
    intros [= <-]; now rewrite length_insert, length_replicate.
Qed.

Lemma deletion_mask_valid (n : nat) (p : Z) :
  (0 <= p < Z.of_nat n)%Z ->
  deletion_mask n p = Ok (<[Z.to_nat p := false]> (replicate n true)).
Proof.
  intros [Hlo Hhi]. unfold deletion_mask.
  apply Z.leb_le in Hlo. apply Z.ltb_lt in Hhi. now rewrite Hlo, Hhi.
Qed.

Lemma deletion_mask_out_of_range (n : nat) (p : Z) :
  (p < - Z.of_nat n \/ Z.of_nat n <= p)%Z ->
  deletion_mask n p = Raise IndexError.
Proof.
  intros Hout. unfold deletion_mask.
  replace ((0 <=? p)%Z && (p <? Z.of_nat n)%Z) with false.
  - replace ((- Z.of_nat n <=? p)%Z && (p <? 0)%Z) with false; [reflexivity|].
    symmetry. apply andb_false_iff. rewrite Z.leb_gt, Z.ltb_ge. lia.
  - symmetry. apply andb_false_iff. rewrite Z.leb_gt, Z.ltb_ge. lia.
Qed.

Lemma clear_selection_points (g : Generator) (k : Z) (it : PlotItem) :
  plot_items g !! k = Some it ->
  exists it' : PlotItem,
    plot_items (_clear_selection g) !! k = Some it'
    /\ item_x it' = item_x it /\ item_y it' = item_y it.
Proof.
  intros Hk. unfold _clear_selection. simpl.
  destruct (selected_item g) as [sid|]; [|now exists it].
  destruct (plot_items g !! sid) as [sel|] eqn:Hsel; [|now exists it].
  destruct (item_class sel); try now exists it.
  destruct (original_sizes sel) as [os|]; [|now exists it].
  destruct (decide (sid = k)) as [->|Hne].
  - rewrite lookup_insert_eq. exists (item_set_size os sel).
    rewrite Hk in Hsel. injection Hsel as <-. repeat split.
  - rewrite lookup_insert_ne by exact Hne. now exists it.
Qed.

Lemma delete_from_item_valid (item point_idx : Z) (it : PlotItem) (xs ys : list float)
    (g : Generator) :
  length ys = length xs ->
  sizes_fit it (length xs) ->
  (0 <= point_idx < Z.of_nat (length xs))%Z ->
  exists (g' : Generator) (it' : PlotItem),
    delete_from_item item point_idx it xs ys g = Ok g'
    /\ point_measurement_map g' = reindex_map item point_idx (point_measurement_map g)
    /\ deleted_items g' = deleted_items g
    /\ plot_items g' !! item = Some it'
    /\ item_x it' = Some (delete (Z.to_nat point_idx) xs)
    /\ item_y it' = Some (delete (Z.to_nat point_idx) ys).
Proof.
  intros Hys Hfit Hrange. unfold delete_from_item.
  rewrite deletion_mask_valid by exact Hrange. simpl.
  set (mask := <[Z.to_nat point_idx := false]> (replicate (length xs) true)).
  assert (Hmask : length mask = length xs).
  { unfold mask. now rewrite length_insert, length_replicate. }
  assert (Hfits : forall l : list float,
             length l = length xs -> np_boolean_index l mask = Ok (boolean_index l mask)).
  { intros l Hl. unfold np_boolean_index.
    rewrite bool_decide_eq_true_2; [reflexivity | now rewrite Hmask]. }
  assert (Hx : boolean_index xs mask = delete (Z.to_nat point_idx) xs)
    by apply boolean_index_delete.
  assert (Hy : boolean_index ys mask = delete (Z.to_nat point_idx) ys).
  { unfold mask. rewrite <- Hys. apply boolean_index_delete. }
  rewrite (Hfits xs eq_refl), (Hfits ys Hys), Hx, Hy. simpl.
  assert (Hfinish : forall it0 : PlotItem,
             item_x it0 = Some (delete (Z.to_nat point_idx) xs) ->
             item_y it0 = Some (delete (Z.to_nat point_idx) ys) ->
             exists (g' : Generator) (it' : PlotItem),
               (let g1 := set_drawing (<[item := it0]> (plot_items g))
                            (reindex_map item point_idx (point_measurement_map g)) g in
                if bool_decide (selected_item g1 = Some item)
                   && bool_decide (selected_index g1 = Some point_idx)
                then Ok (_clear_selection g1) else Ok g1) = Ok g'
               /\ point_measurement_map g'
                  = reindex_map item point_idx (point_measurement_map g)
               /\ deleted_items g' = deleted_items g
               /\ plot_items g' !! item = Some it'
               /\ item_x it' = Some (delete (Z.to_nat point_idx) xs)
               /\ item_y it' = Some (delete (Z.to_nat point_idx) ys)).
  { intros it0 Hx0 Hy0. simpl.
    destruct (bool_decide _ && bool_decide _).
    - destruct (clear_selection_points
                  (set_drawing (<[item := it0]> (plot_items g))
                     (reindex_map item point_idx (point_measurement_map g)) g)
                  item it0) as (it' & Hit' & Hx' & Hy').
      { simpl. apply lookup_insert_eq. }
      eexists. exists it'. repeat split; [exact Hit' | congruence | congruence].
    - eexists. exists it0. repeat split; [simpl; apply lookup_insert_eq | exact Hx0 | exact Hy0]. }
  unfold sizes_fit in Hfit.
  destruct (original_sizes it) as [[s|l]|]; simpl.
  - now apply Hfinish.
  - rewrite (Hfits l Hfit). simpl. now apply Hfinish.
  - now apply Hfinish.
Qed.

(** C4.  Deleting the point at a valid index [p] of a scatter collection
    succeeds, removes that point from the collection's coordinate arrays,
    and re-indexes the point map: within the collection every entry with an
    index above [p] is found at its old index minus one, every entry below
    [p] stays where it was, the entry at [p] is dropped, and the entries of
    every other collection are as before. *)
Theorem delete_point_reindexes (g : Generator) (item point_idx : Z) (it : PlotItem)
    (xs ys : list float) :
  plot_items g !! item = Some it ->
  item_class it = ScatterPlotItem ->
  item_x it = Some xs ->
  item_y it = Some ys ->
  length ys = length xs ->
  sizes_fit it (length xs) ->
  (0 <= point_idx < Z.of_nat (length xs))%Z ->
  exists (g' : Generator) (it' : PlotItem),
    _delete_point item point_idx g = (Ok tt, g')
    /\ (forall j : Z, (point_idx < j)%Z ->
          point_measurement_map g' !! (item, (j - 1)%Z) = point_measurement_map g !! (item, j))
    /\ (forall j : Z, (j < point_idx)%Z ->
          point_measurement_map g' !! (item, j) = point_measurement_map g !! (item, j))
    /\ (forall k j : Z, k <> item ->
          point_measurement_map g' !! (k, j) = point_measurement_map g !! (k, j))
    /\ plot_items g' !! item = Some it'
    /\ item_x it' = Some (delete (Z.to_nat point_idx) xs)
    /\ item_y it' = Some (delete (Z.to_nat point_idx) ys).
Proof.
  intros Hit Hclass Hx Hy Hlen Hfit Hrange.
  unfold _delete_point. rewrite Hit, Hclass, Hx, Hy.
  rewrite bool_decide_eq_true_2 by reflexivity. simpl.
  replace (length xs =? 0)%nat with false by (symmetry; apply Nat.eqb_neq; lia).
  destruct (delete_from_item_valid item point_idx it xs ys
              (set_deleted_items ({[point_id item point_idx]} ∪ deleted_items g) g)
              Hlen Hfit Hrange)
    as (g' & it' & Hdel & Hmap & _ & Hitem & Hx' & Hy').
  rewrite Hdel. exists g', it'. split; [reflexivity|].
  simpl in Hmap. rewrite Hmap.
  repeat split; try assumption.
  - intros j Hj. rewrite reindex_map_lookup. unfold reindexed.
    rewrite bool_decide_eq_true_2 by reflexivity.
    replace (j - 1 <? point_idx)%Z with false by (symmetry; apply Z.ltb_ge; lia).
    f_equal. f_equal. lia.
  - intros j Hj. rewrite reindex_map_lookup. unfold reindexed.
    rewrite bool_decide_eq_true_2 by reflexivity.
    apply Z.ltb_lt in Hj. now rewrite Hj.
  - intros k j Hk. rewrite reindex_map_lookup. unfold reindexed.
    now rewrite bool_decide_eq_false_2 by exact Hk.
Qed.

Example five_drawn_map :
  ids_at five_drawn sample_keys
  = [Some 1; Some 2; Some 3; Some 4; Some 5; Some 6; Some 7]%Z.
Proof. vm_compute. reflexivity. Qed.

(** Deleting index 2 of the five-point collection: the entries at 3 and 4
    move to 2 and 3, those at 0 and 1 and the other collection stay. *)
Example delete_index_two_of_five :
  ids_at (snd (_delete_point 1 2 five_drawn)) sample_keys
  = [Some 1; Some 2; Some 4; Some 5; None; Some 6; Some 7]%Z
  /\ points_shown (snd (_delete_point 1 2 five_drawn)) 1 = Some [0; 1; 3; 4]%float.
Proof. split; vm_compute; reflexivity. Qed.

Lemma five_drawn_item : plot_items five_drawn !! 1%Z = Some five_item.
Proof. vm_compute. reflexivity. Qed.

Lemma delete_point_reindexes_witness :
  fst (_delete_point 1 2 five_drawn) = Ok tt
  /\ point_measurement_map (snd (_delete_point 1 2 five_drawn)) !! (1, 2)%Z
     = point_measurement_map five_drawn !! (1, 3)%Z
  /\ point_measurement_map (snd (_delete_point 1 2 five_drawn)) !! (1, 1)%Z
     = point_measurement_map five_drawn !! (1, 1)%Z
  /\ point_measurement_map (snd (_delete_point 1 2 five_drawn)) !! (2, 0)%Z
     = point_measurement_map five_drawn !! (2, 0)%Z.
Proof.
  pose proof (delete_point_reindexes five_drawn 1 2 five_item
                [0; 1; 2; 3; 4]%float [1; 2; 3; 4; 5]%float
                five_drawn_item eq_refl eq_refl eq_refl eq_refl I) as Hd.
  destruct Hd as (g' & it' & Hdel & Hup & Hdown & Hother & _).
  { cbn [length]. lia. }
  rewrite Hdel. cbn [fst snd]. split; [reflexivity|]. split; [|split].
  - apply (Hup 3%Z). lia.
  - apply (Hdown 1%Z). lia.
  - apply (Hother 2%Z 0%Z). lia.
Defined.

(** C9, as stated, fails: on a collection of five points, index 7 makes
    the deletion raise [IndexError], and the point id has by then been
    recorded as deleted. *)
Lemma delete_point_out_of_range_counterexample :
  points_shown five_drawn 1 = Some [0; 1; 2; 3; 4]%float
  /\ fst (_delete_point 1 7 five_drawn) = Raise IndexError
  /\ size (deleted_items five_drawn) = 0%nat
  /\ size (deleted_items (snd (_delete_point 1 7 five_drawn))) = 1%nat.
Proof. split; [|split; [|split]]; vm_compute; reflexivity. Qed.

(** C9, amended.  Point deletion is a guarded no-op that raises nothing
    and leaves the plotted points and the point map as they were when the
    item is not a scatter collection (nothing at all changes) and when the
    scatter collection has no points (only the point id is recorded as
    deleted).  On a scatter collection of [n > 0] points an index outside
    [-n, n) raises [IndexError]; the points and the map are as before and
    the point id has been recorded as deleted. *)
Theorem delete_point_guards (g : Generator) (item point_idx : Z) (it : PlotItem) :
  plot_items g !! item = Some it ->
  let recorded :=
    set_deleted_items ({[point_id item point_idx]} ∪ deleted_items g) g in
  (item_class it <> ScatterPlotItem ->
   _delete_point item point_idx g = (Ok tt, g))
  /\ (item_class it = ScatterPlotItem ->
      item_x it = None \/ item_y it = None \/ item_x it = Some [] ->
      _delete_point item point_idx g = (Ok tt, recorded))
  /\ (forall xs ys : list float,
         item_class it = ScatterPlotItem ->
         item_x it = Some xs ->
         item_y it = Some ys ->
         xs <> [] ->
         (point_idx < - Z.of_nat (length xs) \/ Z.of_nat (length xs) <= point_idx)%Z ->
         _delete_point item point_idx g = (Raise IndexError, recorded))
  /\ plot_items recorded = plot_items g
  /\ point_measurement_map recorded = point_measurement_map g
  /\ prepared_data recorded = prepared_data g.
Proof.
  intros Hit recorded. unfold _delete_point. rewrite Hit.
  split; [|split; [|split]].
  - intros Hclass. now rewrite bool_decide_eq_false_2 by exact Hclass.
  - intros Hclass Hnone. rewrite Hclass, bool_decide_eq_true_2 by reflexivity. simpl.
    destruct Hnone as [Hx|[Hy|Hx]].
    + now rewrite Hx.
    + rewrite Hy. now destruct (item_x it).
    + rewrite Hx. now destruct (item_y it).
  - intros xs ys Hclass Hx Hy Hne Hout.
    rewrite Hclass, Hx, Hy, bool_decide_eq_true_2 by reflexivity. simpl.
    replace (length xs =? 0)%nat with false
      by (symmetry; apply Nat.eqb_neq; now destruct xs).
    unfold delete_from_item. now rewrite deletion_mask_out_of_range by exact Hout.
  - repeat split.
Qed.

Lemma delete_point_guards_witness :
  _delete_point 1 7 five_drawn
  = (Raise IndexError,
     set_deleted_items ({[point_id 1 7]} ∪ deleted_items five_drawn) five_drawn).
Proof.
  pose proof (delete_point_guards five_drawn 1 7 five_item five_drawn_item)
    as (_ & _ & Hraise & _).
  apply (Hraise [0; 1; 2; 3; 4]%float [1; 2; 3; 4; 5]%float eq_refl eq_refl eq_refl).
  - discriminate.
  - right. cbn [length]. lia.
Defined.

(** ** Grouping into a dictionary, and first-seen order *)

Lemma filter_all {A : Type} (P : A -> Prop) `{!forall x, Decision (P x)} (l : list A) :
  (forall x, x ∈ l -> P x) -> filter P l = l.
Proof.
  induction l as [|x l IH]; intros Hall; [reflexivity|].
  rewrite filter_cons_True by (apply Hall; apply list_elem_of_here).
  rewrite IH; [reflexivity|]. intros y Hy. apply Hall. now apply list_elem_of_further.
Qed.

Section FirstSeen.
Context {K : Type} `{EqDecision K}.

Lemma elem_of_first_seen (ks : list K) (k : K) : k ∈ first_seen ks <-> k ∈ ks.
Proof.
  induction ks as [|k0 ks IH]; simpl; [reflexivity|].
  rewrite !elem_of_cons, list_elem_of_filter, IH.
  destruct (decide (k = k0)) as [->|Hne]; [tauto|]. tauto.
Qed.

Lemma NoDup_first_seen (ks : list K) : NoDup (first_seen ks).
Proof.
  induction ks as [|k0 ks IH]; simpl; [apply NoDup_nil_2|].
  apply NoDup_cons. split.
  - rewrite list_elem_of_filter. intros [Hne _]. now apply Hne.
  - now apply NoDup_filter.
Qed.

End FirstSeen.

Section Grouping.
Context {A K : Type} `{EqDecision K}.
Variable key : A -> option K.





End Grouping.

(** ** Stable sorting, largest first *)

Section StableSort.
Context {A : Type}.
Variable size : A -> nat.










End StableSort.

(** ** Batch pairing *)


Section BatchPairingFacts.
Context `{NumericRuntime}.




End BatchPairingFacts.

(** The batches of sizes 7 and 3 are compared; the batch of size 1 is
    ignored: seven points, each against the mean 4 of batch P3. *)
Example batch_pairing_seven_three_one :
  map (fun p => (id (our_measurement p), label_a p, label_b p, mfr_value p))
      (@_pair_by_batch sequential_runtime seven_three_one "pia")
  = map (fun i => (i, "P7"%string, "P3"%string, Some 4%float)) [3; 5; 6; 8; 9; 10; 11]%Z.
Proof. vm_compute. reflexivity. Qed.

Example batch_pairing_one_batch :
  @_pair_by_batch sequential_runtime three_and_four "pia" = [].
Proof. vm_compute. reflexivity. Qed.


(** ** Fixture pairing *)


Lemma mapM_map {A B C : Type} (f : B -> Result C) (g : A -> B) (l : list A) :
  mapM f (map g l) = mapM (fun x => f (g x)) l.
Proof. induction l as [|x l IH]; simpl; [reflexivity | now rewrite IH]. Qed.

Lemma mapM_ext {A B : Type} (f g : A -> Result B) (l : list A) :
  (forall x, x ∈ l -> f x = g x) -> mapM f l = mapM g l.
Proof.
  induction l as [|x l IH]; intros Hext; simpl; [reflexivity|].
  rewrite (Hext x) by apply list_elem_of_here.
  rewrite IH; [reflexivity|]. intros y Hy. apply Hext. now apply list_elem_of_further.
Qed.

(** A dictionary is its keys, each with its value. *)
Lemma pydict_canonical {K V : Type} `{EqDecision K} (dflt : V) (d : list (K * V)) :
  NoDup (pydict_keys d) ->
  d = map (fun k => (k, default dflt (pydict_get k d))) (pydict_keys d).
Proof.
  induction d as [|[k v] d IH]; intros Hnd; [reflexivity|].
  unfold pydict_keys in *. simpl in *. apply NoDup_cons in Hnd as [Hk Hnd].
  rewrite pydict_get_cons, bool_decide_eq_true_2 by reflexivity. simpl. f_equal.
  rewrite (IH Hnd) at 1. apply map_ext_in. intros k' Hk'.
  rewrite pydict_get_cons. apply list_elem_of_In in Hk'.
  rewrite bool_decide_eq_false_2; [reflexivity|]. intros ->. now apply Hk.
Qed.

Section FirstSeenSnoc.
Context {K : Type} `{EqDecision K}.

Lemma first_seen_snoc (ks : list K) (x : K) :
  first_seen (ks ++ [x]) = if bool_decide (x ∈ ks) then first_seen ks else first_seen ks ++ [x].
Proof.
  induction ks as [|k ks IH].
  - now rewrite bool_decide_eq_false_2 by apply not_elem_of_nil.
  - cbn [app first_seen]. rewrite IH. destruct (decide (x = k)) as [->|Hne].
    + rewrite (bool_decide_eq_true_2 (k ∈ k :: ks)) by apply list_elem_of_here.
      destruct (bool_decide (k ∈ ks)); [reflexivity|].
      rewrite filter_app, filter_cons_False by (intros Hn; now apply Hn).
      now rewrite filter_nil, app_nil_r.
    + destruct (decide (x ∈ ks)) as [Hin|Hnin].
      * rewrite !bool_decide_eq_true_2; [reflexivity | now apply list_elem_of_further | exact Hin].
      * rewrite !bool_decide_eq_false_2; [| | exact Hnin].
        -- rewrite filter_app, filter_cons_True by exact Hne. reflexivity.
        -- rewrite elem_of_cons. tauto.
Qed.

End FirstSeenSnoc.

Section GroupingWith.
Context {A B K : Type} `{EqDecision K}.
Variables (key : A -> option K) (val : A -> B).

Lemma group_by_with_get (l : list A) (acc : list (K * list B)) (k : K) :
  default [] (pydict_get k (group_by_with key val l acc))
  = default [] (pydict_get k acc) ++ map val (filter (fun x => key x = Some k) l).
Proof.
  unfold group_by_with. revert acc.
  induction l as [|x l IH]; intros acc; simpl; [now rewrite app_nil_r|].
  rewrite IH. destruct (key x) as [k0|] eqn:Hx.
  - rewrite pydict_get_append.
    destruct (decide (k0 = k)) as [->|Hne].
    + rewrite bool_decide_eq_true_2 by reflexivity.
      rewrite filter_cons_True by exact Hx. simpl. now rewrite <- app_assoc.
    + rewrite bool_decide_eq_false_2 by exact Hne.
      rewrite filter_cons_False; [reflexivity|]. rewrite Hx. congruence.
  - rewrite filter_cons_False; [reflexivity|]. rewrite Hx. congruence.
Qed.

Lemma group_by_with_keys (l : list A) (acc : list (K * list B)) :
  pydict_keys (group_by_with key val l acc)
  = pydict_keys acc ++ filter (fun k => k ∉ pydict_keys acc) (first_seen (omap key l)).
Proof.
  unfold group_by_with. revert acc.
  induction l as [|x l IH]; intros acc; simpl; [now rewrite app_nil_r|].
  destruct (key x) as [k0|] eqn:Hx; [|apply IH].
  rewrite IH, pydict_keys_append. simpl.
  destruct (decide (k0 ∈ pydict_keys acc)) as [Hin|Hnin].
  - rewrite bool_decide_eq_true_2 by exact Hin.
    rewrite filter_cons_False by (intros Hn; now apply Hn).
    rewrite list_filter_filter_l; [reflexivity|].
    intros k Hk ->. now apply Hk.
  - rewrite bool_decide_eq_false_2 by exact Hnin.
    rewrite filter_cons_True by exact Hnin.
    rewrite <- app_assoc. simpl. f_equal. f_equal.
    rewrite list_filter_filter. apply list_filter_iff. intros k.
    rewrite elem_of_app, list_elem_of_singleton. tauto.
Qed.

Lemma group_by_with_keys_nil (l : list A) :
  pydict_keys (group_by_with key val l []) = first_seen (omap key l).
Proof.
  rewrite group_by_with_keys. simpl. apply filter_all. intros k _. apply not_elem_of_nil.
Qed.

Lemma group_by_with_get_nil (l : list A) (k : K) :
  default [] (pydict_get k (group_by_with key val l []))
  = map val (filter (fun x => key x = Some k) l).
Proof. now rewrite group_by_with_get. Qed.

Lemma group_by_with_canonical (l : list A) :
  group_by_with key val l []
  = map (fun k => (k, map val (filter (fun x => key x = Some k) l)))
        (first_seen (omap key l)).
Proof.
  rewrite (pydict_canonical [] (group_by_with key val l [])).
  - rewrite group_by_with_keys_nil. apply map_ext. intros k.
    now rewrite group_by_with_get_nil.
  - rewrite group_by_with_keys_nil. apply NoDup_first_seen.
Qed.

End GroupingWith.

Section GeneratorFixturePairing.
Context `{NumericRuntime}.
Variable config : GraphConfig.

Lemma device_measurements_of_group (ms : list Measurement) :
  device_measurements_of config ms = group_by_with (comparison_device config) (with_fixture config) ms [].
Proof.
  unfold device_measurements_of, group_by_with.
  generalize (@nil (string * list (option string * Measurement))).
  induction ms as [|m ms IH]; intros acc; simpl; [reflexivity|].
  rewrite IH. f_equal. unfold comparison_device.
  destruct (negb _ || _); [reflexivity|].
  destruct (_get_pairing_key config m) as [k|]; [|reflexivity].
  now destruct (str_truthy k).
Qed.

Lemma fixtures_dict_of_group (fms : list (option string * Measurement)) :
  fixtures_dict_of fms = group_by_with (fun fm => Some (fst fm)) snd fms [].
Proof. reflexivity. Qed.

Lemma tagged_fixtures (recs : list Measurement) :
  omap (fun fm : option string * Measurement => Some (fst fm)) (map (with_fixture config) recs)
  = map (comparison_fixture config) recs.
Proof. induction recs as [|m recs IH]; simpl; [reflexivity | f_equal; exact IH]. Qed.

Lemma tagged_records (recs : list Measurement) (f : option string) :
  map snd (filter (fun fm : option string * Measurement => Some (fst fm) = Some f)
                  (map (with_fixture config) recs))
  = filter (fun m => (comparison_fixture config) m = f) recs.
Proof.
  induction recs as [|m recs IH]; [reflexivity|].
  cbn [map]. destruct (decide ((comparison_fixture config) m = f)) as [Hf|Hf].
  - rewrite !filter_cons_True; [| exact Hf | simpl; now rewrite Hf].
    simpl. now rewrite IH.
  - rewrite !filter_cons_False; [exact IH | exact Hf | simpl; congruence].
Qed.

Lemma pair_device_spec (recs : list Measurement) :
  pair_device config (map (with_fixture config) recs)
  = device_pair (comparison_fixture config) sorted_fixtures (_apply_pairing_strategy config) recs.
Proof.
  unfold pair_device, device_pair.
  rewrite fixtures_dict_of_group, group_by_with_keys_nil, tagged_fixtures.
  destruct (sorted_fixtures (first_seen (map (comparison_fixture config) recs)))
    as [fixtures|e]; [|reflexivity].
  simpl. destruct fixtures as [|fa [|fb rest]]; try reflexivity.
  now rewrite !group_by_with_get_nil, !tagged_records.
Qed.

Lemma comparison_same_pairs_spec (ms : list Measurement) :
  comparison_same_pairs config ms
  = fixture_pairing (comparison_device config) (comparison_fixture config) sorted_fixtures
      (_apply_pairing_strategy config) ms.
Proof.
  unfold comparison_same_pairs, fixture_pairing.
  rewrite device_measurements_of_group, group_by_with_canonical, mapM_map.
  f_equal. apply mapM_ext. intros d _. simpl. apply pair_device_spec.
Qed.

End GeneratorFixturePairing.

Section PageFixturePairing.

Lemma device_fixture_data_of_fold (ms : list Measurement) :
  device_fixture_data_of ms = fold_left file_record ms [].
Proof.
  unfold device_fixture_data_of.
  generalize (@nil (string * list (string * Measurement))).
  induction ms as [|m ms IH]; intros acc; simpl; [reflexivity|].
  rewrite IH. f_equal. unfold file_record, page_device, page_fixture.
  destruct (_get_device_serial m) as [serial|]; [|reflexivity].
  destruct (_get_test_fixture m) as [fixture|]; [|reflexivity].
  now destruct (str_truthy serial && str_truthy fixture && has_value m).
Qed.

Lemma pydict_mem_keys {K V : Type} `{EqDecision K} (k : K) (d : list (K * V)) :
  pydict_mem k d = true <-> k ∈ pydict_keys d.
Proof.
  unfold pydict_mem. destruct (pydict_get k d) as [v|] eqn:Hg.
  - split; [intros _ | reflexivity].
    destruct (decide (k ∈ pydict_keys d)) as [Hin|Hnin]; [exact Hin|].
    apply pydict_get_None in Hnin. congruence.
  - split; [discriminate|]. intros Hin. now apply pydict_get_None in Hg.
Qed.

Lemma first_on_fixture_snoc (recs : list Measurement) (m : Measurement) :
  first_on_fixture (recs ++ [m])
  = if pydict_mem (page_fixture m) (first_on_fixture recs) then first_on_fixture recs
    else pydict_set (page_fixture m) m (first_on_fixture recs).
Proof. unfold first_on_fixture. now rewrite fold_left_app. Qed.

Lemma first_on_fixture_keys (recs : list Measurement) :
  pydict_keys (first_on_fixture recs) = first_seen (map page_fixture recs).
Proof.
  induction recs as [|m recs IH] using rev_ind; [reflexivity|].
  rewrite first_on_fixture_snoc, map_app. cbn [map]. rewrite first_seen_snoc.
  destruct (decide (page_fixture m ∈ map page_fixture recs)) as [Hin|Hnin].
  - rewrite bool_decide_eq_true_2 by exact Hin.
    replace (pydict_mem (page_fixture m) (first_on_fixture recs)) with true; [exact IH|].
    symmetry. apply pydict_mem_keys. rewrite IH. now apply elem_of_first_seen.
  - rewrite bool_decide_eq_false_2 by exact Hnin.
    assert (Hk : page_fixture m ∉ pydict_keys (first_on_fixture recs)).
    { rewrite IH. now rewrite elem_of_first_seen. }
    replace (pydict_mem (page_fixture m) (first_on_fixture recs)) with false.
    + rewrite pydict_keys_set, bool_decide_eq_false_2 by exact Hk. now rewrite IH.
    + symmetry. apply not_true_is_false. now rewrite pydict_mem_keys.
Qed.

Lemma first_on_fixture_get (recs : list Measurement) (f : string) :
  pydict_get f (first_on_fixture recs) = head (filter (fun m => page_fixture m = f) recs).
Proof.
  induction recs as [|m recs IH] using rev_ind; [reflexivity|].
  rewrite first_on_fixture_snoc, filter_app.
  destruct (pydict_mem (page_fixture m) (first_on_fixture recs)) eqn:Hmem.
  - destruct (decide (page_fixture m = f)) as [Hf|Hf].
    + rewrite (filter_cons_True _ m []) by exact Hf.
      unfold pydict_mem in Hmem. rewrite Hf, IH in Hmem.
      rewrite IH. now destruct (filter (fun m0 => page_fixture m0 = f) recs).
    + rewrite (filter_cons_False _ m []) by exact Hf.
      now rewrite filter_nil, app_nil_r.
  - rewrite pydict_get_set.
    destruct (decide (page_fixture m = f)) as [Hf|Hf].
    + rewrite bool_decide_eq_true_2 by exact Hf.
      rewrite (filter_cons_True _ m []) by exact Hf.
      unfold pydict_mem in Hmem. rewrite Hf, IH in Hmem.
      now destruct (filter (fun m0 => page_fixture m0 = f) recs).
    + rewrite bool_decide_eq_false_2 by exact Hf.
      rewrite (filter_cons_False _ m []) by exact Hf.
      now rewrite filter_nil, app_nil_r.
Qed.

Lemma device_fixture_data_keys (ms : list Measurement) :
  pydict_keys (fold_left file_record ms []) = first_seen (omap page_device ms).
Proof.
  induction ms as [|m ms IH] using rev_ind; [reflexivity|].
  rewrite fold_left_app, omap_app. cbn [fold_left]. unfold file_record at 1.
  cbn [omap list_omap]. destruct (page_device m) as [serial|] eqn:Hdev.
  - rewrite first_seen_snoc.
    destruct (decide (serial ∈ pydict_keys (fold_left file_record ms []))) as [Hin|Hnin].
    + rewrite bool_decide_eq_true_2 by (rewrite <- elem_of_first_seen, <- IH; exact Hin).
      destruct (pydict_mem _ _); [exact IH|].
      now rewrite pydict_keys_set, bool_decide_eq_true_2 by exact Hin.
    + rewrite bool_decide_eq_false_2 by (rewrite <- elem_of_first_seen, <- IH; exact Hnin).
      apply pydict_get_None in Hnin as Hget. rewrite Hget. simpl.
      rewrite pydict_keys_set, bool_decide_eq_false_2 by exact Hnin. now rewrite IH.
  - now rewrite app_nil_r.
Qed.

Lemma device_fixture_data_get (ms : list Measurement) (s : string) :
  default [] (pydict_get s (fold_left file_record ms []))
  = first_on_fixture (filter (fun m => page_device m = Some s) ms).
Proof.
  induction ms as [|m ms IH] using rev_ind; [reflexivity|].
  rewrite fold_left_app, filter_app. cbn [fold_left]. unfold file_record at 1.
  destruct (page_device m) as [serial|] eqn:Hdev.
  - destruct (decide (serial = s)) as [->|Hne].
    + rewrite (filter_cons_True _ m []) by exact Hdev.
      rewrite filter_nil, first_on_fixture_snoc, <- IH.
      destruct (pydict_mem _ _); [reflexivity|].
      now rewrite pydict_get_set, bool_decide_eq_true_2 by reflexivity.
    + rewrite (filter_cons_False _ m []) by (rewrite Hdev; congruence).
      rewrite filter_nil, app_nil_r, <- IH.
      destruct (pydict_mem _ _); [reflexivity|].
      now rewrite pydict_get_set, bool_decide_eq_false_2 by exact Hne.
  - rewrite (filter_cons_False _ m []) by (rewrite Hdev; congruence).
    now rewrite filter_nil, app_nil_r.
Qed.

Lemma device_fixture_data_canonical (ms : list Measurement) :
  device_fixture_data_of ms
  = map (fun s => (s, first_on_fixture (filter (fun m => page_device m = Some s) ms)))
        (first_seen (omap page_device ms)).
Proof.
  rewrite device_fixture_data_of_fold.
  rewrite (pydict_canonical [] (fold_left file_record ms [])).
  - rewrite device_fixture_data_keys. apply map_ext. intros s.
    now rewrite device_fixture_data_get.
  - rewrite device_fixture_data_keys. apply NoDup_first_seen.
Qed.

End PageFixturePairing.



(** Insertion into a sorted list keeps neighbours in order, for any total
    order. *)
Section SortedTotal.
Context {A : Type} (le : A -> A -> bool).
Hypothesis le_total : forall x y, le x y = true \/ le y x = true.

Lemma sorted_insert_Sorted (x : A) (s : list A) :
  Sorted (fun a b => le a b = true) s ->
  Sorted (fun a b => le a b = true) (sorted_insert le x s).
Proof using le_total.
  induction 1 as [|y s Hs IH Hy]; simpl; [repeat constructor|].
  destruct (le x y) eqn:Hxy.
  - constructor; [now constructor | now constructor].
  - constructor; [exact IH|].
    destruct s as [|z s]; simpl.
    + constructor. destruct (le_total x y); congruence.
    + destruct (le x z); constructor.
      * destruct (le_total x y); congruence.
      * now inversion Hy.
Qed.

Lemma py_sorted_Sorted (l : list A) : Sorted (fun a b => le a b = true) (py_sorted le l).
Proof using le_total.
  induction l as [|x l IH]; simpl; [constructor | now apply sorted_insert_Sorted].
Qed.

End SortedTotal.




Example five_boards_five_pairs :
  pair_ids (@comparison_same_pairs sequential_runtime
              (same_measurement_config five_boards) five_boards)
  = [(1, 6); (2, 7); (3, 8); (4, 9); (5, 10)]%Z
  /\ point_ids (_pair_by_test_fixture five_boards)
     = [(1, Some 6); (2, Some 7); (3, Some 8); (4, Some 9); (5, Some 10)]%Z.
Proof. split; vm_compute; reflexivity. Qed.

(** A board seen on one fixture only is skipped. *)
Example one_fixture_skipped :
  point_ids (_pair_by_test_fixture three_and_four)
  = [(1, Some 4); (2, Some 5); (3, Some 6)]%Z.
Proof. vm_compute. reflexivity. Qed.


(* ===================================================================== *)
(** * Further properties of the code                                      *)
(* ===================================================================== *)

(** ** The size tables *)

(** X1 (graph_utils.py, [calculate_point_size], [calculate_line_width],
    [calculate_bar_width]): on a plot that has points, more points never
    get a larger marker, a thicker line or a wider bar: each table is
    non-increasing over the positive counts. *)
Theorem size_tables_non_increasing (a b : Z) :
  (0 < a <= b)%Z ->
  PrimFloat.leb (calculate_point_size b) (calculate_point_size a) = true
  /\ PrimFloat.leb (calculate_line_width b) (calculate_line_width a) = true
  /\ PrimFloat.leb (calculate_bar_width b) (calculate_bar_width a) = true.
Proof.
  intros [Ha Hab].
  unfold calculate_point_size, calculate_line_width, calculate_bar_width.
  split; [|split];
    repeat match goal with
           | |- context [(?x <=? ?y)%Z] => destruct (Z.leb_spec x y); try lia
           end; reflexivity.
Qed.

Lemma size_tables_non_increasing_witness :
  PrimFloat.leb (calculate_point_size 300) (calculate_point_size 10) = true
  /\ PrimFloat.leb (calculate_line_width 300) (calculate_line_width 10) = true
  /\ PrimFloat.leb (calculate_bar_width 300) (calculate_bar_width 10) = true.
Proof. apply (size_tables_non_increasing 10 300). lia. Defined.

(** ** The bins of the histogram *)

(** X2 (graph_generator.py, [_plot_histogram]): the histogram always has
    between 10 and 50 bins, one per five values in between; the fallback
    for fewer than 5 bins is never taken. *)
Theorem histogram_num_bins_range (n : Z) :
  histogram_num_bins n = Z.min 50 (Z.max 10 (n / 5))
  /\ (10 <= histogram_num_bins n <= 50)%Z.
Proof.
  unfold histogram_num_bins.
  destruct (Z.ltb_spec (Z.min 50 (Z.max 10 (n / 5))) 5); lia.
Qed.

(** ** Validation of the configuration *)

Lemma check_comparison_stable (c c' : GraphConfig) :
  check_comparison c = Ok c' -> check_comparison c' = Ok c'.
Proof.
  unfold check_comparison.
  destruct (bool_decide (comparison_mode c ≠ NONE)) eqn:Hmode;
    [|intros [= <-]; now rewrite Hmode].
  destruct (opt_truthy (x_axis_measurement c)) eqn:Hx; simpl; [|discriminate].
  destruct (bool_decide (comparison_mode c = SAME_MEASUREMENT)) eqn:Hsame.
  - destruct (opt_truthy (y_axis_measurement c) && _); [discriminate|].
    intros [= <-]. simpl. rewrite Hmode, Hx, Hsame. simpl.
    unfold opt_str_neq. rewrite bool_decide_eq_true_2 by reflexivity.
    simpl. reflexivity.
  - destruct (bool_decide (comparison_mode c = DIFFERENT_MEASUREMENTS)) eqn:Hdiff.
    + destruct (opt_truthy (y_axis_measurement c)) eqn:Hy; simpl; [|discriminate].
      intros [= <-]. now rewrite Hmode, Hx, Hsame, Hdiff, Hy.
    + intros [= <-]. now rewrite Hmode, Hx, Hsame, Hdiff.
Qed.

(** X3 (graph_config.py, [GraphConfig.__post_init__]): validation is
    idempotent: a configuration that came out of it passes it again
    unchanged, so a validated configuration can be re-validated (copied,
    rebuilt from its fields) without error. *)
Theorem post_init_idempotent (c c' : GraphConfig) :
  post_init c = Ok c' -> post_init c' = Ok c'.
Proof.
  intros Hpost. pose proof (post_init_keeps_axes c c' Hpost) as Hcheck.
  unfold post_init in *. rewrite Hcheck in Hpost. simpl in Hpost.
  rewrite (check_comparison_stable c c' Hcheck). simpl. exact Hpost.
Qed.

Lemma post_init_idempotent_witness :
  post_init (with_comparison SAME_MEASUREMENT (Some "Gain"%string) None (default_config []))
  = Ok (with_comparison SAME_MEASUREMENT (Some "Gain"%string) (Some "Gain"%string)
          (default_config []))
  /\ post_init (with_comparison SAME_MEASUREMENT (Some "Gain"%string) (Some "Gain"%string)
                  (default_config []))
     = Ok (with_comparison SAME_MEASUREMENT (Some "Gain"%string) (Some "Gain"%string)
             (default_config [])).
Proof.
  split; [reflexivity|].
  apply (post_init_idempotent
           (with_comparison SAME_MEASUREMENT (Some "Gain"%string) None (default_config []))).
  reflexivity.
Defined.



(** ** Grouping *)

Section GroupedData.
Context `{NumericRuntime}.

Lemma get_grouped_data_group (ms : list Measurement) (field : string) :
  get_grouped_data ms field
  = group_by_with
      (fun m => Some (group_key (default field (pydict_get field field_mapping)) m))
      (fun m => m) ms [].
Proof. reflexivity. Qed.

(** X5 (graph_utils.py, [get_grouped_data]): grouping is a partition in
    reading order: the groups come in the order in which their keys are
    first met, and each group holds exactly the measurements of its key, in
    the order of the input.  No group is empty and no measurement is lost
    or repeated. *)
Theorem get_grouped_data_partition (ms : list Measurement) (field : string) :
  let key := group_key (default field (pydict_get field field_mapping)) in
  get_grouped_data ms field
  = map (fun k => (k, filter (fun m => key m = k) ms)) (first_seen (map key ms)).
Proof.
  intros key. rewrite get_grouped_data_group, group_by_with_canonical.
  fold key.
  assert (Hkeys : omap (fun m => Some (key m)) ms = map key ms).
  { induction ms as [|m ms IH]; simpl; [reflexivity | f_equal; exact IH]. }
  rewrite Hkeys. apply map_ext. intros k. f_equal.
  rewrite map_id. clear Hkeys.
  induction ms as [|m ms IH]; [reflexivity|].
  rewrite !filter_cons.
  destruct (decide (Some (key m) = Some k)) as [Heq|Hne];
    destruct (decide (key m = k)) as [Heq'|Hne']; congruence.
Qed.

End GroupedData.

(** ** Standard extraction: the arrays stay aligned *)

Section StandardExtraction.
Context `{NumericRuntime}.
Variable config : GraphConfig.

Lemma standard_loop_aligned (all : list Measurement) (rest : list Measurement) :
  forall (pre : list Measurement) (st st' : StandardLoop),
    all = pre ++ rest ->
    standard_loop config (length pre) rest st = Ok st' ->
    map (fun i => all !! i) (sl_measurement_indices st')
    = map (fun i => all !! i) (sl_measurement_indices st) ++ map Some (points_of rest)
    /\ sl_y_data st'
       = sl_y_data st ++ map (fun m => default nan (measurement m)) (points_of rest)
    /\ length (sl_x_data st') = (length (sl_x_data st) + length (points_of rest))%nat
    /\ length (sl_x_labels st') = (length (sl_x_labels st) + length (points_of rest))%nat.
Proof.
  induction rest as [|m rest IH]; intros pre st st' Hall; simpl.
  - intros [= <-]. rewrite !app_nil_r. auto with arith.
  - assert (Hall' : all = (pre ++ [m]) ++ rest) by now rewrite <- app_assoc.
    assert (Hlen : S (length pre) = length (pre ++ [m]))
      by (rewrite length_app; simpl; lia).
    unfold is_point. destruct (has_plot m && plot_data_truthy m) eqn:Hplot; simpl.
    + rewrite Hlen. intros Hloop. exact (IH _ _ _ Hall' Hloop).
    + destruct (_get_x_value config m) as [xv|e]; simpl; [|discriminate].
      rewrite Hlen. intros Hloop.
      destruct (IH _ _ _ Hall' Hloop) as (Hidx & Hy & Hx & Hl). simpl in *.
      rewrite Hidx, Hy, Hx, Hl, !map_app, !length_app, <- !app_assoc. simpl.
      assert (Hm : all !! length pre = Some m).
      { rewrite Hall. rewrite lookup_app_r by lia. now rewrite Nat.sub_diag. }
      rewrite Hm. repeat split; lia.
Qed.

Lemma extract_standard_aligned_lemma (ms : list Measurement) (start : Z) (ex : Extracted) :
  _extract_standard_data config ms start = Ok ex ->
  map (fun i => ms !! i) (ex_measurement_indices ex) = map Some (points_of ms)
  /\ ex_y_data ex = map (fun m => default nan (measurement m)) (points_of ms)
  /\ length (ex_x_data ex) = length (points_of ms)
  /\ (exists labels, ex_x_labels ex = Some labels /\ length labels = length (points_of ms))
  /\ length (ex_is_outlier ex) = length (points_of ms).
Proof.
  unfold _extract_standard_data.
  destruct (standard_loop config 0 ms _) as [st|e] eqn:Hloop; simpl; [|discriminate].
  intros [= <-]. simpl.
  destruct (standard_loop_aligned ms ms [] _ st eq_refl Hloop) as (Hidx & Hy & Hx & Hl).
  simpl in *. rewrite Hidx, Hy, Hx. repeat split.
  - exists (sl_x_labels st). split; [reflexivity | exact Hl].
  - destruct (remove_outliers config).
    + rewrite detect_outliers_length. now rewrite length_map.
    + rewrite repeat_length. now rewrite length_map.
Qed.

(** X6 (graph_generator.py, [_extract_standard_data]): the arrays of a
    standard extraction are aligned with the measurements they came from:
    there is one entry per measurement that is not an overlaid plot, the
    k-th entry of [measurement_indices] is the position of the k-th such
    measurement in the input, [y_data] holds their values (NaN for a
    missing one) in the same order, and [x_data], [x_labels] and
    [is_outlier] have the same length. *)
Theorem extract_standard_aligned (ms : list Measurement) (start : Z) (ex : Extracted) :
  _extract_standard_data config ms start = Ok ex ->
  map (fun i => ms !! i) (ex_measurement_indices ex) = map Some (points_of ms)
  /\ ex_y_data ex = map (fun m => default nan (measurement m)) (points_of ms)
  /\ length (ex_x_data ex) = length (points_of ms)
  /\ (exists labels, ex_x_labels ex = Some labels /\ length labels = length (points_of ms))
  /\ length (ex_is_outlier ex) = length (points_of ms).
Proof. exact (extract_standard_aligned_lemma ms start ex). Qed.

End StandardExtraction.

Lemma extract_standard_aligned_witness :
  exists ex : Extracted,
    @_extract_standard_data sequential_runtime (default_config readings_and_plot)
      readings_and_plot 0 = Ok ex
    /\ map (fun i => readings_and_plot !! i) (ex_measurement_indices ex)
       = map Some (points_of readings_and_plot)
    /\ ex_y_data ex = map (fun m => default nan (measurement m)) (points_of readings_and_plot)
    /\ length (ex_x_data ex) = length (points_of readings_and_plot)
    /\ (exists labels, ex_x_labels ex = Some labels
                       /\ length labels = length (points_of readings_and_plot))
    /\ length (ex_is_outlier ex) = length (points_of readings_and_plot).
Proof.
  eexists. split; [vm_compute; reflexivity|].
  apply (@extract_standard_aligned sequential_runtime (default_config readings_and_plot)
           readings_and_plot 0).
  vm_compute. reflexivity.
Defined.


(** ** Registering the points of a scatter item *)

Lemma register_loop_spec (item_id : Z) (gd : GroupData) (points : list (XVal * float)) :
  forall (idx : nat) (pmap : gmap (Z * Z) Measurement),
    (forall k, (idx <= k < idx + length points)%nat -> is_Some (registered gd k)) ->
    exists pmap' : gmap (Z * Z) Measurement,
      register_loop item_id idx points gd pmap = (Ok tt, pmap')
      /\ (forall k, (idx <= k < idx + length points)%nat ->
                    pmap' !! (item_id, Z.of_nat k) = registered gd k)
      /\ (forall key : Z * Z,
             ~ (exists k, (idx <= k < idx + length points)%nat
                          /\ key = (item_id, Z.of_nat k)) ->
             pmap' !! key = pmap !! key).
Proof.
  induction points as [|p points IH]; intros idx pmap Hreg; simpl.
  - exists pmap. split; [reflexivity|]. split; [intros k Hk; lia | reflexivity].
  - destruct (Hreg idx) as [m Hm]; [simpl; lia|].
    unfold registered in Hm.
    destruct (measurement_indices gd !! idx) as [i|] eqn:Hi; [|discriminate].
    simpl in Hm. rewrite Hm.
    destruct (IH (S idx) (<[(item_id, Z.of_nat idx) := m]> pmap)) as (pmap' & Hloop & Hin & Hout).
    { intros k Hk. apply Hreg. simpl. lia. }
    exists pmap'. split; [exact Hloop|]. split.
    + intros k Hk. destruct (decide (k = idx)) as [->|Hne].
      * rewrite Hout.
        -- rewrite lookup_insert_eq. unfold registered. rewrite Hi. simpl. now rewrite Hm.
        -- intros (k' & Hk' & [= Heq]). lia.
      * apply Hin. simpl in Hk. lia.
    + intros key Hkey. rewrite Hout.
      * apply lookup_insert_ne. intros <-. apply Hkey. exists idx.
        split; [simpl; lia | reflexivity].
      * intros (k' & Hk' & ->). apply Hkey. exists k'. split; [simpl; lia | reflexivity].
Qed.

Lemma register_group_spec (item_id : Z) (gd : GroupData) (pmap : gmap (Z * Z) Measurement) :
  length (y_data gd) = length (x_data gd) ->
  (forall k, (k < length (x_data gd))%nat -> is_Some (registered gd k)) ->
  exists pmap' : gmap (Z * Z) Measurement,
    register_group item_id gd pmap = (Ok tt, pmap')
    /\ (forall k, (k < length (x_data gd))%nat ->
                  pmap' !! (item_id, Z.of_nat k) = registered gd k)
    /\ (forall key : Z * Z,
           ~ (exists k, (k < length (x_data gd))%nat /\ key = (item_id, Z.of_nat k)) ->
           pmap' !! key = pmap !! key).
Proof.
  intros Hlen Hreg. unfold register_group.
  assert (Hzip : length (zip (x_data gd) (y_data gd)) = length (x_data gd)).
  { rewrite length_zip_with. lia. }
  destruct (register_loop_spec item_id gd (zip (x_data gd) (y_data gd)) 0 pmap)
    as (pmap' & Hloop & Hin & Hout).
  { intros k Hk. apply Hreg. lia. }
  destruct (x_data gd) as [|x xs] eqn:Hx.
  - exists pmap. split; [reflexivity|]. split; [intros k Hk; simpl in Hk; lia | reflexivity].
  - exists pmap'. split; [exact Hloop|]. split.
    + intros k Hk. apply Hin. lia.
    + intros key Hkey. apply Hout. intros (k & Hk & ->). apply Hkey. exists k.
      split; [lia | reflexivity].
Qed.

Section Registration.
Context `{NumericRuntime}.
Variable config : GraphConfig.

(** X7 (graph_generator.py, [_plot_scatter] with [_prepare_group_data] and
    [_extract_standard_data]): in a standard plot, registering the points
    of a prepared group never raises, and point [k] of the scatter item is
    registered to the k-th measurement that is not an overlaid plot: the
    one whose value [y_data[k]] shows.  Entries of other items, and of
    indices past the last point, are left as they were. *)
Theorem register_group_standard (ms : list Measurement) (start : Z) (gd : GroupData)
    (item_id : Z) (pmap : gmap (Z * Z) Measurement) :
  comparison_mode config = NONE ->
  _prepare_group_data config ms start = Ok gd ->
  exists pmap' : gmap (Z * Z) Measurement,
    register_group item_id gd pmap = (Ok tt, pmap')
    /\ length (x_data gd) = length (points_of ms)
    /\ (forall (k : nat) (m : Measurement),
           points_of ms !! k = Some m ->
           pmap' !! (item_id, Z.of_nat k) = Some m
           /\ y_data gd !! k = Some (plotted_value m))
    /\ (forall key : Z * Z,
           ~ (exists k, (k < length (points_of ms))%nat /\ key = (item_id, Z.of_nat k)) ->
           pmap' !! key = pmap !! key).
Proof.
  intros Hmode. unfold _prepare_group_data. rewrite Hmode.
  destruct (_extract_standard_data config ms start) as [ex|e] eqn:Hex; simpl; [|discriminate].
  intros [= <-].
  destruct (extract_standard_aligned_lemma config ms start ex Hex)
    as (Hidx & Hy & Hx & _ & _).
  set (gd := {| gd_measurements := ms |}).
  assert (Hreg : forall k m, points_of ms !! k = Some m -> registered gd k = Some m).
  { intros k m Hk. unfold registered. simpl.
    assert (Hk' : map (fun i => ms !! i) (ex_measurement_indices ex) !! k = Some (Some m)).
    { rewrite Hidx, list_lookup_fmap, Hk. reflexivity. }
    rewrite list_lookup_fmap in Hk'.
    destruct (ex_measurement_indices ex !! k) as [i|]; [|discriminate].
    simpl in *. congruence. }
  destruct (register_group_spec item_id gd pmap) as (pmap' & Hgroup & Hin & Hout).
  { simpl. rewrite Hy, Hx. now rewrite length_map. }
  { simpl. rewrite Hx. intros k Hk. apply lookup_lt_is_Some_2 in Hk as [m Hm].
    exists m. now apply Hreg. }
  simpl in Hin, Hout. rewrite Hx in Hin, Hout.
  exists pmap'. split; [exact Hgroup|]. split; [exact Hx|]. split; [|exact Hout].
  intros k m Hk. split.
  - rewrite Hin by (apply lookup_lt_is_Some_1; eauto). now apply Hreg.
  - simpl. rewrite Hy, list_lookup_fmap, Hk. reflexivity.
Qed.

End Registration.

Lemma register_group_standard_witness :
  exists (gd : GroupData) (pmap' : gmap (Z * Z) Measurement),
    @_prepare_group_data sequential_runtime (default_config readings_and_plot)
      readings_and_plot 0 = Ok gd
    /\ register_group 1 gd ∅ = (Ok tt, pmap')
    /\ pmap' !! (1, 1)%Z = Some (reading 3 "Gain" None "A" "SN3" "P1")
    /\ y_data gd !! 1%nat = Some (plotted_value (reading 3 "Gain" None "A" "SN3" "P1")).
Proof.
  eexists ?[gd].
  destruct (@register_group_standard sequential_runtime (default_config readings_and_plot)
              readings_and_plot 0 ?gd 1 ∅ eq_refl) as (pmap' & Hgroup & _ & Hpoint & _).
  { vm_compute. reflexivity. }
  exists pmap'. split; [vm_compute; reflexivity|]. split; [exact Hgroup|].
  apply (Hpoint 1%nat). reflexivity.
Defined.


(** ** Comparison plots: pairs, points and registration *)

Lemma mapM_length {A B : Type} (f : A -> Result B) (l : list A) (l' : list B) :
  mapM f l = Ok l' -> length l' = length l.
Proof.
  revert l'. induction l as [|x l IH]; intros l'; simpl; [now intros [= <-]|].
  destruct (f x) as [y|e]; simpl; [|discriminate].
  destruct (mapM f l) as [ys|e]; simpl; [|discriminate].
  intros [= <-]. simpl. now rewrite (IH ys).
Qed.

Lemma mapM_pair_value (l : list Measurement) (vs : list float) :
  mapM pair_value l = Ok vs -> map measurement l = map Some vs.
Proof.
  revert vs. induction l as [|m l IH]; intros vs; simpl; [now intros [= <-]|].
  change (pair_value m)
    with (match measurement m with Some v => Ok v | None => Raise TypeError end).
  destruct (measurement m) as [v|]; simpl; [|discriminate].
  destruct (mapM pair_value l) as [ys|e]; simpl; [|discriminate].
  intros [= <-]. simpl. now rewrite (IH ys).
Qed.

Lemma length_omap_le {A B : Type} (f : A -> option B) (l : list A) :
  (length (omap f l) <= length l)%nat.
Proof.
  induction l as [|x l IH]; csimpl; [lia|]. destruct (f x); csimpl; lia.
Qed.

Lemma length_first_seen_le {K : Type} `{EqDecision K} (ks : list K) :
  (length (first_seen ks) <= length ks)%nat.
Proof.
  induction ks as [|k ks IH]; simpl; [lia|].
  pose proof (length_filter (fun k' => k' <> k) (first_seen ks)). lia.
Qed.

Lemma length_pydict_set_le {K V : Type} `{EqDecision K} (k : K) (v : V) (d : list (K * V)) :
  (length (pydict_set k v d) <= S (length d))%nat.
Proof.
  induction d as [|[k' v'] d IH]; simpl; [lia|].
  destruct (bool_decide (k' = k)); simpl; lia.
Qed.

Section ComparisonPoints.
Context `{NumericRuntime}.
Variable config : GraphConfig.

Lemma paired_extracted_shape (pairs : list (Measurement * Measurement)) (guard : bool)
    (ex : Extracted) :
  paired_extracted config pairs guard = Ok ex ->
  ex_measurement_pairs ex = Some pairs
  /\ map (fun x => Some (xval_float x)) (ex_x_data ex)
     = map (fun p => measurement (fst p)) pairs
  /\ map Some (ex_y_data ex) = map (fun p => measurement (snd p)) pairs
  /\ ex_measurement_indices ex = seq 0 (length pairs)
  /\ length (ex_is_outlier ex) = length pairs.
Proof.
  unfold paired_extracted.
  destruct (mapM (fun p => pair_value (fst p)) pairs) as [xs|e] eqn:Hxs; simpl; [|discriminate].
  destruct (mapM (fun p => pair_value (snd p)) pairs) as [ys|e] eqn:Hys; simpl; [|discriminate].
  intros [= <-]. simpl.
  pose proof (mapM_length _ _ _ Hxs) as Hlx. pose proof (mapM_length _ _ _ Hys) as Hly.
  rewrite <- (mapM_map pair_value fst) in Hxs. rewrite <- (mapM_map pair_value snd) in Hys.
  apply mapM_pair_value in Hxs, Hys. rewrite map_map in Hxs, Hys.
  split; [reflexivity|]. split; [|split; [|split]].
  - rewrite map_map. simpl. now rewrite Hxs.
  - now rewrite Hys.
  - now rewrite Hlx.
  - destruct (remove_outliers config && _).
    + unfold zip_or. rewrite length_zip_with, !detect_outliers_length. lia.
    + rewrite repeat_length. exact Hlx.
Qed.

Lemma comparison_same_pairs_length (ms : list Measurement)
    (pairs : list (Measurement * Measurement)) :
  comparison_same_pairs config ms = Ok pairs -> (length pairs <= length ms)%nat.
Proof.
  rewrite comparison_same_pairs_spec. unfold fixture_pairing.
  destruct (mapM _ _) as [found|e] eqn:Hfound; simpl; [|discriminate].
  intros [= <-]. apply mapM_length in Hfound.
  pose proof (length_omap_le (fun o : option (Measurement * Measurement) => o) found).
  pose proof (length_first_seen_le (omap (comparison_device config) ms)).
  pose proof (length_omap_le (comparison_device config) ms).
  lia.
Qed.

Lemma different_loop_length (ms : list Measurement) :
  forall (xm ym xm' ym' : list (Z * Measurement)),
    different_loop config ms xm ym = Ok (xm', ym') ->
    (length xm' <= length xm + length ms)%nat.
Proof.
  induction ms as [|m ms IH]; intros xm ym xm' ym'; simpl.
  - intros [= <- <-]. lia.
  - destruct (sub_test m) as [st|]; [|discriminate].
    destruct (bool_decide (Some (name m) = x_axis_measurement config) && _).
    + intros Hloop. apply IH in Hloop.
      pose proof (length_pydict_set_le (test_id st) m xm). lia.
    + destruct (bool_decide (Some (name m) = y_axis_measurement config) && _);
        intros Hloop; apply IH in Hloop; lia.
Qed.

Lemma prepare_group_comparison_shape (ms : list Measurement) (start : Z) (gd : GroupData) :
  comparison_mode config <> NONE ->
  _prepare_group_data config ms start = Ok gd ->
  exists pairs : list (Measurement * Measurement),
    gd_measurements gd = ms
    /\ measurement_pairs gd = Some pairs
    /\ (length pairs <= length ms)%nat
    /\ map (fun x => Some (xval_float x)) (x_data gd)
       = map (fun p => measurement (fst p)) pairs
    /\ map Some (y_data gd) = map (fun p => measurement (snd p)) pairs
    /\ measurement_indices gd = seq 0 (length pairs)
    /\ length (is_outlier gd) = length pairs.
Proof.
  intros Hmode. unfold _prepare_group_data.
  destruct (comparison_mode config) eqn:Hm; [congruence| |].
  - unfold _extract_comparison_same.
    destruct (comparison_same_pairs config ms) as [pairs|e] eqn:Hpairs; simpl; [|discriminate].
    destruct (paired_extracted config pairs true) as [ex|e] eqn:Hex; simpl; [|discriminate].
    intros [= <-]. simpl. exists pairs.
    destruct (paired_extracted_shape _ _ _ Hex) as (Hp & Hx & Hy & Hi & Ho).
    pose proof (comparison_same_pairs_length _ _ Hpairs). auto 10.
  - unfold _extract_comparison_different.
    destruct (different_loop config ms [] []) as [[xm ym]|e] eqn:Hloop; simpl; [|discriminate].
    match goal with
    | |- context [paired_extracted config ?p false] => set (pairs := p)
    end.
    destruct (paired_extracted config pairs false) as [ex|e] eqn:Hex; simpl; [|discriminate].
    intros [= <-]. simpl. exists pairs.
    destruct (paired_extracted_shape _ _ _ Hex) as (Hp & Hx & Hy & Hi & Ho).
    assert (length pairs <= length ms)%nat.
    { pose proof (different_loop_length _ _ _ _ _ Hloop) as Hl. simpl in Hl.
      subst pairs. etransitivity; [apply length_omap_le | exact Hl]. }
    auto 10.
Qed.

(** X8 (graph_generator.py, [_prepare_group_data] with
    [_extract_comparison_same] and [_extract_comparison_different]): in a
    comparison plot, the prepared arrays are aligned with the pairs: point
    [k] has as x and y the values of the two members of
    [measurement_pairs[k]], [measurement_indices] counts the pairs from 0,
    [is_outlier] has one entry per pair, and there are never more pairs
    than measurements. *)
Theorem prepare_group_comparison_aligned (ms : list Measurement) (start : Z)
    (gd : GroupData) :
  comparison_mode config <> NONE ->
  _prepare_group_data config ms start = Ok gd ->
  exists pairs : list (Measurement * Measurement),
    measurement_pairs gd = Some pairs
    /\ (length pairs <= length ms)%nat
    /\ map (fun x => Some (xval_float x)) (x_data gd)
       = map (fun p => measurement (fst p)) pairs
    /\ map Some (y_data gd) = map (fun p => measurement (snd p)) pairs
    /\ measurement_indices gd = seq 0 (length pairs)
    /\ length (is_outlier gd) = length pairs.
Proof.
  intros Hmode Hprep.
  destruct (prepare_group_comparison_shape ms start gd Hmode Hprep)
    as (pairs & _ & Hrest).
  exists pairs. exact Hrest.
Qed.

(** X9 (graph_generator.py, [_plot_scatter] with [_prepare_group_data]): in
    a comparison plot, registering the points never raises, and point [k]
    is registered to the k-th measurement of the list that was prepared,
    not to a member of the pair the point plots: the indices stored with
    the pairs count pairs, and the registration reads them as positions in
    the measurement list. *)
Theorem register_group_comparison (ms : list Measurement) (start : Z) (gd : GroupData)
    (item_id : Z) (pmap : gmap (Z * Z) Measurement) :
  comparison_mode config <> NONE ->
  _prepare_group_data config ms start = Ok gd ->
  exists pmap' : gmap (Z * Z) Measurement,
    register_group item_id gd pmap = (Ok tt, pmap')
    /\ (forall k : nat, (k < length (x_data gd))%nat ->
                        pmap' !! (item_id, Z.of_nat k) = ms !! k
                        /\ is_Some (ms !! k))
    /\ (forall key : Z * Z,
           ~ (exists k, (k < length (x_data gd))%nat /\ key = (item_id, Z.of_nat k)) ->
           pmap' !! key = pmap !! key).
Proof.
  intros Hmode Hprep.
  destruct (prepare_group_comparison_shape ms start gd Hmode Hprep)
    as (pairs & Hms & _ & Hle & Hx & Hy & Hidx & _).
  assert (Hlx : length (x_data gd) = length pairs).
  { apply (f_equal length) in Hx. now rewrite !length_map in Hx. }
  assert (Hly : length (y_data gd) = length pairs).
  { apply (f_equal length) in Hy. now rewrite !length_map in Hy. }
  assert (Hreg : forall k, (k < length (x_data gd))%nat -> registered gd k = ms !! k).
  { intros k Hk. unfold registered. rewrite Hidx, Hms, lookup_seq_lt by lia. reflexivity. }
  assert (Hsome : forall k, (k < length (x_data gd))%nat -> is_Some (ms !! k)).
  { intros k Hk. apply lookup_lt_is_Some_2. lia. }
  destruct (register_group_spec item_id gd pmap) as (pmap' & Hgroup & Hin & Hout).
  { lia. }
  { intros k Hk. rewrite Hreg by exact Hk. now apply Hsome. }
  exists pmap'. split; [exact Hgroup|]. split; [|exact Hout].
  intros k Hk. split; [|now apply Hsome]. rewrite Hin by exact Hk. now apply Hreg.
Qed.

End ComparisonPoints.

Lemma prepare_group_comparison_aligned_witness :
  exists (gd : GroupData) (pairs : list (Measurement * Measurement)),
    @_prepare_group_data sequential_runtime (same_measurement_config two_on_a) two_on_a 0
    = Ok gd
    /\ measurement_pairs gd = Some pairs
    /\ (length pairs <= length two_on_a)%nat
    /\ map (fun x => Some (xval_float x)) (x_data gd)
       = map (fun p => measurement (fst p)) pairs
    /\ map Some (y_data gd) = map (fun p => measurement (snd p)) pairs
    /\ measurement_indices gd = seq 0 (length pairs)
    /\ length (is_outlier gd) = length pairs.
Proof.
  eexists ?[gd].
  destruct (@prepare_group_comparison_aligned sequential_runtime
              (same_measurement_config two_on_a) two_on_a 0 ?gd)
    as (pairs & Hrest); [discriminate | vm_compute; reflexivity |].
  exists pairs. split; [vm_compute; reflexivity | exact Hrest].
Defined.

Lemma register_group_comparison_witness :
  exists (gd : GroupData) (pmap' : gmap (Z * Z) Measurement),
    @_prepare_group_data sequential_runtime (same_measurement_config two_on_a) two_on_a 0
    = Ok gd
    /\ measurement_pairs gd
       = Some [(reading 2 "Gain" (Some 2%float) "A" "SN1" "P1",
                reading 3 "Gain" (Some 3%float) "B" "SN1" "P1")]
    /\ register_group 1 gd ∅ = (Ok tt, pmap')
    /\ pmap' !! (1, 0)%Z = Some (reading 1 "Gain" (Some 1%float) "A" "SN1" "P1").
Proof.
  eexists ?[gd].
  destruct (@register_group_comparison sequential_runtime
              (same_measurement_config two_on_a) two_on_a 0 ?gd 1 ∅)
    as (pmap' & Hgroup & Hpoint & _); [discriminate | vm_compute; reflexivity |].
  exists pmap'. split; [vm_compute; reflexivity|]. split; [reflexivity|].
  split; [exact Hgroup|].
  apply (Hpoint 0%nat). vm_compute. lia.
Defined.

(** ** The prepared data as a whole *)

Lemma pydict_append_cons_ne {K A : Type} `{EqDecision K} (k k' : K) (x : A) (l' : list A)
    (d : list (K * list A)) :
  k' <> k -> pydict_append k x ((k', l') :: d) = (k', l') :: pydict_append k x d.
Proof.
  intros Hne. unfold pydict_append. rewrite pydict_get_cons.
  rewrite bool_decide_eq_false_2 by exact Hne.
  destruct (pydict_get k d); simpl; now rewrite bool_decide_eq_false_2 by exact Hne.
Qed.

Lemma pydict_append_cons_eq {K A : Type} `{EqDecision K} (k : K) (x : A) (l' : list A)
    (d : list (K * list A)) :
  pydict_append k x ((k, l') :: d) = (k, l' ++ [x]) :: d.
Proof.
  unfold pydict_append. rewrite pydict_get_cons.
  rewrite bool_decide_eq_true_2 by reflexivity. simpl.
  now rewrite bool_decide_eq_true_2 by reflexivity.
Qed.

(** The number of elements of the groups of [d] that satisfy [p]. *)
Lemma pydict_append_count {K A : Type} `{EqDecision K} (p : A -> bool) (k : K) (x : A)
    (d : list (K * list A)) :
  sum_list (map (fun g => length (List.filter p (snd g))) (pydict_append k x d))
  = (sum_list (map (fun g => length (List.filter p (snd g))) d)
     + (if p x then 1 else 0))%nat.
Proof.
  induction d as [|[k' l'] d IH].
  - unfold pydict_append. simpl. destruct (p x); simpl; lia.
  - destruct (decide (k' = k)) as [->|Hne].
    + rewrite pydict_append_cons_eq. simpl. rewrite List.filter_app, length_app. simpl.
      destruct (p x); simpl; lia.
    + rewrite pydict_append_cons_ne by exact Hne. simpl. rewrite IH. lia.
Qed.

Section PreparedData.
Context `{NumericRuntime}.
Variable config : GraphConfig.

Lemma get_grouped_data_count (p : Measurement -> bool) (ms : list Measurement)
    (field : string) :
  sum_list (map (fun g => length (List.filter p (snd g))) (get_grouped_data ms field))
  = length (List.filter p ms).
Proof.
  unfold get_grouped_data.
  generalize (default field (pydict_get field field_mapping)). intros path.
  assert (Hgen : forall acc : list (string * list Measurement),
             sum_list (map (fun g => length (List.filter p (snd g)))
                         (fold_left (fun groups m => pydict_append (group_key path m) m groups)
                                    ms acc))
             = (sum_list (map (fun g => length (List.filter p (snd g))) acc)
                + length (List.filter p ms))%nat).
  { induction ms as [|m ms IH]; intros acc; simpl; [lia|].
    rewrite IH, pydict_append_count. destruct (p m); simpl; lia. }
  rewrite Hgen. simpl. lia.
Qed.

Lemma groups_of_count (p : Measurement -> bool) (ms : list Measurement) :
  sum_list (map (fun g => length (List.filter p (snd g))) (groups_of config ms))
  = length (List.filter p ms).
Proof.
  unfold groups_of.
  destruct (bool_decide (comparison_mode config ≠ NONE)); [simpl; lia|].
  destruct (opt_truthy (group_by_field config)); [|simpl; lia].
  apply get_grouped_data_count.
Qed.

Lemma group_loop_totals (gs : list (string * list Measurement)) :
  forall st st' : GroupLoop,
    group_loop config gs st = Ok st' ->
    NoDup (pydict_keys gs) ->
    (forall k, k ∈ pydict_keys gs -> k ∉ pydict_keys (gl_prepared_groups st)) ->
    exists datas : list (string * GroupData),
      gl_prepared_groups st' = gl_prepared_groups st ++ datas
      /\ Forall2 (fun g d => fst d = fst g
                             /\ exists start, _prepare_group_data config (snd g) start
                                              = Ok (snd d)) gs datas
      /\ gl_total_points st'
         = (gl_total_points st + sum_list (map (fun d => length (x_data (snd d))) datas))%nat
      /\ gl_has_plots st'
         = existsb (fun d => gd_has_plots (snd d)) datas || gl_has_plots st.
Proof.
  induction gs as [|[gname gms] gs IH]; intros st st' Hrun Hnd Hfresh; simpl in Hrun.
  - injection Hrun as <-. exists []. rewrite app_nil_r. simpl.
    split; [reflexivity|]. split; [constructor|]. split; [lia | reflexivity].
  - destruct (_prepare_group_data config gms (gl_global_x_index st)) as [gd|e] eqn:Hgd;
      simpl in Hrun; [|discriminate].
    unfold pydict_keys in Hnd. simpl in Hnd. apply NoDup_cons in Hnd as [Hgname Hnd].
    assert (Hnew : gname ∉ pydict_keys (gl_prepared_groups st)).
    { apply Hfresh. unfold pydict_keys. simpl. apply elem_of_cons. now left. }
    apply IH in Hrun; [| exact Hnd |].
    + destruct Hrun as (datas & Hgroups & Hall & Htotal & Hplots).
      simpl in Hgroups, Htotal, Hplots.
      exists ((gname, gd) :: datas). split; [|split; [|split]].
      * rewrite Hgroups, pydict_set_fresh by exact Hnew. now rewrite <- app_assoc.
      * constructor; [|exact Hall]. simpl. split; [reflexivity|]. eauto.
      * rewrite Htotal. simpl. destruct (length (x_data gd)); simpl; lia.
      * rewrite Hplots. simpl. destruct (gd_has_plots gd), (existsb _ datas); reflexivity.
    + intros k Hk. simpl. rewrite pydict_keys_set.
      rewrite bool_decide_eq_false_2 by exact Hnew.
      rewrite elem_of_app, list_elem_of_singleton. intros [Hin|Heq].
      * revert Hin. apply Hfresh. unfold pydict_keys. simpl. apply elem_of_cons. now right.
      * subst k. now apply Hgname.
Qed.

Lemma build_prepared_data_groups (pd : PreparedData) :
  build_prepared_data config = Ok pd ->
  Forall2 (fun g d => fst d = fst g
                      /\ exists start, _prepare_group_data config (snd g) start = Ok (snd d))
          (groups_of config (measurements config)) (groups pd)
  /\ total_points (metadata pd)
     = sum_list (map (fun d => length (x_data (snd d))) (groups pd))
  /\ md_has_plots (metadata pd) = existsb (fun d => gd_has_plots (snd d)) (groups pd).
Proof.
  unfold build_prepared_data.
  destruct (measurements config) as [|m0 ms0] eqn:Hms; [discriminate|].
  destruct (group_loop config _ _) as [st|e] eqn:Hloop; simpl; [|discriminate].
  intros [= <-]. simpl.
  destruct (group_loop_totals _ _ _ Hloop) as (datas & Hgroups & Hall & Htotal & Hplots).
  { apply groups_of_NoDup. }
  { intros k _. simpl. apply not_elem_of_nil. }
  simpl in Hgroups, Htotal, Hplots. rewrite Hgroups, Htotal, Hplots.
  split; [exact Hall|]. split; [reflexivity | apply orb_false_r].
Qed.

(** X10 (graph_generator.py, [prepare_data]): the metadata agree with the
    groups: the prepared groups are those of the grouping step, in its
    order and under its names, [total_points] is the number of points of
    all groups together, and [has_plots] says whether some group has
    plots. *)
Theorem prepare_data_metadata (pd : PreparedData) :
  build_prepared_data config = Ok pd ->
  pydict_keys (groups pd) = pydict_keys (groups_of config (measurements config))
  /\ total_points (metadata pd)
     = sum_list (map (fun d => length (x_data (snd d))) (groups pd))
  /\ md_has_plots (metadata pd) = existsb (fun d => gd_has_plots (snd d)) (groups pd).
Proof.
  intros Hpd. destruct (build_prepared_data_groups pd Hpd) as (Hall & Htotal & Hplots).
  split; [|split; [exact Htotal | exact Hplots]].
  unfold pydict_keys. clear Htotal Hplots.
  induction Hall as [|g d gs ds [Hname _] _ IH]; simpl; [reflexivity|].
  now rewrite Hname, IH.
Qed.

(** X11 (graph_generator.py, [prepare_data] with [_extract_standard_data]
    and [get_grouped_data]): in a standard plot, [total_points] is the
    number of measurements that are not overlaid plots, whatever the
    grouping: every such measurement becomes exactly one point. *)
Theorem prepare_data_total_points (pd : PreparedData) :
  comparison_mode config = NONE ->
  build_prepared_data config = Ok pd ->
  total_points (metadata pd) = length (points_of (measurements config)).
Proof.
  intros Hmode Hpd. destruct (build_prepared_data_groups pd Hpd) as (Hall & Htotal & _).
  rewrite Htotal. unfold points_of.
  rewrite <- (groups_of_count is_point (measurements config)).
  clear Htotal. induction Hall as [|g d gs ds [_ [start Hgd]] _ IH]; simpl; [reflexivity|].
  rewrite IH. f_equal.
  unfold _prepare_group_data in Hgd. rewrite Hmode in Hgd.
  destruct (_extract_standard_data config (snd g) start) as [ex|e] eqn:Hex; simpl in Hgd;
    [|discriminate].
  injection Hgd as <-. simpl.
  now destruct (extract_standard_aligned_lemma config (snd g) start ex Hex) as (_ & _ & Hx & _).
Qed.



End PreparedData.

Lemma prepare_data_metadata_witness :
  exists pd : PreparedData,
    @build_prepared_data sequential_runtime (grouped_config three_and_four "test_fixture")
    = Ok pd
    /\ pydict_keys (groups pd) = ["A"; "B"]%string
    /\ total_points (metadata pd) = 7%nat.
Proof.
  eexists ?[pd].
  destruct (@prepare_data_metadata sequential_runtime
              (grouped_config three_and_four "test_fixture") ?pd) as (Hkeys & Htotal & _).
  { vm_compute. reflexivity. }
  split; [vm_compute; reflexivity|]. split; [exact Hkeys | exact Htotal].
Defined.

Lemma prepare_data_total_points_witness :
  exists pd : PreparedData,
    @build_prepared_data sequential_runtime (default_config readings_and_plot) = Ok pd
    /\ total_points (metadata pd) = 3%nat.
Proof.
  eexists ?[pd].
  pose proof (@prepare_data_total_points sequential_runtime
                (default_config readings_and_plot) ?pd eq_refl) as Htotal.
  split; [vm_compute; reflexivity|].
  apply Htotal. vm_compute. reflexivity.
Defined.


(** ** The pairing strategy *)

Section PairingStrategy.
Variable config : GraphConfig.

Lemma best_loop_chooses (ms : list Measurement) :
  Forall (fun m => has_value m = true) ms ->
  forall (best : option Measurement) (best_score : float),
  exists o : option Measurement,
    best_loop ms best best_score = Ok o
    /\ (o = best \/ exists m, o = Some m /\ m ∈ ms).
Proof.
  induction 1 as [|m ms Hm _ IH]; intros best best_score; simpl.
  - exists best. auto.
  - destruct (nominal m) as [nom|].
    + unfold nominal_score. unfold has_value in Hm.
      destruct (measurement m) as [v|]; [|discriminate]. simpl.
      destruct (PrimFloat.ltb _ best_score).
      * destruct (IH (Some m) (PrimFloat.abs (PrimFloat.sub v nom)))
          as (o & Ho & [->|(m' & -> & Hin)]).
        -- exists (Some m). split; [exact Ho|]. right. exists m.
           split; [reflexivity | apply list_elem_of_here].
        -- exists (Some m'). split; [exact Ho|]. right. exists m'.
           split; [reflexivity | now apply list_elem_of_further].
      * destruct (IH best best_score) as (o & Ho & [->|(m' & -> & Hin)]).
        -- exists best. auto.
        -- exists (Some m'). split; [exact Ho|]. right. exists m'.
           split; [reflexivity | now apply list_elem_of_further].
    + destruct (IH best best_score) as (o & Ho & [->|(m' & -> & Hin)]).
      * exists best. auto.
      * exists (Some m'). split; [exact Ho|]. right. exists m'.
        split; [reflexivity | now apply list_elem_of_further].
Qed.

Lemma last_elem_of {A : Type} (l : list A) (x : A) : last l = Some x -> x ∈ l.
Proof.
  intros Hlast. apply last_Some in Hlast as [l' ->].
  apply elem_of_app. right. apply list_elem_of_here.
Qed.

Lemma last_is_Some_cons {A : Type} (x : A) (l : list A) : is_Some (last (x :: l)).
Proof. apply last_is_Some. discriminate. Qed.

(** X13 (graph_generator.py, [_apply_pairing_strategy]): on a non-empty
    list of valued records the strategy never raises and always chooses a
    record of the list: the first one for ['first'], the last one for
    ['last'] and for any strategy name it does not know; on an empty list
    it chooses none. *)
Theorem apply_pairing_strategy_chooses (ms : list Measurement) :
  Forall (fun m => has_value m = true) ms ->
  match ms with
  | [] => _apply_pairing_strategy config ms = Ok None
  | _ :: _ =>
      exists m : Measurement,
        _apply_pairing_strategy config ms = Ok (Some m)
        /\ m ∈ ms
        /\ (pairing_strategy config = "first"%string -> head ms = Some m)
        /\ (pairing_strategy config <> "first"%string ->
            pairing_strategy config <> "best"%string -> last ms = Some m)
  end.
Proof.
  intros Hall. destruct ms as [|m0 ms]; [reflexivity|].
  unfold _apply_pairing_strategy.
  destruct (last_is_Some_cons m0 ms) as [ml Hlast].
  destruct (String.eqb_spec (pairing_strategy config) "first") as [Hfirst|Hfirst].
  { exists m0. split; [reflexivity|]. split; [apply list_elem_of_here|].
    split; [reflexivity | congruence]. }
  destruct (String.eqb_spec (pairing_strategy config) "last") as [Hl|Hl].
  { exists ml. rewrite Hlast. split; [reflexivity|]. split; [now apply last_elem_of|].
    split; [congruence | intros _ _; reflexivity]. }
  destruct (String.eqb_spec (pairing_strategy config) "best") as [Hbest|Hbest].
  - destruct (best_loop_chooses (m0 :: ms) Hall None infinity) as (o & Ho & Hin).
    rewrite Ho. simpl. destruct Hin as [->|(m & -> & Hin)].
    + exists ml. rewrite Hlast. split; [reflexivity|]. split; [now apply last_elem_of|].
      split; congruence.
    + exists m. split; [reflexivity|]. split; [exact Hin|]. split; congruence.
  - exists ml. rewrite Hlast. split; [reflexivity|]. split; [now apply last_elem_of|].
    split; [congruence | intros _ _; reflexivity].
Qed.

End PairingStrategy.

Lemma apply_pairing_strategy_chooses_witness :
  exists m : Measurement,
    _apply_pairing_strategy (same_measurement_config two_on_a) two_on_a = Ok (Some m)
    /\ m ∈ two_on_a
    /\ (pairing_strategy (same_measurement_config two_on_a) = "first"%string ->
        head two_on_a = Some m)
    /\ (pairing_strategy (same_measurement_config two_on_a) <> "first"%string ->
        pairing_strategy (same_measurement_config two_on_a) <> "best"%string ->
        last two_on_a = Some m).
Proof.
  apply (apply_pairing_strategy_chooses (same_measurement_config two_on_a) two_on_a).
  repeat constructor.
Defined.

(** ** Dictionaries filled by overwriting *)

Lemma omap_cons_unfold {A B : Type} (f : A -> option B) (x : A) (l : list A) :
  omap f (x :: l) = match f x with Some y => y :: omap f l | None => omap f l end.
Proof. reflexivity. Qed.

Lemma omap_ext_in {A B : Type} (f g : A -> option B) (l : list A) :
  (forall x, x ∈ l -> f x = g x) -> omap f l = omap g l.
Proof.
  induction l as [|x l IH]; intros Hext; csimpl; [reflexivity|].
  rewrite (Hext x) by apply list_elem_of_here.
  rewrite IH; [reflexivity|]. intros y Hy. apply Hext. now apply list_elem_of_further.
Qed.


Section LastWins.
Context {A K : Type} `{EqDecision K}.
Variable key : A -> option K.

Lemma file_last_get (l : list A) (acc : list (K * A)) (k : K) :
  pydict_get k (file_last key l acc)
  = match last (filter (fun x => key x = Some k) l) with
    | Some x => Some x
    | None => pydict_get k acc
    end.
Proof.
  unfold file_last. revert acc.
  induction l as [|x l IH]; intros acc; simpl; [reflexivity|].
  rewrite IH. rewrite filter_cons.
  destruct (key x) as [k0|] eqn:Hx.
  - destruct (decide (Some k0 = Some k)) as [[= ->]|Hne].
    + rewrite pydict_get_set, bool_decide_eq_true_2 by reflexivity.
      destruct (filter _ l) as [|y fl] eqn:Hfl; [reflexivity|].
      rewrite (last_cons x (y :: fl)). now destruct (last (y :: fl)).
    + rewrite pydict_get_set, bool_decide_eq_false_2 by congruence. reflexivity.
  - destruct (decide (None = Some k)); [discriminate | reflexivity].
Qed.



Lemma file_last_get_nil (l : list A) (k : K) :
  pydict_get k (file_last key l []) = last (filter (fun x => key x = Some k) l).
Proof. rewrite file_last_get. now destruct (last _). Qed.

End LastWins.

(** ** Comparing two different measurements *)

Section DifferentMeasurements.
Context `{NumericRuntime}.
Variable config : GraphConfig.



Lemma different_loop_raises (ms : list Measurement) :
  Exists (fun m => sub_test m = None) ms ->
  forall xm ym : list (Z * Measurement),
    different_loop config ms xm ym = Raise AttributeError.
Proof.
  induction ms as [|m ms IH]; intros Hex xm ym; [now apply Exists_nil in Hex|].
  simpl. destruct (sub_test m) as [st|] eqn:Hst; [|reflexivity].
  apply Exists_cons in Hex as [Hm|Hex]; [congruence|].
  repeat match goal with
         | |- context [if ?b then _ else _] => destruct b
         end; now apply IH.
Qed.



Lemma last_filter_prop {A : Type} (P : A -> Prop) `{!forall x, Decision (P x)}
    (l : list A) (x : A) :
  last (filter P l) = Some x -> P x /\ x ∈ l.
Proof.
  intros Hlast. apply last_elem_of in Hlast. now apply list_elem_of_filter in Hlast.
Qed.






(** X15 (graph_generator.py, [_extract_comparison_different]): a single
    measurement without sub-test makes the comparison of two different
    measurements raise [AttributeError], whatever its name and wherever it
    stands in the list. *)
Theorem extract_comparison_different_no_sub_test (ms : list Measurement) :
  Exists (fun m => sub_test m = None) ms ->
  _extract_comparison_different config ms = Raise AttributeError.
Proof.
  intros Hex. unfold _extract_comparison_different.
  now rewrite (different_loop_raises ms Hex).
Qed.

End DifferentMeasurements.


Lemma extract_comparison_different_no_sub_test_witness :
  @_extract_comparison_different sequential_runtime (different_config readings_and_plot)
    readings_and_plot = Raise AttributeError.
Proof.
  apply (@extract_comparison_different_no_sub_test sequential_runtime
           (different_config readings_and_plot) readings_and_plot).
  apply Exists_cons_tl, Exists_cons_hd. reflexivity.
Defined.

(** ** Pairing with manufacturer data *)

Lemma mfr_by_serial_of_last (data : list ManufacturerEntry) (serial : string) :
  pydict_get serial (mfr_by_serial_of data) = mfr_entry_for data serial.
Proof.
  unfold mfr_by_serial_of, mfr_entry_for.
  change (fold_left (fun d e => pydict_set (me_device_serial e) e d) data [])
    with (file_last (fun e => Some (me_device_serial e)) data []).
  rewrite file_last_get_nil. f_equal. apply list_filter_iff. intros e.
  split; [now intros [= ->] | now intros ->].
Qed.

Lemma pair_with_manufacturer_data_lemma (ours : list Measurement)
    (data : list ManufacturerEntry) :
  _pair_with_manufacturer_data ours data = omap (manufacturer_pair data) ours.
Proof.
  unfold _pair_with_manufacturer_data. destruct data as [|e0 data].
  - induction ours as [|m ours IH]; [reflexivity|]. csimpl.
    unfold manufacturer_pair at 1. unfold mfr_entry_for. simpl.
    destruct (_get_device_serial m) as [serial|]; [|exact IH].
    destruct (str_truthy serial); exact IH.
  - apply omap_ext_in. intros m _. unfold manufacturer_pair.
    destruct (_get_device_serial m) as [serial|]; [|reflexivity].
    now rewrite mfr_by_serial_of_last.
Qed.

(** X16 (graph_page.py, [_pair_with_manufacturer_data]): our measurements
    are paired with the manufacturer data one by one, in their order: a
    measurement gives a pair exactly when its device has a non-empty
    serial, it has a value, and the manufacturer entry in force for that
    serial has a value; when the data hold several entries for a serial,
    the last one is in force.  The early return on empty data follows the
    same rule. *)
Theorem pair_with_manufacturer_data_spec (ours : list Measurement)
    (data : list ManufacturerEntry) :
  _pair_with_manufacturer_data ours data = omap (manufacturer_pair data) ours.
Proof. exact (pair_with_manufacturer_data_lemma ours data). Qed.

(** X17 (graph_page.py, [_pair_with_manufacturer_data]): every pair is
    consistent: its device id is the serial of its own measurement, its
    value is that measurement's value, and the manufacturer value comes
    from an entry of the data with the same serial; the pairs keep the
    order of our measurements and there is at most one per measurement. *)
Theorem pair_with_manufacturer_data_consistent (ours : list Measurement)
    (data : list ManufacturerEntry) :
  Forall (fun p =>
            _get_device_serial (mp_our_measurement p) = Some (mp_device_id p)
            /\ measurement (mp_our_measurement p) = Some (mp_our_value p)
            /\ exists e, e ∈ data
                         /\ me_device_serial e = mp_device_id p
                         /\ me_measurement e = Some (mp_mfr_value p))
         (_pair_with_manufacturer_data ours data)
  /\ sublist (map mp_our_measurement (_pair_with_manufacturer_data ours data)) ours.
Proof.
  rewrite pair_with_manufacturer_data_lemma. split.
  - apply Forall_forall. intros p Hp.
    apply list_elem_of_omap in Hp as (m & _ & Hm). unfold manufacturer_pair in Hm.
    destruct (_get_device_serial m) as [serial|] eqn:Hs; [|discriminate].
    destruct (str_truthy serial); [|discriminate].
    destruct (mfr_entry_for data serial) as [e|] eqn:He; [|discriminate].
    destruct (measurement m) as [v|] eqn:Hv; [|discriminate].
    destruct (me_measurement e) as [w|] eqn:Hw; [|discriminate].
    injection Hm as <-. simpl. split; [exact Hs|]. split; [exact Hv|].
    exists e. apply last_filter_prop in He as [Hser Hin]. auto.
  - induction ours as [|m ours IH]; csimpl; [constructor|].
    destruct (manufacturer_pair data m) as [p|] eqn:Hp; csimpl.
    + assert (mp_our_measurement p = m) as ->.
      { unfold manufacturer_pair in Hp.
        repeat match type of Hp with
               | match ?x with _ => _ end = _ => destruct x; try discriminate
               | (if ?x then _ else _) = _ => destruct x; try discriminate
               end.
        now injection Hp as <-. }
      now apply sublist_skip.
    + now apply sublist_cons.
Qed.

(** ** Stable sorting, any order *)

Section SortedAny.
Context {A : Type}.
Variable le : A -> A -> bool.

Lemma sorted_insert_perm (x : A) (s : list A) : sorted_insert le x s ≡ₚ x :: s.
Proof.
  induction s as [|y s IH]; simpl; [reflexivity|].
  destruct (le x y); [reflexivity|]. rewrite IH. apply perm_swap.
Qed.

Lemma py_sorted_perm (l : list A) : py_sorted le l ≡ₚ l.
Proof.
  induction l as [|x l IH]; simpl; [reflexivity|].
  rewrite sorted_insert_perm. now rewrite IH.
Qed.

Hypothesis le_total : forall x y, le x y = true \/ le y x = true.
Hypothesis le_trans : forall x y z, le x y = true -> le y z = true -> le x z = true.

Lemma py_sorted_StronglySorted (l : list A) :
  StronglySorted (fun a b => le a b = true) (py_sorted le l).
Proof using le_total le_trans.
  apply Sorted_StronglySorted.
  - intros x y z. apply le_trans.
  - now apply py_sorted_Sorted.
Qed.

Lemma StronglySorted_last (s : list A) (z : A) :
  StronglySorted (fun a b => le a b = true) s ->
  last s = Some z -> forall y, y ∈ s -> le y z = true.
Proof using le_total.
  induction 1 as [|x s Hs IH Hx]; intros Hlast y Hy; [now apply elem_of_nil in Hy|].
  destruct s as [|x' s].
  - injection Hlast as <-. apply list_elem_of_singleton in Hy as ->.
    now destruct (le_total x x).
  - rewrite last_cons_cons in Hlast. apply elem_of_cons in Hy as [->|Hy].
    + eapply Forall_forall in Hx; [exact Hx|]. now apply last_Some_elem_of.
    + now apply IH.
Qed.

Lemma py_sorted_ends (l : list A) (first_m last_m : A) :
  head (py_sorted le l) = Some first_m ->
  last (py_sorted le l) = Some last_m ->
  first_m ∈ l /\ last_m ∈ l
  /\ forall y, y ∈ l -> le first_m y = true /\ le y last_m = true.
Proof using le_total le_trans.
  intros Hhead Hlast. pose proof (py_sorted_StronglySorted l) as Hsorted.
  pose proof (py_sorted_perm l) as Hperm.
  split; [rewrite <- Hperm; now apply head_Some_elem_of|].
  split; [rewrite <- Hperm; now apply last_Some_elem_of|].
  intros y Hy. rewrite <- Hperm in Hy. split.
  - destruct (py_sorted le l) as [|x s]; [discriminate|]. injection Hhead as ->.
    apply StronglySorted_inv in Hsorted as [_ Hx].
    apply elem_of_cons in Hy as [->|Hy].
    + now destruct (le_total first_m first_m).
    + eapply Forall_forall in Hx; [exact Hx | exact Hy].
  - now apply (StronglySorted_last _ _ Hsorted Hlast).
Qed.

End SortedAny.

(** ** Pairing the first and the last test of a device *)

Lemma first_last_devices_of_group (ms : list Measurement) :
  first_last_devices_of ms
  = map (fun s => (s, filter (fun m => first_last_device m = Some s) ms))
        (first_seen (omap first_last_device ms)).
Proof.
  transitivity (group_by_with first_last_device (fun m => m) ms []).
  - unfold first_last_devices_of, group_by_with.
    generalize (@nil (string * list Measurement)).
    induction ms as [|m ms IH]; intros acc; simpl; [reflexivity|].
    rewrite IH. f_equal. unfold first_last_device.
    destruct (_get_device_serial m) as [serial|]; [|reflexivity].
    now destruct (str_truthy serial && has_value m).
  - rewrite group_by_with_canonical. apply map_ext. intros s. now rewrite map_id.
Qed.

Lemma first_last_device_valued (m : Measurement) (s : string) :
  first_last_device m = Some s ->
  _get_device_serial m = Some s /\ has_value m = true.
Proof.
  unfold first_last_device. destruct (_get_device_serial m) as [serial|]; [|discriminate].
  destruct (str_truthy serial); simpl; [|discriminate].
  destruct (has_value m); [|discriminate]. now intros [= ->].
Qed.

Section FirstLastTests.
Variable datetime_le : Datetime -> Datetime -> bool.
Variable datetime_min : Datetime.
Hypothesis datetime_le_total : forall a b, datetime_le a b = true \/ datetime_le b a = true.
Hypothesis datetime_le_trans :
  forall a b c, datetime_le a b = true -> datetime_le b c = true -> datetime_le a c = true.

Lemma created_le_total (a b : Measurement) :
  created_le datetime_le datetime_min a b = true
  \/ created_le datetime_le datetime_min b a = true.
Proof using datetime_le_total. apply datetime_le_total. Qed.

Lemma created_le_trans (a b c : Measurement) :
  created_le datetime_le datetime_min a b = true ->
  created_le datetime_le datetime_min b c = true ->
  created_le datetime_le datetime_min a c = true.
Proof using datetime_le_trans. apply datetime_le_trans. Qed.

(** X18 (graph_page.py, [_pair_first_last_tests]): under a total order of
    dates, every pair is made of two valued records of the input that
    belong to the device the pair names, and no valued record of that
    device is dated before the pair's first test or after its last test (a
    record without date counts as earliest).  The values of the pair are
    those of the two records, the last test as ours. *)
Theorem pair_first_last_tests_spec (ms : list Measurement) :
  Forall (fun p =>
            fl_other_measurement p ∈ ms /\ fl_our_measurement p ∈ ms
            /\ first_last_device (fl_other_measurement p) = Some (fl_device_id p)
            /\ first_last_device (fl_our_measurement p) = Some (fl_device_id p)
            /\ fl_mfr_value p = measurement (fl_other_measurement p)
            /\ fl_our_value p = measurement (fl_our_measurement p)
            /\ forall m, m ∈ ms -> first_last_device m = Some (fl_device_id p) ->
                 created_le datetime_le datetime_min (fl_other_measurement p) m = true
                 /\ created_le datetime_le datetime_min m (fl_our_measurement p) = true)
         (_pair_first_last_tests datetime_le datetime_min ms).
Proof using datetime_le_total datetime_le_trans.
  unfold _pair_first_last_tests. rewrite first_last_devices_of_group.
  apply Forall_forall. intros p Hp.
  apply list_elem_of_omap in Hp as ([s recs] & Hdev & Hp).
  apply list_elem_of_fmap in Hdev as (s' & Heq & _). simpl in Heq.
  injection Heq as -> ->. cbn [fst snd] in Hp.
  set (recs := filter (fun m => first_last_device m = Some s') ms) in *.
  revert Hp.
  destruct (2 <=? length recs)%nat; [|discriminate].
  destruct (head (py_sorted (created_le datetime_le datetime_min) recs)) as [first_m|] eqn:Hhead;
    [|discriminate].
  destruct (last (py_sorted (created_le datetime_le datetime_min) recs)) as [last_m|] eqn:Hlast;
    [|discriminate].
  destruct (has_value first_m && has_value last_m); [|discriminate].
  intros [= <-]. simpl.
  destruct (py_sorted_ends (created_le datetime_le datetime_min) created_le_total created_le_trans
              recs first_m last_m Hhead Hlast) as (Hf & Hl & Hall).
  subst recs. apply list_elem_of_filter in Hf as [Hfdev Hf], Hl as [Hldev Hl].
  repeat split; try assumption; try reflexivity.
  - apply Hall. now apply list_elem_of_filter.
  - apply Hall. now apply list_elem_of_filter.
Qed.

(** X19 (graph_page.py, [_pair_first_last_tests]): there is one pair for
    each device that has at least two valued records, and none for any
    other; the pairs come in the order in which the devices are first
    met. *)
Theorem pair_first_last_tests_devices (ms : list Measurement) :
  map fl_device_id (_pair_first_last_tests datetime_le datetime_min ms)
  = filter (fun s => (2 <= length (filter (fun m => first_last_device m = Some s) ms))%nat)
           (first_seen (omap first_last_device ms)).
Proof.
  unfold _pair_first_last_tests. rewrite first_last_devices_of_group.
  induction (first_seen (omap first_last_device ms)) as [|s names IH]; [reflexivity|].
  rewrite filter_cons. cbn [map]. rewrite omap_cons_unfold. cbn [fst snd].
  rewrite <- IH. clear IH.
  set (recs := filter (fun m => first_last_device m = Some s) ms).
  destruct (decide (2 <= length recs)%nat) as [Hlen|Hlen].
  - rewrite (proj2 (Nat.leb_le _ _) Hlen).
    pose proof (py_sorted_perm (created_le datetime_le datetime_min) recs) as Hperm.
    assert (Hne : py_sorted (created_le datetime_le datetime_min) recs <> []).
    { intros Hnil. rewrite Hnil in Hperm. apply Permutation_length in Hperm.
      simpl in Hperm. lia. }
    destruct (head (py_sorted (created_le datetime_le datetime_min) recs)) as [first_m|] eqn:Hhead;
      [|now apply head_None in Hhead].
    destruct (last (py_sorted (created_le datetime_le datetime_min) recs)) as [last_m|] eqn:Hlast;
      [|now apply last_None in Hlast].
    assert (Hvalued : forall m, m ∈ py_sorted (created_le datetime_le datetime_min) recs ->
                                has_value m = true).
    { intros m Hm. rewrite Hperm in Hm. subst recs.
      apply list_elem_of_filter in Hm as [Hm _].
      now apply first_last_device_valued in Hm. }
    rewrite (Hvalued first_m) by now apply head_Some_elem_of.
    rewrite (Hvalued last_m) by now apply last_Some_elem_of.
    reflexivity.
  - rewrite (proj2 (Nat.leb_gt _ _)) by lia. reflexivity.
Qed.

End FirstLastTests.

Lemma seconds_le_total (a b : Datetime) :
  seconds_le a b = true \/ seconds_le b a = true.
Proof.
  unfold seconds_le.
  destruct (Z.leb_spec (whole_seconds a) (whole_seconds b)); [now left|].
  right. apply Z.leb_le. lia.
Qed.

Lemma seconds_le_trans (a b c : Datetime) :
  seconds_le a b = true -> seconds_le b c = true -> seconds_le a c = true.
Proof. unfold seconds_le. rewrite !Z.leb_le. lia. Qed.

Lemma pair_first_last_tests_spec_witness :
  Forall (fun p =>
            fl_other_measurement p ∈ three_tests /\ fl_our_measurement p ∈ three_tests
            /\ first_last_device (fl_other_measurement p) = Some (fl_device_id p)
            /\ first_last_device (fl_our_measurement p) = Some (fl_device_id p)
            /\ fl_mfr_value p = measurement (fl_other_measurement p)
            /\ fl_our_value p = measurement (fl_our_measurement p)
            /\ forall m, m ∈ three_tests -> first_last_device m = Some (fl_device_id p) ->
                 created_le seconds_le year_one (fl_other_measurement p) m = true
                 /\ created_le seconds_le year_one m (fl_our_measurement p) = true)
         (_pair_first_last_tests seconds_le year_one three_tests).
Proof.
  exact (pair_first_last_tests_spec seconds_le year_one seconds_le_total seconds_le_trans
           three_tests).
Defined.

Example pair_first_last_tests_sample :
  map (fun p => (fl_device_id p, id (fl_other_measurement p), id (fl_our_measurement p)))
      (_pair_first_last_tests seconds_le year_one three_tests)
  = [("SN1"%string, 2%Z, 3%Z)].
Proof. vm_compute. reflexivity. Qed.

(** ** Pairing by test fixture on the page: what a pair holds *)

Lemma page_device_fixture (m : Measurement) (s : string) :
  page_device m = Some s -> _get_test_fixture m = Some (page_fixture m).
Proof.
  unfold page_device, page_fixture.
  destruct (_get_device_serial m); [|discriminate].
  now destruct (_get_test_fixture m).
Qed.

Lemma head_filter_prop {A : Type} (P : A -> Prop) `{!forall x, Decision (P x)}
    (l : list A) (x : A) :
  head (filter P l) = Some x -> P x /\ x ∈ l.
Proof.
  intros Hhead. apply head_Some_elem_of in Hhead. now apply list_elem_of_filter in Hhead.
Qed.

(** X20 (graph_page.py, [_pair_by_test_fixture]): every pair compares one
    device on two different fixtures: its two records are valued records of
    the input that belong to the device the pair names, the first was taken
    on [fixture_a] and the second on [fixture_b], the two fixtures differ,
    and the two values are those of the two records.  No device is paired
    twice. *)
Theorem pair_by_test_fixture_labels (ms : list Measurement) :
  Forall (fun p =>
            exists m_b : Measurement,
              other_measurement p = Some m_b
              /\ label_a p <> label_b p
              /\ _get_test_fixture (our_measurement p) = Some (label_a p)
              /\ _get_test_fixture m_b = Some (label_b p)
              /\ page_device (our_measurement p) = Some (device_id p)
              /\ page_device m_b = Some (device_id p)
              /\ our_measurement p ∈ ms /\ m_b ∈ ms
              /\ our_value p = measurement (our_measurement p)
              /\ mfr_value p = measurement m_b)
         (_pair_by_test_fixture ms)
  /\ NoDup (map device_id (_pair_by_test_fixture ms)).
Proof.
  unfold _pair_by_test_fixture. rewrite device_fixture_data_canonical. split.
  - apply Forall_forall. intros p Hp.
    apply list_elem_of_omap in Hp as ([s fixtures] & Hdev & Hp).
    apply list_elem_of_fmap in Hdev as (s' & Heq & _). simpl in Heq.
    injection Heq as -> ->. cbn [fst snd] in Hp.
    set (recs := filter (fun m => page_device m = Some s') ms) in *.
    pose proof (NoDup_first_seen (map page_fixture recs)) as Hnd.
    rewrite <- first_on_fixture_keys in Hnd. revert Hp.
    destruct (pydict_keys (first_on_fixture recs)) as [|fa [|fb rest]]; try discriminate.
    rewrite !first_on_fixture_get.
    destruct (head (filter (fun m => page_fixture m = fa) recs)) as [m_a|] eqn:Ha;
      [|discriminate].
    destruct (head (filter (fun m => page_fixture m = fb) recs)) as [m_b|] eqn:Hb;
      [|discriminate].
    intros [= <-]. simpl. exists m_b.
    apply head_filter_prop in Ha as [Hfa Ha], Hb as [Hfb Hb].
    subst recs. apply list_elem_of_filter in Ha as [Hda Ha], Hb as [Hdb Hb].
    split; [reflexivity|]. split.
    { apply NoDup_cons in Hnd as [Hnot _]. intros ->. apply Hnot, list_elem_of_here. }
    split; [rewrite <- Hfa; exact (page_device_fixture _ _ Hda)|].
    split; [rewrite <- Hfb; exact (page_device_fixture _ _ Hdb)|].
    auto 10.
  - eapply sublist_NoDup; [apply (NoDup_first_seen (omap page_device ms))|].
    induction (first_seen (omap page_device ms)) as [|s names IH]; [constructor|].
    cbn [map]. rewrite omap_cons_unfold. cbn [fst snd].
    destruct (pydict_keys _) as [|fa [|fb rest]]; try (now apply sublist_cons).
    destruct (pydict_get fa _); [|now apply sublist_cons].
    destruct (pydict_get fb _); [|now apply sublist_cons].
    cbn [map device_id]. now apply sublist_skip.
Qed.

(** ** The point under the cursor *)

Section HitTestingFacts.
Variable map_view_to_scene : float * float -> float * float.
Variable map_scene_to_view : float * float -> float * float.
Variable np_distance : float -> float -> float.

Lemma scan_points_in_range (items : list (Z * PlotItem))
    (histogram_data : option HistogramData) (item_id : Z) (it : PlotItem)
    (xs0 ys0 : list float) (scene_pos : float * float) (threshold : float) :
  (item_id, it) ∈ items ->
  item_class it = ScatterPlotItem ->
  item_x it = Some xs0 -> item_y it = Some ys0 ->
  forall (xs ys : list float) (idx : nat) (st r : Nearest),
    (idx + length xs = length xs0)%nat ->
    (idx + length ys = length ys0)%nat ->
    hit_in_range items histogram_data threshold st ->
    scan_points map_view_to_scene np_distance item_id scene_pos threshold idx xs ys st = Ok r ->
    hit_in_range items histogram_data threshold r.
Proof.
  intros Hin Hclass Hx Hy.
  induction xs as [|x xs IH]; intros ys idx st r Hlx Hly Hst; simpl.
  - now intros [= <-].
  - destruct ys as [|y ys]; [discriminate|]. simpl in Hlx, Hly.
    apply IH; [lia | lia |].
    destruct (PrimFloat.ltb _ (min_distance st) && PrimFloat.ltb _ threshold) eqn:Hnear;
      [|exact Hst].
    apply andb_true_iff in Hnear as [_ Hthr].
    unfold hit_in_range. simpl. exists it. split; [exact Hin|]. rewrite Hclass.
    exists xs0, ys0. repeat split; try assumption; lia.
Qed.

Lemma scan_bars_in_range (items : list (Z * PlotItem)) (h : HistogramData)
    (item_id : Z) (it : PlotItem) (view_pos : float * float) (threshold : float) :
  (item_id, it) ∈ items ->
  item_class it = BarGraphItem ->
  forall (bars : list (float * Z)) (idx : nat) (st : Nearest),
    (forall k bar, bars !! k = Some bar ->
                   hist_x h !! (idx + k)%nat = Some (fst bar)
                   /\ hist_heights h !! (idx + k)%nat = Some (snd bar)) ->
    hit_in_range items (Some h) threshold st ->
    hit_in_range items (Some h) threshold
      (scan_bars item_id view_pos (hist_width h) idx bars st).
Proof.
  intros Hin Hclass.
  induction bars as [|[x_center height] bars IH]; intros idx st Hbars Hst; simpl;
    [exact Hst|].
  assert (Hrest : forall k bar, bars !! k = Some bar ->
                    hist_x h !! (S idx + k)%nat = Some (fst bar)
                    /\ hist_heights h !! (S idx + k)%nat = Some (snd bar)).
  { intros k bar Hk. replace (S idx + k)%nat with (idx + S k)%nat by lia.
    now apply Hbars. }
  destruct (Z.eqb_spec height 0) as [Hzero|Hpos]; [now apply IH|].
  match goal with
  | |- context [if ?c then _ else _] => destruct c
  end; [|now apply IH].
  unfold hit_in_range. simpl. exists it. split; [exact Hin|]. rewrite Hclass.
  destruct (Hbars 0%nat (x_center, height) eq_refl) as [Hx Hh].
  rewrite Nat.add_0_r in Hx, Hh. exists h, x_center, height. auto.
Qed.

Lemma nearest_loop_in_range (all : list (Z * PlotItem))
    (histogram_data : option HistogramData) (scene_pos view_pos : float * float)
    (threshold : float) (items : list (Z * PlotItem)) :
  (forall item, item ∈ items -> item ∈ all) ->
  forall st r : Nearest,
    hit_in_range all histogram_data threshold st ->
    nearest_loop map_view_to_scene np_distance items histogram_data scene_pos view_pos
      threshold st = Ok r ->
    hit_in_range all histogram_data threshold r.
Proof.
  induction items as [|[item_id it] items IH]; intros Hsub st r Hst; simpl.
  - now intros [= <-].
  - assert (Hin : (item_id, it) ∈ all) by apply Hsub, list_elem_of_here.
    assert (Hsub' : forall item, item ∈ items -> item ∈ all).
    { intros item Hitem. now apply Hsub, list_elem_of_further. }
    destruct (item_class it) eqn:Hclass.
    + destruct (item_x it) as [xs|] eqn:Hx; [|discriminate].
      destruct (item_y it) as [ys|] eqn:Hy;
        [|destruct xs; [now apply (IH Hsub') | discriminate]].
      destruct (scan_points _ _ item_id scene_pos threshold 0 xs ys st) as [st'|e] eqn:Hscan;
        simpl; [|discriminate].
      apply (IH Hsub').
      apply (scan_points_in_range all histogram_data item_id it xs ys scene_pos threshold
               Hin Hclass Hx Hy xs ys 0%nat st st');
        [reflexivity | reflexivity | exact Hst | exact Hscan].
    + destruct histogram_data as [h|]; [|now apply (IH Hsub')].
      apply (IH Hsub'). apply (scan_bars_in_range all h item_id it); try assumption.
      intros k bar Hk. simpl. apply lookup_zip_with_Some in Hk as (x & c & -> & Hx & Hc).
      auto.
    + now apply (IH Hsub').
Qed.

(** X21 (graph_generator.py, [_find_nearest_point]): what hit testing
    returns is always usable: either no item and no index, or an item of
    the widget together with an index that is in range for it: the index
    of one of the item's points, closer to the cursor than the threshold,
    or the index of a histogram bar of non-zero count.  It never returns a
    line item, and never an item without an index. *)
Theorem find_nearest_point_in_range (items : list (Z * PlotItem))
    (histogram_data : option HistogramData) (scene_pos : float * float)
    (threshold : float) (r : Nearest) :
  _find_nearest_point map_view_to_scene map_scene_to_view np_distance items histogram_data
    scene_pos threshold = Ok r ->
  hit_in_range items histogram_data threshold r.
Proof.
  unfold _find_nearest_point.
  apply nearest_loop_in_range; [auto|]. exact I.
Qed.

End HitTestingFacts.

Lemma find_nearest_point_in_range_witness :
  exists r : Nearest,
    _find_nearest_point identity_view identity_view euclid_distance [(1%Z, five_item)] None
      (2, 3)%float 20 = Ok r
    /\ nearest_item r = Some 1%Z
    /\ nearest_idx r = Some 2%nat
    /\ hit_in_range [(1%Z, five_item)] None 20 r.
Proof.
  eexists ?[r].
  pose proof (find_nearest_point_in_range identity_view identity_view euclid_distance
                [(1%Z, five_item)] None (2, 3)%float 20 ?r) as Hhit.
  split; [vm_compute; reflexivity|]. split; [reflexivity|]. split; [reflexivity|].
  apply Hhit. vm_compute. reflexivity.
Defined.

(** ** Selection, deletion and the shape of the items *)

Lemma resized_refl (it : PlotItem) : resized it it.
Proof. unfold resized. auto 10. Qed.

Lemma clear_selection_items (g : Generator) (k : Z) :
  match plot_items g !! k with
  | Some it => exists it', plot_items (_clear_selection g) !! k = Some it' /\ resized it it'
  | None => plot_items (_clear_selection g) !! k = None
  end.
Proof.
  assert (Hsame : match plot_items g !! k with
                  | Some it => exists it', plot_items g !! k = Some it' /\ resized it it'
                  | None => plot_items g !! k = None
                  end).
  { destruct (plot_items g !! k) as [it|]; [|reflexivity].
    exists it. split; [reflexivity | apply resized_refl]. }
  unfold _clear_selection. simpl.
  destruct (selected_item g) as [sid|]; [|exact Hsame].
  destruct (plot_items g !! sid) as [sit|] eqn:Hsid; [|exact Hsame].
  destruct (item_class sit) eqn:Hclass; try exact Hsame.
  destruct (original_sizes sit) as [os|] eqn:Hos; [|exact Hsame].
  destruct (decide (k = sid)) as [->|Hne].
  - rewrite Hsid, lookup_insert_eq. eexists. split; [reflexivity|].
    unfold resized. simpl. auto 10.
  - rewrite lookup_insert_ne by congruence. exact Hsame.
Qed.

Lemma resized_well_formed (it it' : PlotItem) :
  well_formed_item it -> resized it it' -> well_formed_item it'.
Proof.
  intros (xs & ys & Hx & Hy & Hlen & Horig & Hsize) (Hc & Hx' & Hy' & Ho & Hs).
  exists xs, ys. rewrite Hx', Hy', Ho. repeat split; try assumption.
  destruct Hs as [->|Hs]; [exact Hsize|].
  rewrite Hs in Horig |- *. destruct (item_size it'); [exact I|].
  split; [exact Horig | discriminate].
Qed.

Lemma clear_selection_well_formed (g : Generator) :
  well_formed_items g -> well_formed_items (_clear_selection g).
Proof.
  intros Hwf k it' Hk Hclass. pose proof (clear_selection_items g k) as Hitems.
  destruct (plot_items g !! k) as [it|] eqn:Hit; [|congruence].
  destruct Hitems as (it'' & Hk' & Hres). rewrite Hk in Hk'. injection Hk' as <-.
  apply (resized_well_formed it it'); [|exact Hres].
  apply (Hwf k it Hit). destruct Hres as (Hc & _). congruence.
Qed.

Lemma py_index_in_range (n : nat) (i : Z) :
  (0 <= i < Z.of_nat n)%Z -> py_index n i = Ok (Z.to_nat i).
Proof.
  intros [Hlo Hhi]. unfold py_index.
  now rewrite (proj2 (Z.leb_le _ _) Hlo), (proj2 (Z.ltb_lt _ _) Hhi).
Qed.

Lemma highlight_sizes_in_range (it : PlotItem) (xs : list float) (os : Sizes)
    (point_idx : Z) (factor : float) :
  item_x it = Some xs ->
  match os with SizeList l => length l = length xs | SizeScalar _ => True end ->
  (0 <= point_idx < Z.of_nat (length xs))%Z ->
  exists sizes : list float,
    highlight_sizes it os point_idx factor = Ok sizes
    /\ length sizes = length xs
    /\ forall k : nat, (k < length xs)%nat ->
         sizes !! k
         = if bool_decide (k = Z.to_nat point_idx)
           then (fun v => PrimFloat.mul v factor) <$> size_at os k
           else size_at os k.
Proof.
  intros Hx Hfit Hidx. unfold highlight_sizes. destruct os as [s|l].
  - rewrite Hx. unfold py_list_set. rewrite length_replicate, py_index_in_range by exact Hidx.
    simpl. eexists. split; [reflexivity|]. split; [now rewrite length_insert, length_replicate|].
    intros k Hk. case_bool_decide as Hkeq.
    + subst k. rewrite list_lookup_insert_eq; [reflexivity|]. now rewrite length_replicate.
    + rewrite list_lookup_insert_ne by congruence. now apply lookup_replicate_2.
  - unfold py_list_get, py_list_set. rewrite Hfit, py_index_in_range by exact Hidx. simpl.
    destruct (lookup_lt_is_Some_2 l (Z.to_nat point_idx)) as [v Hv]; [lia|].
    rewrite Hv. simpl. rewrite ?Hfit, ?py_index_in_range by exact Hidx. simpl.
    eexists. split; [reflexivity|]. split; [now rewrite length_insert|].
    intros k Hk. case_bool_decide as Hkeq.
    + subst k. rewrite list_lookup_insert_eq by lia. now rewrite Hv.
    + now rewrite list_lookup_insert_ne by congruence.
Qed.

Lemma resting_sizes_fit (it : PlotItem) (xs : list float) :
  well_formed_item it -> item_x it = Some xs ->
  match resting_sizes it with SizeList l => length l = length xs | SizeScalar _ => True end.
Proof.
  intros (xs' & ys & Hx & _ & _ & Horig & Hsize) Hx'.
  rewrite Hx in Hx'. injection Hx' as ->. unfold resting_sizes.
  destruct (original_sizes it) as [os|]; simpl; [exact Horig|].
  destruct (item_size it); [exact I|]. now destruct Hsize as [_ Hnone].
Qed.

Lemma resized_resting_sizes (it it' : PlotItem) :
  well_formed_item it -> resized it it' -> resting_sizes it' = resting_sizes it.
Proof.
  intros (xs & ys & _ & _ & _ & _ & Hsize) (_ & _ & _ & Ho & Hs).
  unfold resting_sizes. rewrite Ho. destruct (original_sizes it) as [os|]; [reflexivity|].
  simpl. destruct Hs as [Hs|Hs]; [exact Hs | discriminate].
Qed.

Lemma set_original_sizes_well_formed (it : PlotItem) :
  well_formed_item it -> well_formed_item (set_original_sizes (resting_sizes it) it).
Proof.
  intros Hwf. pose proof Hwf as (xs & ys & Hx & Hy & Hlen & Horig & Hsize).
  pose proof (resting_sizes_fit it xs Hwf Hx) as Hfit.
  exists xs, ys. simpl.
  split; [exact Hx|]. split; [exact Hy|]. split; [exact Hlen|]. split.
  - destruct (resting_sizes it); [exact I | exact Hfit].
  - destruct (item_size it); [exact I|]. split; [now destruct Hsize | discriminate].
Qed.

Lemma py_list_set_length {A : Type} (l l' : list A) (i : Z) (v : A) :
  py_list_set l i v = Ok l' -> length l' = length l.
Proof.
  unfold py_list_set. destruct (py_index (length l) i) as [k|e]; simpl; [|discriminate].
  intros [= <-]. apply length_insert.
Qed.

Lemma highlight_sizes_length (it : PlotItem) (xs : list float) (os : Sizes)
    (point_idx : Z) (factor : float) (sizes : list float) :
  item_x it = Some xs ->
  match os with SizeList l => length l = length xs | SizeScalar _ => True end ->
  highlight_sizes it os point_idx factor = Ok sizes ->
  length sizes = length xs.
Proof.
  intros Hx Hfit. unfold highlight_sizes. destruct os as [s|l].
  - rewrite Hx. intros Hset. apply py_list_set_length in Hset.
    now rewrite length_replicate in Hset.
  - destruct (py_list_get l point_idx) as [v|e]; simpl; [|discriminate].
    intros Hset. apply py_list_set_length in Hset. congruence.
Qed.

Lemma select_point_in_range (g : Generator) (item_id point_idx : Z) (it : PlotItem)
    (xs : list float) :
  well_formed_items g ->
  plot_items g !! item_id = Some it ->
  item_class it = ScatterPlotItem ->
  item_x it = Some xs ->
  (0 <= point_idx < Z.of_nat (length xs))%Z ->
  exists (g' : Generator) (it' : PlotItem) (sizes : list float),
    _select_point item_id point_idx g = (Ok tt, g')
    /\ selected_item g' = Some item_id /\ selected_index g' = Some point_idx
    /\ point_measurement_map g' = point_measurement_map g
    /\ plot_items g' !! item_id = Some it'
    /\ item_class it' = ScatterPlotItem
    /\ item_x it' = item_x it /\ item_y it' = item_y it
    /\ original_sizes it' = Some (resting_sizes it)
    /\ item_size it' = SizeList sizes
    /\ length sizes = length xs
    /\ forall k : nat, (k < length xs)%nat ->
         sizes !! k
         = if bool_decide (k = Z.to_nat point_idx)
           then (fun v => PrimFloat.mul v 0x1.ccccccccccccdp+0) <$> size_at (resting_sizes it) k
           else size_at (resting_sizes it) k.
Proof.
  intros Hwf Hit Hclass Hx Hidx. unfold _select_point.
  pose proof (clear_selection_items g item_id) as Hclear. rewrite Hit in Hclear.
  destruct Hclear as (it1 & Hit1 & Hres). rewrite Hit1.
  pose proof (Hwf item_id it Hit Hclass) as Hwfit.
  pose proof (resized_well_formed it it1 Hwfit Hres) as Hwf1.
  pose proof (resized_resting_sizes it it1 Hwfit Hres) as Hrest.
  destruct Hres as (Hc1 & Hx1 & Hy1 & Ho1 & _).
  rewrite Hc1, Hclass, bool_decide_eq_true_2 by reflexivity. simpl negb. cbv iota.
  fold (resting_sizes it1). rewrite Hrest.
  destruct (highlight_sizes_in_range (set_original_sizes (resting_sizes it) it1) xs
              (resting_sizes it) point_idx 0x1.ccccccccccccdp+0)
    as (sizes & Hsizes & Hlen & Hat).
  { simpl. congruence. }
  { apply (resting_sizes_fit it xs Hwfit Hx). }
  { exact Hidx. }
  rewrite Hsizes.
  eexists _, (item_set_size (SizeList sizes) (set_original_sizes (resting_sizes it) it1)),
    sizes.
  split; [reflexivity|]. simpl. rewrite lookup_insert_eq.
  split; [reflexivity|]. split; [reflexivity|]. split; [reflexivity|].
  split; [reflexivity|]. split; [congruence|]. split; [exact Hx1|]. split; [exact Hy1|].
  split; [reflexivity|]. split; [reflexivity|]. split; [exact Hlen | exact Hat].
Qed.

(** X22 (graph_generator.py, [_select_point]): selecting a point of a
    scatter item, by an index in range, never raises: the item and the
    index become the selection, the item's original sizes are recorded (its
    current ones if none were recorded before), and the item gets one size
    per point: the original size for every point but the selected one,
    which is 1.8 times its original size.  Data and point map are
    untouched. *)
Theorem select_point_highlights (g : Generator) (item_id point_idx : Z) (it : PlotItem)
    (xs : list float) :
  well_formed_items g ->
  plot_items g !! item_id = Some it ->
  item_class it = ScatterPlotItem ->
  item_x it = Some xs ->
  (0 <= point_idx < Z.of_nat (length xs))%Z ->
  exists (g' : Generator) (it' : PlotItem) (sizes : list float),
    _select_point item_id point_idx g = (Ok tt, g')
    /\ selected_item g' = Some item_id /\ selected_index g' = Some point_idx
    /\ point_measurement_map g' = point_measurement_map g
    /\ plot_items g' !! item_id = Some it'
    /\ item_class it' = ScatterPlotItem
    /\ item_x it' = item_x it /\ item_y it' = item_y it
    /\ original_sizes it' = Some (resting_sizes it)
    /\ item_size it' = SizeList sizes
    /\ length sizes = length xs
    /\ forall k : nat, (k < length xs)%nat ->
         sizes !! k
         = if bool_decide (k = Z.to_nat point_idx)
           then (fun v => PrimFloat.mul v 0x1.ccccccccccccdp+0) <$> size_at (resting_sizes it) k
           else size_at (resting_sizes it) k.
Proof. exact (select_point_in_range g item_id point_idx it xs). Qed.


Lemma well_formed_items_insert (g g' : Generator) (item_id : Z) (it : PlotItem) :
  well_formed_items g ->
  (item_class it = ScatterPlotItem -> well_formed_item it) ->
  plot_items g' = <[item_id := it]> (plot_items g) ->
  well_formed_items g'.
Proof.
  intros Hwf Hit Hitems k it' Hk Hclass. rewrite Hitems in Hk.
  destruct (decide (k = item_id)) as [->|Hne].
  - rewrite lookup_insert_eq in Hk. injection Hk as <-. now apply Hit.
  - rewrite lookup_insert_ne in Hk by congruence. now apply (Hwf k).
Qed.

Lemma select_point_well_formed (g : Generator) (item_id point_idx : Z) :
  well_formed_items g -> well_formed_items (snd (_select_point item_id point_idx g)).
Proof.
  intros Hwf. apply clear_selection_well_formed in Hwf. unfold _select_point.
  destruct (plot_items (_clear_selection g) !! item_id) as [it1|] eqn:Hit1; [|exact Hwf].
  destruct (bool_decide (item_class it1 = ScatterPlotItem)) eqn:Hclass; [|exact Hwf].
  apply bool_decide_eq_true_1 in Hclass. simpl negb. cbv iota.
  pose proof (Hwf item_id it1 Hit1 Hclass) as Hwf1.
  pose proof (set_original_sizes_well_formed it1 Hwf1) as Hwf1'.
  fold (resting_sizes it1).
  set (it1' := set_original_sizes (resting_sizes it1) it1) in *.
  assert (Hwf2 : well_formed_items
                   (set_drawing (<[item_id := it1']> (plot_items (_clear_selection g)))
                      (point_measurement_map (_clear_selection g)) (_clear_selection g))).
  { apply (well_formed_items_insert (_clear_selection g) _ item_id it1');
      [exact Hwf | intros _; exact Hwf1' | reflexivity]. }
  destruct (highlight_sizes it1' (resting_sizes it1) point_idx _) as [sizes|e] eqn:Hsizes;
    [|exact Hwf2].
  cbn [snd].
  eapply (well_formed_items_insert _ _ item_id (item_set_size (SizeList sizes) it1'));
    [exact Hwf2 | | reflexivity].
  intros _. destruct Hwf1' as (xs & ys & Hx & Hy & Hlen & Horig & Hsize).
  exists xs, ys. simpl.
  split; [exact Hx|]. split; [exact Hy|]. split; [exact Hlen|]. split; [exact Horig|].
  split; [|discriminate].
  apply (highlight_sizes_length it1' xs (resting_sizes it1) point_idx
           0x1.ccccccccccccdp+0 sizes Hx); [|exact Hsizes].
  simpl in Horig. destruct (resting_sizes it1); [exact I | exact Horig].
Qed.

Lemma boolean_index_length_eq {A B : Type} (xs : list A) (ys : list B) (mask : list bool) :
  length xs = length ys ->
  length (boolean_index xs mask) = length (boolean_index ys mask).
Proof.
  revert ys mask. induction xs as [|x xs IH]; intros [|y ys] mask Hlen; try discriminate.
  - reflexivity.
  - destruct mask as [|[|] mask]; simpl; [reflexivity| |]; rewrite (IH ys mask); auto.
Qed.

Lemma delete_from_item_well_formed (item_id point_idx : Z) (it : PlotItem)
    (xs ys : list float) (g g' : Generator) :
  well_formed_items g ->
  plot_items g !! item_id = Some it ->
  item_class it = ScatterPlotItem ->
  item_x it = Some xs -> item_y it = Some ys ->
  delete_from_item item_id point_idx it xs ys g = Ok g' ->
  well_formed_items g'.
Proof.
  intros Hwf Hit Hclass Hx Hy. unfold delete_from_item.
  destruct (Hwf item_id it Hit Hclass) as (xs' & ys' & Hx' & Hy' & Hlen & Horig & Hsize).
  rewrite Hx in Hx'. rewrite Hy in Hy'. injection Hx' as <-. injection Hy' as <-.
  destruct (deletion_mask (length xs) point_idx) as [mask|e]; simpl; [|discriminate].
  unfold np_boolean_index.
  destruct (bool_decide (length xs = length mask)); simpl; [|discriminate].
  destruct (bool_decide (length ys = length mask)); simpl; [|discriminate].
  set (new_x := boolean_index xs mask). set (new_y := boolean_index ys mask).
  assert (Hnew : length new_y = length new_x).
  { subst new_x new_y. now apply boolean_index_length_eq. }
  assert (Hfinish : forall it' : PlotItem,
             well_formed_item it' ->
             forall g1 : Generator,
               plot_items g1 = <[item_id := it']> (plot_items g) ->
               forall b : bool,
                 (if b then Ok (_clear_selection g1) else Ok g1) = Ok g' ->
                 well_formed_items g').
  { intros it' Hit' g1 Hg1 b Hres.
    assert (Hwf1 : well_formed_items g1).
    { apply (well_formed_items_insert g g1 item_id it'); auto. }
    destruct b; injection Hres as <-; [now apply clear_selection_well_formed | exact Hwf1]. }
  destruct (original_sizes it) as [[s|l]|] eqn:Hos; simpl.
  - intros Hres. eapply Hfinish; [| |exact Hres]; [|reflexivity].
    exists new_x, new_y. simpl. auto.
  - destruct (bool_decide (length l = length mask)); simpl; [|discriminate].
    intros Hres. eapply Hfinish; [| |exact Hres]; [|reflexivity].
    exists new_x, new_y. simpl.
    assert (length (boolean_index l mask) = length new_x).
    { subst new_x. now apply boolean_index_length_eq. }
    split; [reflexivity|]. split; [reflexivity|]. split; [exact Hnew|].
    split; [assumption|]. split; [assumption | discriminate].
  - intros Hres. eapply Hfinish; [| |exact Hres]; [|reflexivity].
    exists new_x, new_y. simpl.
    split; [reflexivity|]. split; [reflexivity|]. split; [exact Hnew|]. split; [exact I|].
    destruct (item_size it); [exact I | now destruct Hsize].
Qed.

Lemma delete_point_well_formed (g : Generator) (item_id point_idx : Z) :
  well_formed_items g -> well_formed_items (snd (_delete_point item_id point_idx g)).
Proof.
  intros Hwf. unfold _delete_point.
  destruct (plot_items g !! item_id) as [it|] eqn:Hit; [|exact Hwf].
  destruct (bool_decide (item_class it = ScatterPlotItem)) eqn:Hclass; [|exact Hwf].
  apply bool_decide_eq_true_1 in Hclass. simpl negb. cbv iota.
  set (g1 := set_deleted_items _ g).
  assert (Hwf1 : well_formed_items g1) by exact Hwf.
  destruct (item_x it) as [xs|] eqn:Hx; [|exact Hwf1].
  destruct (item_y it) as [ys|] eqn:Hy; [|exact Hwf1].
  destruct (length xs =? 0)%nat; [exact Hwf1|].
  destruct (delete_from_item item_id point_idx it xs ys g1) as [g2|e] eqn:Hdel;
    [|exact Hwf1].
  cbn [snd]. exact (delete_from_item_well_formed item_id point_idx it xs ys g1 g2
                      Hwf1 Hit Hclass Hx Hy Hdel).
Qed.

(** X24 (graph_generator.py, [_clear_selection], [_select_point],
    [_delete_point]): the interactions keep the scatter items well formed,
    whether they return or raise: x and y data stay of the same length,
    and sizes given per point, current or recorded, stay one per point.  So
    well-formedness holds all along a session that starts from items as
    [_plot_scatter] creates them. *)
Theorem interactions_keep_items_well_formed (g : Generator) (item_id point_idx : Z) :
  well_formed_items g ->
  well_formed_items (_clear_selection g)
  /\ well_formed_items (snd (_select_point item_id point_idx g))
  /\ well_formed_items (snd (_delete_point item_id point_idx g)).
Proof.
  intros Hwf. split; [now apply clear_selection_well_formed|].
  split; [now apply select_point_well_formed | now apply delete_point_well_formed].
Qed.

Section HitThenAct.
Variable map_view_to_scene : float * float -> float * float.
Variable map_scene_to_view : float * float -> float * float.
Variable np_distance : float -> float -> float.

(** X25 (graph_generator.py, [_find_nearest_point] followed by
    [_select_point] or [_delete_point], as [_on_plot_clicked] and the
    context menu chain them): on well-formed items, whatever hit testing returns can be
    selected and can be deleted without an exception: the index it returns
    is always one the item has. *)
Theorem hit_then_act_never_raises (g : Generator) (items : list (Z * PlotItem))
    (histogram_data : option HistogramData) (scene_pos : float * float)
    (threshold : float) (r : Nearest) (item_id : Z) (idx : nat) :
  well_formed_items g ->
  (forall k it, (k, it) ∈ items -> plot_items g !! k = Some it) ->
  _find_nearest_point map_view_to_scene map_scene_to_view np_distance items histogram_data
    scene_pos threshold = Ok r ->
  nearest_item r = Some item_id ->
  nearest_idx r = Some idx ->
  fst (_select_point item_id (Z.of_nat idx) g) = Ok tt
  /\ fst (_delete_point item_id (Z.of_nat idx) g) = Ok tt.
Proof.
  intros Hwf Hitems Hfind Hitem Hidx.
  pose proof (nearest_loop_in_range map_view_to_scene np_distance items histogram_data
                scene_pos (map_scene_to_view scene_pos) threshold items
                (fun item H => H)
                {| nearest_item := None; nearest_idx := None; min_distance := infinity |}
                r I Hfind) as Hhit.
  unfold hit_in_range in Hhit. rewrite Hitem, Hidx in Hhit.
  destruct Hhit as (it & Hin & Hcase). apply Hitems in Hin.
  destruct (item_class it) eqn:Hclass; [| |contradiction].
  - destruct Hcase as (xs & ys & Hx & Hy & Hlx & Hly & _).
    assert (Hrange : (0 <= Z.of_nat idx < Z.of_nat (length xs))%Z) by lia.
    split.
    + destruct (select_point_in_range g item_id (Z.of_nat idx) it xs Hwf Hin Hclass Hx Hrange)
        as (g' & _ & _ & -> & _). reflexivity.
    + destruct (Hwf item_id it Hin Hclass) as (xs' & ys' & Hx' & Hy' & Hlen & Horig & _).
      rewrite Hx in Hx'. rewrite Hy in Hy'. injection Hx' as <-. injection Hy' as <-.
      unfold _delete_point. rewrite Hin, Hclass, bool_decide_eq_true_2 by reflexivity.
      simpl negb. cbv iota. rewrite Hx, Hy.
      destruct (length xs =? 0)%nat eqn:Hzero; [reflexivity|].
      destruct (delete_from_item_valid item_id (Z.of_nat idx) it xs ys
                  (set_deleted_items ({[point_id item_id (Z.of_nat idx)]} ∪ deleted_items g) g)
                  Hlen) as (g2 & _ & -> & _); [|exact Hrange|reflexivity].
      unfold sizes_fit. destruct (original_sizes it) as [[s|l]|]; auto.
  - split.
    + unfold _select_point.
      pose proof (clear_selection_items g item_id) as Hclear. rewrite Hin in Hclear.
      destruct Hclear as (it1 & -> & (Hc1 & _)). rewrite Hc1, Hclass.
      now rewrite bool_decide_eq_false_2 by discriminate.
    + unfold _delete_point. rewrite Hin, Hclass.
      now rewrite bool_decide_eq_false_2 by discriminate.
Qed.

End HitThenAct.

Lemma five_shown_well_formed : well_formed_items five_shown.
Proof.
  intros k it Hk _.
  change (plot_items five_shown) with ({[1%Z := five_item]} : gmap Z PlotItem) in Hk.
  apply lookup_singleton_Some in Hk as [_ <-].
  exists [0; 1; 2; 3; 4]%float, [1; 2; 3; 4; 5]%float.
  split; [reflexivity|]. split; [reflexivity|]. split; [reflexivity|]. split; exact I.
Qed.

Lemma select_point_highlights_witness :
  exists (g' : Generator) (it' : PlotItem) (sizes : list float),
    _select_point 1 2 five_shown = (Ok tt, g')
    /\ selected_item g' = Some 1%Z /\ selected_index g' = Some 2%Z
    /\ point_measurement_map g' = point_measurement_map five_shown
    /\ plot_items g' !! 1%Z = Some it'
    /\ item_class it' = ScatterPlotItem
    /\ item_x it' = item_x five_item /\ item_y it' = item_y five_item
    /\ original_sizes it' = Some (resting_sizes five_item)
    /\ item_size it' = SizeList sizes
    /\ length sizes = 5%nat
    /\ forall k : nat, (k < 5)%nat ->
         sizes !! k
         = if bool_decide (k = Z.to_nat 2)
           then (fun v => PrimFloat.mul v 0x1.ccccccccccccdp+0)
                  <$> size_at (resting_sizes five_item) k
           else size_at (resting_sizes five_item) k.
Proof.
  apply (select_point_highlights five_shown 1 2 five_item [0; 1; 2; 3; 4]%float).
  - exact five_shown_well_formed.
  - reflexivity.
  - reflexivity.
  - reflexivity.
  - cbn [length]. lia.
Defined.


Lemma interactions_keep_items_well_formed_witness :
  well_formed_items (_clear_selection five_shown)
  /\ well_formed_items (snd (_select_point 1 2 five_shown))
  /\ well_formed_items (snd (_delete_point 1 2 five_shown)).
Proof.
  apply (interactions_keep_items_well_formed five_shown 1 2).
  exact five_shown_well_formed.
Defined.

Lemma hit_then_act_never_raises_witness :
  fst (_select_point 1 (Z.of_nat 2) five_shown) = Ok tt
  /\ fst (_delete_point 1 (Z.of_nat 2) five_shown) = Ok tt.
Proof.
  eapply (hit_then_act_never_raises identity_view identity_view euclid_distance five_shown
            [(1%Z, five_item)] None (2, 3)%float 20 _ 1%Z 2%nat).
  - exact five_shown_well_formed.
  - intros k it Hk. apply list_elem_of_singleton in Hk. injection Hk as -> ->. reflexivity.
  - vm_compute. reflexivity.
  - reflexivity.
  - reflexivity.
Defined.

(** ** Group labels on the page and group keys in the engine *)

Section GroupLabels.
Context `{NumericRuntime}.
Variable strftime_day : Datetime -> string.

(** X26 (graph_page.py, [_get_group_value], against graph_utils.py,
    [get_grouped_data]): the page and the engine label groups alike:
    whenever the page finds a group value for a measurement under a field
    other than the test date, that value is the key of the group the
    engine puts the measurement in under the same field.  (For the test
    date the page formats the day, the engine the full date.) *)
Theorem group_value_is_group_key (m : Measurement) (field s : string) :
  field <> "test_date"%string ->
  _get_group_value strftime_day m field = Some s ->
  group_key (default field (pydict_get field field_mapping)) m = s.
Proof.
  intros Hdate. unfold _get_group_value, test_log_of.
  destruct (sub_test m) as [st|] eqn:Hst; simpl; [|discriminate].
  destruct (test_log st) as [tl|] eqn:Htl; [|discriminate].
  repeat match goal with
         | |- context [String.eqb field ?f] =>
             destruct (String.eqb_spec field f) as [->|?]
         end; try congruence; try discriminate;
    unfold group_key; simpl; rewrite Hst; simpl; rewrite Htl; simpl.
  - destruct (pia_board tl) as [b|]; [|discriminate]. simpl.
    intros ->. reflexivity.
  - destruct (pia_board tl) as [b|]; [|discriminate]. simpl.
    intros ->. reflexivity.
  - destruct (pmt_device tl) as [p|]; [|discriminate]. simpl.
    intros ->. reflexivity.
  - destruct (pmt_device tl) as [p|]; [|discriminate]. simpl.
    intros ->. reflexivity.
  - destruct (pmt_device tl) as [p|]; [|discriminate]. simpl.
    destruct (generation p) as [gen|]; [|discriminate]. simpl.
    destruct (gen =? 0)%Z; [discriminate|]. now intros [= <-].
  - intros ->. reflexivity.
Qed.

End GroupLabels.

Lemma group_value_is_group_key_witness :
  @group_key sequential_runtime
    (default "pia_serial"%string (pydict_get "pia_serial"%string field_mapping))
    (reading 1 "Gain" (Some 1%float) "A" "SN1" "P1")
  = "SN1"%string.
Proof.
  apply (@group_value_is_group_key sequential_runtime dt_text
           (reading 1 "Gain" (Some 1%float) "A" "SN1" "P1") "pia_serial" "SN1").
  - discriminate.
  - reflexivity.
Defined.

(** ** The values of the histogram *)

Lemma unflagged_count (ys : list float) (flags : list bool) :
  length flags = length ys ->
  (length (List.filter (fun p : float * bool => negb (snd p)) (zip ys flags))
   + mask_sum flags = length ys)%nat.
Proof.
  unfold mask_sum. revert flags.
  induction ys as [|y ys IH]; intros [|b flags] Hlen; try discriminate; [reflexivity|].
  simpl in Hlen. injection Hlen as Hlen. specialize (IH flags Hlen).
  simpl. destruct b; simpl; lia.
Qed.

Section HistogramValues.
Context `{NumericRuntime}.
Variable config : GraphConfig.

Lemma prepare_group_lengths (ms : list Measurement) (start : Z) (gd : GroupData) :
  _prepare_group_data config ms start = Ok gd ->
  length (y_data gd) = length (x_data gd)
  /\ length (is_outlier gd) = length (x_data gd).
Proof.
  intros Hgd. destruct (comparison_mode config) eqn:Hmode.
  - unfold _prepare_group_data in Hgd. rewrite Hmode in Hgd.
    destruct (_extract_standard_data config ms start) as [ex|e] eqn:Hex; simpl in Hgd;
      [|discriminate].
    injection Hgd as <-. simpl.
    destruct (extract_standard_aligned_lemma config ms start ex Hex)
      as (_ & Hy & Hx & _ & Ho).
    rewrite Hy, Hx, Ho, length_map. auto.
  - destruct (prepare_group_comparison_shape config ms start gd) as
      (pairs & _ & _ & _ & Hx & Hy & _ & Ho); [congruence | exact Hgd |].
    apply (f_equal length) in Hx, Hy. rewrite !length_map in Hx, Hy. lia.
  - destruct (prepare_group_comparison_shape config ms start gd) as
      (pairs & _ & _ & _ & Hx & Hy & _ & Ho); [congruence | exact Hgd |].
    apply (f_equal length) in Hx, Hy. rewrite !length_map in Hx, Hy. lia.
Qed.

(** X27 (graph_generator.py, [_plot_histogram] on the result of
    [prepare_data]): in every mode, the histogram is computed from every
    prepared point that is not left out as an outlier: the number of its
    values plus the number of points flagged (when outlier removal is on)
    is [total_points]; without outlier removal it is [total_points]. *)
Theorem histogram_values_count (pd : PreparedData) :
  build_prepared_data config = Ok pd ->
  (length (histogram_values config (groups pd))
   + (if remove_outliers config then flagged_points (groups pd) else 0)
   = total_points (metadata pd))%nat.
Proof.
  intros Hpd. destruct (build_prepared_data_groups config pd Hpd) as (Hall & -> & _).
  unfold histogram_values, flagged_points.
  induction Hall as [|g d gs ds [_ [start Hgd]] _ IH]; simpl.
  - now destruct (remove_outliers config).
  - destruct (prepare_group_lengths _ _ _ Hgd) as [Hy Ho]. rewrite length_app.
    assert (Hhead :
              (length (match y_data (snd d) with
                       | [] => []
                       | _ :: _ =>
                           if remove_outliers config
                           then map fst (List.filter (fun p : float * bool => negb (snd p))
                                           (zip (y_data (snd d)) (is_outlier (snd d))))
                           else y_data (snd d)
                       end)
               + (if remove_outliers config then mask_sum (is_outlier (snd d)) else 0)
               = length (x_data (snd d)))%nat).
    { destruct (remove_outliers config).
      - destruct (y_data (snd d)) as [|y ys] eqn:Hyd.
        + simpl in Hy. destruct (is_outlier (snd d)); [unfold mask_sum; simpl; lia|].
          simpl in Ho. lia.
        + rewrite length_map, <- Hy. apply unflagged_count. lia.
      - destruct (y_data (snd d)); simpl in *; lia. }
    destruct (remove_outliers config); lia.
Qed.

End HistogramValues.

Lemma histogram_values_count_witness :
  exists pd : PreparedData,
    @build_prepared_data sequential_runtime (grouped_config three_and_four "test_fixture")
    = Ok pd
    /\ (length (histogram_values (grouped_config three_and_four "test_fixture") (groups pd))
        + (if remove_outliers (grouped_config three_and_four "test_fixture")
           then flagged_points (groups pd) else 0)
        = total_points (metadata pd))%nat.
Proof.
  eexists ?[pd].
  pose proof (@histogram_values_count sequential_runtime
                (grouped_config three_and_four "test_fixture") ?pd) as Hcount.
  split; [vm_compute; reflexivity|].
  apply Hcount. vm_compute. reflexivity.
Defined.

(** ** Deletion, the selection and the point map *)

Lemma delete_from_item_result (item_id point_idx : Z) (it : PlotItem)
    (xs ys : list float) (g g' : Generator) :
  delete_from_item item_id point_idx it xs ys g = Ok g' ->
  exists (it' : PlotItem) (g1 : Generator) (mask : list bool),
    deletion_mask (length xs) point_idx = Ok mask
    /\ item_class it' = item_class it
    /\ item_x it' = Some (boolean_index xs mask)
    /\ plot_items g1 = <[item_id := it']> (plot_items g)
    /\ point_measurement_map g1 = reindex_map item_id point_idx (point_measurement_map g)
    /\ selected_item g1 = selected_item g
    /\ selected_index g1 = selected_index g
    /\ deleted_items g1 = deleted_items g
    /\ g' = if bool_decide (selected_item g = Some item_id)
               && bool_decide (selected_index g = Some point_idx)
            then _clear_selection g1 else g1.
Proof.
  unfold delete_from_item.
  destruct (deletion_mask (length xs) point_idx) as [mask|e]; simpl; [|discriminate].
  unfold np_boolean_index.
  destruct (bool_decide (length xs = length mask)); simpl; [|discriminate].
  destruct (bool_decide (length ys = length mask)); simpl; [|discriminate].
  assert (Hshape : forall it' : PlotItem,
             item_class it' = item_class it ->
             item_x it' = Some (boolean_index xs mask) ->
             (if bool_decide (selected_item g = Some item_id)
                 && bool_decide (selected_index g = Some point_idx)
              then Ok (_clear_selection
                         (set_drawing (<[item_id := it']> (plot_items g))
                            (reindex_map item_id point_idx (point_measurement_map g)) g))
              else Ok (set_drawing (<[item_id := it']> (plot_items g))
                         (reindex_map item_id point_idx (point_measurement_map g)) g))
             = Ok g' ->
             exists (it'0 : PlotItem) (g2 : Generator) (mask0 : list bool),
               Ok mask = Ok mask0
               /\ item_class it'0 = item_class it
               /\ item_x it'0 = Some (boolean_index xs mask0)
               /\ plot_items g2 = <[item_id := it'0]> (plot_items g)
               /\ point_measurement_map g2
                  = reindex_map item_id point_idx (point_measurement_map g)
               /\ selected_item g2 = selected_item g
               /\ selected_index g2 = selected_index g
               /\ deleted_items g2 = deleted_items g
               /\ g' = if bool_decide (selected_item g = Some item_id)
                          && bool_decide (selected_index g = Some point_idx)
                       then _clear_selection g2 else g2).
  { intros it' Hc Hx Hres.
    exists it', (set_drawing (<[item_id := it']> (plot_items g))
                   (reindex_map item_id point_idx (point_measurement_map g)) g), mask.
    split; [reflexivity|]. split; [exact Hc|]. split; [exact Hx|].
    split; [reflexivity|]. split; [reflexivity|]. split; [reflexivity|].
    split; [reflexivity|]. split; [reflexivity|].
    destruct (_ && _); now injection Hres as <-. }
  destruct (original_sizes it) as [[s|l]|]; simpl.
  - intros Hres. eapply Hshape; [| |exact Hres]; reflexivity.
  - destruct (bool_decide (length l = length mask)); simpl; [|discriminate].
    intros Hres. eapply Hshape; [| |exact Hres]; reflexivity.
  - intros Hres. eapply Hshape; [| |exact Hres]; reflexivity.
Qed.

Lemma delete_point_in_range (g : Generator) (item_id point_idx : Z) (it : PlotItem)
    (xs : list float) :
  well_formed_items g ->
  plot_items g !! item_id = Some it ->
  item_class it = ScatterPlotItem ->
  item_x it = Some xs ->
  (0 <= point_idx < Z.of_nat (length xs))%Z ->
  exists (g' g1 : Generator) (it' : PlotItem),
    _delete_point item_id point_idx g = (Ok tt, g')
    /\ item_class it' = ScatterPlotItem
    /\ item_x it' = Some (delete (Z.to_nat point_idx) xs)
    /\ plot_items g1 = <[item_id := it']> (plot_items g)
    /\ point_measurement_map g1 = reindex_map item_id point_idx (point_measurement_map g)
    /\ selected_item g1 = selected_item g
    /\ selected_index g1 = selected_index g
    /\ deleted_items g1 = {[point_id item_id point_idx]} ∪ deleted_items g
    /\ g' = if bool_decide (selected_item g = Some item_id)
               && bool_decide (selected_index g = Some point_idx)
            then _clear_selection g1 else g1.
Proof.
  intros Hwf Hit Hclass Hx Hidx.
  destruct (Hwf item_id it Hit Hclass) as (xs' & ys & Hx' & Hy & Hlen & Horig & _).
  rewrite Hx in Hx'. injection Hx' as <-.
  unfold _delete_point. rewrite Hit, Hclass, bool_decide_eq_true_2 by reflexivity.
  simpl negb. cbv iota. rewrite Hx, Hy.
  destruct (length xs =? 0)%nat eqn:Hzero; [apply Nat.eqb_eq in Hzero; lia|].
  set (g0 := set_deleted_items ({[point_id item_id point_idx]} ∪ deleted_items g) g).
  destruct (delete_from_item_valid item_id point_idx it xs ys g0 Hlen)
    as (g' & _ & Hdel & _); [|exact Hidx|].
  { unfold sizes_fit. destruct (original_sizes it) as [[s|l]|]; auto. }
  rewrite Hdel.
  destruct (delete_from_item_result item_id point_idx it xs ys g0 g' Hdel)
    as (it' & g1 & mask & Hmask & Hc' & Hx' & Hitems & Hmap & Hsi & Hsx & Hdi & Hg').
  rewrite deletion_mask_valid in Hmask by exact Hidx. injection Hmask as <-.
  rewrite boolean_index_delete in Hx'.
  exists g', g1, it'. split; [reflexivity|]. split; [congruence|]. split; [exact Hx'|].
  split; [exact Hitems|]. split; [exact Hmap|]. split; [exact Hsi|]. split; [exact Hsx|].
  split; [exact Hdi | exact Hg'].
Qed.


Lemma clear_selection_points_registered (g : Generator) :
  points_registered g -> points_registered (_clear_selection g).
Proof.
  intros Hreg k it' xs Hk Hclass Hx j.
  pose proof (clear_selection_items g k) as Hitems.
  destruct (plot_items g !! k) as [it|] eqn:Hit; [|congruence].
  destruct Hitems as (it'' & Hk' & (Hc & Hx' & _)). rewrite Hk in Hk'. injection Hk' as <-.
  change (point_measurement_map (_clear_selection g)) with (point_measurement_map g).
  apply (Hreg k it xs Hit); congruence.
Qed.

(** X29 (graph_generator.py, [_delete_point]): deletion keeps the point
    map aligned with the widget: if every point of every scatter item had
    an entry and there were none past the last point, the same holds after
    a point in range is deleted, for the item that lost a point (whose
    entries are renumbered) and for every other item. *)
Theorem delete_point_keeps_points_registered (g : Generator) (item_id point_idx : Z)
    (it : PlotItem) (xs : list float) :
  well_formed_items g ->
  points_registered g ->
  plot_items g !! item_id = Some it ->
  item_class it = ScatterPlotItem ->
  item_x it = Some xs ->
  (0 <= point_idx < Z.of_nat (length xs))%Z ->
  exists g' : Generator,
    _delete_point item_id point_idx g = (Ok tt, g') /\ points_registered g'.
Proof.
  intros Hwf Hreg Hit Hclass Hx Hidx.
  destruct (delete_point_in_range g item_id point_idx it xs Hwf Hit Hclass Hx Hidx)
    as (g' & g1 & it' & Hdel & Hc' & Hx' & Hitems & Hmap & _ & _ & _ & Hg').
  exists g'. split; [exact Hdel|].
  assert (Hreg1 : points_registered g1).
  { intros k itk xsk Hk Hck Hxk j. rewrite Hmap, reindex_map_lookup. unfold reindexed.
    rewrite Hitems in Hk. destruct (decide (k = item_id)) as [->|Hne].
    - rewrite lookup_insert_eq in Hk. injection Hk as <-.
      rewrite Hx' in Hxk. injection Hxk as <-.
      rewrite bool_decide_eq_true_2 by reflexivity.
      rewrite length_delete by (apply lookup_lt_is_Some_2; lia).
      destruct (Z.ltb_spec j point_idx).
      + rewrite (Hreg item_id it xs Hit Hclass Hx j). lia.
      + rewrite (Hreg item_id it xs Hit Hclass Hx (j + 1)%Z). lia.
    - rewrite lookup_insert_ne in Hk by congruence.
      rewrite bool_decide_eq_false_2 by exact Hne.
      apply (Hreg k itk xsk Hk Hck Hxk). }
  rewrite Hg'. destruct (_ && _); [|exact Hreg1].
  now apply clear_selection_points_registered.
Qed.

Lemma five_registered_well_formed : well_formed_items five_registered.
Proof.
  intros k it Hk _.
  change (plot_items five_registered) with ({[1%Z := five_item]} : gmap Z PlotItem) in Hk.
  apply lookup_singleton_Some in Hk as [_ <-].
  exists [0; 1; 2; 3; 4]%float, [1; 2; 3; 4; 5]%float.
  split; [reflexivity|]. split; [reflexivity|]. split; [reflexivity|]. split; exact I.
Qed.

Lemma five_registered_points : points_registered five_registered.
Proof.
  intros k it xs Hk _ Hx j.
  change (plot_items five_registered) with ({[1%Z := five_item]} : gmap Z PlotItem) in Hk.
  apply lookup_singleton_Some in Hk as [<- <-]. injection Hx as <-.
  cbn [length]. split.
  - intros Hsome. destruct (decide (0 <= j < 5)%Z) as [Hin|Hout]; [lia|]. exfalso.
    destruct Hsome as [m Hm]. apply elem_of_list_to_map_2 in Hm.
    apply list_elem_of_fmap in Hm as (j' & [= <- _] & Hj').
    repeat (apply elem_of_cons in Hj' as [->|Hj']; [lia|]).
    now apply elem_of_nil in Hj'.
  - intros Hj.
    assert (Hcases : j = 0%Z \/ j = 1%Z \/ j = 2%Z \/ j = 3%Z \/ j = 4%Z) by lia.
    destruct Hcases as [->|[->|[->|[->| ->]]]]; vm_compute; eauto.
Qed.


Lemma delete_point_keeps_points_registered_witness :
  exists g' : Generator,
    _delete_point 1 2 five_registered = (Ok tt, g') /\ points_registered g'.
Proof.
  apply (delete_point_keeps_points_registered five_registered 1 2 five_item
           [0; 1; 2; 3; 4]%float).
  - exact five_registered_well_formed.
  - exact five_registered_points.
  - reflexivity.
  - reflexivity.
  - reflexivity.
  - cbn [length]. lia.
Defined.

(** ** Hovering over an item that holds the selection *)

Lemma clear_hover_items (h : Hover) (g : Generator) (k : Z) :
  match plot_items g !! k with
  | Some it =>
      exists it', plot_items (snd (_clear_hover_highlight h g)) !! k = Some it'
                  /\ resized it it'
  | None => plot_items (snd (_clear_hover_highlight h g)) !! k = None
  end.
Proof.
  assert (Hsame : match plot_items g !! k with
                  | Some it => exists it', plot_items g !! k = Some it' /\ resized it it'
                  | None => plot_items g !! k = None
                  end).
  { destruct (plot_items g !! k) as [it|]; [|reflexivity].
    exists it. split; [reflexivity | apply resized_refl]. }
  unfold _clear_hover_highlight. simpl.
  destruct (hover_item h) as [hid|]; [|exact Hsame].
  destruct (plot_items g !! hid) as [hit|] eqn:Hhid; [|exact Hsame].
  destruct (item_class hit) eqn:Hclass; try exact Hsame.
  destruct (original_sizes hit) as [os|] eqn:Hos; [|exact Hsame].
  destruct (negb _ || negb _); [|exact Hsame].
  destruct (decide (k = hid)) as [->|Hne].
  - rewrite Hhid, lookup_insert_eq. eexists. split; [reflexivity|].
    unfold resized. simpl. auto 10.
  - rewrite lookup_insert_ne by congruence. exact Hsame.
Qed.

Lemma apply_hover_in_range (g : Generator) (h : Hover) (item_id point_idx : Z)
    (it : PlotItem) (xs : list float) :
  well_formed_items g ->
  plot_items g !! item_id = Some it ->
  item_class it = ScatterPlotItem ->
  item_x it = Some xs ->
  (0 <= point_idx < Z.of_nat (length xs))%Z ->
  ~ (selected_item g = Some item_id /\ selected_index g = Some point_idx) ->
  exists (h' : Hover) (g' : Generator) (it' : PlotItem) (sizes : list float),
    _apply_hover_highlight item_id point_idx h g = (Ok tt, (h', g'))
    /\ hover_item h' = Some item_id /\ hover_index h' = Some point_idx
    /\ selected_item g' = selected_item g /\ selected_index g' = selected_index g
    /\ plot_items g' !! item_id = Some it'
    /\ item_size it' = SizeList sizes
    /\ forall k : nat, (k < length xs)%nat ->
         sizes !! k
         = if bool_decide (k = Z.to_nat point_idx)
           then (fun v => PrimFloat.mul v 1.5) <$> size_at (resting_sizes it) k
           else size_at (resting_sizes it) k.
Proof.
  intros Hwf Hit Hclass Hx Hidx Hnot. unfold _apply_hover_highlight.
  set (hg1 := if negb (bool_decide (hover_item h = Some item_id))
                 || negb (bool_decide (hover_index h = Some point_idx))
              then _clear_hover_highlight h g else (h, g)).
  assert (Hg1 : (exists it1, plot_items (snd hg1) !! item_id = Some it1 /\ resized it it1)
                /\ selected_item (snd hg1) = selected_item g
                /\ selected_index (snd hg1) = selected_index g).
  { subst hg1. destruct (negb _ || negb _).
    - pose proof (clear_hover_items h g item_id) as Hclear. rewrite Hit in Hclear.
      split; [exact Hclear|]. split; reflexivity.
    - split; [|split; reflexivity]. exists it. split; [exact Hit | apply resized_refl]. }
  destruct Hg1 as ((it1 & Hit1 & Hres) & Hsi & Hsx). rewrite Hit1.
  pose proof (Hwf item_id it Hit Hclass) as Hwfit.
  pose proof (resized_resting_sizes it it1 Hwfit Hres) as Hrest.
  destruct Hres as (Hc1 & Hx1 & _).
  rewrite Hc1, Hclass, bool_decide_eq_true_2 by reflexivity. simpl negb. cbv iota.
  rewrite Hsi, Hsx.
  assert (Hsel : negb (bool_decide (selected_item g = Some item_id))
                 || negb (bool_decide (selected_index g = Some point_idx)) = true).
  { destruct (bool_decide (selected_item g = Some item_id)) eqn:Hb1;
      destruct (bool_decide (selected_index g = Some point_idx)) eqn:Hb2; try reflexivity.
    exfalso. apply Hnot.
    split; [now apply bool_decide_eq_true_1 in Hb1 | now apply bool_decide_eq_true_1 in Hb2]. }
  rewrite Hsel. fold (resting_sizes it1). rewrite Hrest.
  destruct (highlight_sizes_in_range (set_original_sizes (resting_sizes it) it1) xs
              (resting_sizes it) point_idx 1.5)
    as (sizes & Hsizes & Hlen & Hat).
  { simpl. congruence. }
  { apply (resting_sizes_fit it xs Hwfit Hx). }
  { exact Hidx. }
  rewrite Hsizes.
  eexists _, _, (item_set_size (SizeList sizes) (set_original_sizes (resting_sizes it) it1)),
    sizes.
  split; [reflexivity|]. simpl. rewrite lookup_insert_eq.
  split; [reflexivity|]. split; [reflexivity|]. split; [exact Hsi|]. split; [exact Hsx|].
  split; [reflexivity|]. split; [reflexivity | exact Hat].
Qed.

(** X30 (graph_generator.py, [_select_point] then
    [_apply_hover_highlight]): hovering over another point of the item
    that holds the selected point takes the selection's enlargement away:
    the sizes are rebuilt from the original ones with only the hovered
    point enlarged (1.5 times), so the selected point is back at its
    original size although it is still the selection. *)
Theorem hover_replaces_selection_highlight (g : Generator) (h : Hover)
    (item_id selected hovered : Z) (it : PlotItem) (xs : list float) :
  well_formed_items g ->
  plot_items g !! item_id = Some it ->
  item_class it = ScatterPlotItem ->
  item_x it = Some xs ->
  (0 <= selected < Z.of_nat (length xs))%Z ->
  (0 <= hovered < Z.of_nat (length xs))%Z ->
  selected <> hovered ->
  exists (gs g' : Generator) (h' : Hover) (it' : PlotItem) (sizes : list float),
    _select_point item_id selected g = (Ok tt, gs)
    /\ _apply_hover_highlight item_id hovered h gs = (Ok tt, (h', g'))
    /\ selected_item g' = Some item_id /\ selected_index g' = Some selected
    /\ hover_item h' = Some item_id /\ hover_index h' = Some hovered
    /\ plot_items g' !! item_id = Some it'
    /\ item_size it' = SizeList sizes
    /\ sizes !! Z.to_nat selected = size_at (resting_sizes it) (Z.to_nat selected)
    /\ sizes !! Z.to_nat hovered
       = (fun v => PrimFloat.mul v 1.5) <$> size_at (resting_sizes it) (Z.to_nat hovered).
Proof.
  intros Hwf Hit Hclass Hx Hsel Hhov Hne.
  destruct (select_point_in_range g item_id selected it xs Hwf Hit Hclass Hx Hsel)
    as (gs & its & sizes0 & Hselect & Hsi & Hsx & _ & Hlook & Hcs & Hxs & _ & Hos & _).
  assert (Hwfs : well_formed_items gs).
  { pose proof (select_point_well_formed g item_id selected Hwf) as Hw.
    now rewrite Hselect in Hw. }
  assert (Hxs' : item_x its = Some xs) by congruence.
  destruct (apply_hover_in_range gs h item_id hovered its xs Hwfs Hlook Hcs Hxs' Hhov)
    as (h' & g' & it' & sizes & Hhover & Hhi & Hhx & Hsi' & Hsx' & Hlook' & Hsize & Hat).
  { rewrite Hsx. intros [_ [= Heq]]. now apply Hne. }
  assert (Hrest : resting_sizes its = resting_sizes it).
  { unfold resting_sizes at 1. now rewrite Hos. }
  exists gs, g', h', it', sizes.
  split; [exact Hselect|]. split; [exact Hhover|].
  split; [congruence|]. split; [congruence|]. split; [exact Hhi|]. split; [exact Hhx|].
  split; [exact Hlook'|]. split; [exact Hsize|]. split.
  - rewrite Hat by lia. rewrite bool_decide_eq_false_2 by lia. now rewrite Hrest.
  - rewrite Hat by lia. rewrite bool_decide_eq_true_2 by reflexivity. now rewrite Hrest.
Qed.

Lemma hover_replaces_selection_highlight_witness :
  exists (gs g' : Generator) (h' : Hover) (it' : PlotItem) (sizes : list float),
    _select_point 1 2 five_shown = (Ok tt, gs)
    /\ _apply_hover_highlight 1 4 {| hover_item := None; hover_index := None |} gs
       = (Ok tt, (h', g'))
    /\ selected_item g' = Some 1%Z /\ selected_index g' = Some 2%Z
    /\ hover_item h' = Some 1%Z /\ hover_index h' = Some 4%Z
    /\ plot_items g' !! 1%Z = Some it'
    /\ item_size it' = SizeList sizes
    /\ sizes !! Z.to_nat 2 = size_at (resting_sizes five_item) (Z.to_nat 2)
    /\ sizes !! Z.to_nat 4
       = (fun v => PrimFloat.mul v 1.5) <$> size_at (resting_sizes five_item) (Z.to_nat 4).
Proof.
  apply (hover_replaces_selection_highlight five_shown
           {| hover_item := None; hover_index := None |} 1 2 4 five_item
           [0; 1; 2; 3; 4]%float).
  - exact five_shown_well_formed.
  - reflexivity.
  - reflexivity.
  - reflexivity.
  - cbn [length]. lia.
  - cbn [length]. lia.
  - discriminate.
Defined.
